(** * odoc-mcp: the documentation retrieval and extraction layer of
    [mcp_server.py], embedded in Rocq.

    The embedding follows the Python source function by function.  Python
    values that come from JSON or live in the cache are [pyval]s; the module
    state ([_cache], the clock readings, the requests sent) is an explicit
    [world] threaded through a state-and-exception monad; the libraries the
    program calls (aiohttp, json, BeautifulSoup's parser, [version_utils],
    [urllib.parse.quote], the file system) are the fields of an [externals]
    record, so every theorem holds whatever those collaborators answer. *)

From Stdlib Require Import Floats ZArith Ascii String List Bool Lia.
From stdpp Require Import base strings list gmap pretty sorting.

Set Warnings "-register-all".

Local Open Scope string_scope.
Local Open Scope list_scope.

(* ===================================================================== *)
(** * Part I: definitions *)
(* ===================================================================== *)

(** ** Python string operations

    A [string] is read as a Python [str] whose characters are code points
    below 256; on such strings the operations below are the ones of
    [str]. *)

Module Str.

(** [s.startswith(p)] *)
Fixpoint startswith (s p : string) {struct p} : bool :=
  match p with
  | EmptyString => true
  | String c p' =>
      match s with
      | EmptyString => false
      | String d s' => Ascii.eqb c d && startswith s' p'
      end
  end.

(** [s[n:]] for a non-negative literal [n] *)
Fixpoint slice_from (n : nat) (s : string) : string :=
  match n, s with
  | O, _ => s
  | S _, EmptyString => EmptyString
  | S n', String _ s' => slice_from n' s'
  end.

(** [s[:n]] *)
Fixpoint slice_to (n : nat) (s : string) : string :=
  match n, s with
  | O, _ => EmptyString
  | S _, EmptyString => EmptyString
  | S n', String c s' => String c (slice_to n' s')
  end.

(** [s.endswith(suf)]: the last [len(suf)] characters of [s] are [suf]. *)
Definition endswith (s suf : string) : bool :=
  let n := String.length s in
  let m := String.length suf in
  (m <=? n)%nat && String.eqb (slice_from (n - m) s) suf.

(** [sep.join(l)] *)
Fixpoint join (sep : string) (l : list string) : string :=
  match l with
  | [] => EmptyString
  | x :: l' =>
      match l' with
      | [] => x
      | _ :: _ => x +:+ sep +:+ join sep l'
      end
  end.

(** [s.split(sep)] for a separator of one character: never the empty list. *)
Fixpoint split (sep : ascii) (s : string) : list string :=
  match s with
  | EmptyString => [EmptyString]
  | String c s' =>
      if Ascii.eqb c sep then EmptyString :: split sep s'
      else match split sep s' with
           | [] => [String c EmptyString]
           | w :: ws => String c w :: ws
           end
  end.

(** [c.lower()] on code points below 256: A-Z, and the Latin-1 capitals
    U+00C0-U+00DE except the multiplication sign U+00D7. *)
Definition lower_char (c : ascii) : ascii :=
  let n := nat_of_ascii c in
  if ((65 <=? n) && (n <=? 90))%nat then ascii_of_nat (n + 32)
  else if ((192 <=? n) && (n <=? 222) && negb (n =? 215))%nat then ascii_of_nat (n + 32)
  else c.

(** [s.lower()] *)
Fixpoint lower (s : string) : string :=
  match s with
  | EmptyString => EmptyString
  | String c s' => String (lower_char c) (lower s')
  end.

(** [c.isspace()] on code points below 256. *)
Definition isspace (c : ascii) : bool :=
  let n := nat_of_ascii c in
  (((9 <=? n) && (n <=? 13)) || ((28 <=? n) && (n <=? 32)) || (n =? 133) || (n =? 160))%nat.

(** [s.lstrip(chars)] with the set of characters as a predicate. *)
Fixpoint lstrip_by (p : ascii -> bool) (s : string) : string :=
  match s with
  | EmptyString => EmptyString
  | String c s' => if p c then lstrip_by p s' else s
  end.

(** [s.rstrip(chars)] *)
Fixpoint rstrip_by (p : ascii -> bool) (s : string) : string :=
  match s with
  | EmptyString => EmptyString
  | String c s' =>
      match rstrip_by p s' with
      | EmptyString => if p c then EmptyString else String c EmptyString
      | r => String c r
      end
  end.

(** [s.strip()] *)
Definition strip (s : string) : string := rstrip_by isspace (lstrip_by isspace s).

(** [q in s]: [q] occurs in [s] as a substring. *)
Fixpoint contains (s q : string) : bool :=
  startswith s q ||
  match s with
  | EmptyString => false
  | String _ s' => contains s' q
  end.

(** [a < b] on [str]: lexicographic on code points. *)
Fixpoint ltb (a b : string) : bool :=
  match a, b with
  | _, EmptyString => false
  | EmptyString, String _ _ => true
  | String x a', String y b' =>
      if (nat_of_ascii x <? nat_of_ascii y)%nat then true
      else if (nat_of_ascii y <? nat_of_ascii x)%nat then false
      else ltb a' b'
  end.

End Str.

(** ** Python values

    What [json.loads] returns and what the cache and the result
    dictionaries hold.  A dictionary is an association list with distinct
    keys, first binding wins on lookup. *)

Inductive pyval : Type :=
| PyNone
| PyBool (b : bool)
| PyInt (z : Z)
| PyFloat (f : float)
| PyStr (s : string)
| PyList (l : list pyval)
| PyDict (d : list (string * pyval)).

(** Truth value of a value in [if v:] *)
Definition truthy (v : pyval) : bool :=
  match v with
  | PyNone => false
  | PyBool b => b
  | PyInt z => negb (z =? 0)%Z
  | PyFloat f => negb (PrimFloat.eqb f 0%float)
  | PyStr s => negb (String.eqb s EmptyString)
  | PyList l => match l with [] => false | _ :: _ => true end
  | PyDict d => match d with [] => false | _ :: _ => true end
  end.

Fixpoint assoc {A : Type} (k : string) (d : list (string * A)) : option A :=
  match d with
  | [] => None
  | (k', v) :: d' => if String.eqb k k' then Some v else assoc k d'
  end.

(** ** Exceptions and outcomes *)

Inductive exn_class : Type :=
| ClientError      (* aiohttp.ClientError and its subclasses *)
| JSONDecodeError
| AttributeError
| TypeError
| OSError
| OtherError.      (* any other subclass of Exception *)

(** An exception: its class and [str(e)]. *)
Record exn : Type := Exn { exn_cls : exn_class; exn_msg : string }.

Inductive outcome (A : Type) : Type :=
| Returned (a : A)
| Raised (e : exn).
Arguments Returned {A} a.
Arguments Raised {A} e.

Definition obind {A B : Type} (o : outcome A) (k : A -> outcome B) : outcome B :=
  match o with
  | Returned a => k a
  | Raised e => Raised e
  end.

(** [d.get(key, default)] on a value: only a [dict] has [get]. *)
Definition py_get (v : pyval) (key : string) (default : pyval) : outcome pyval :=
  match v with
  | PyDict d => Returned (match assoc key d with Some x => x | None => default end)
  | _ => Raised (Exn AttributeError "object has no attribute 'get'")
  end.

(** The elements [for x in v] visits: the items of a list, the keys of a
    dictionary, the characters of a string; other values are not iterable. *)
Definition py_iter (v : pyval) : outcome (list pyval) :=
  match v with
  | PyList l => Returned l
  | PyDict d => Returned (map (fun kv => PyStr (fst kv)) d)
  | PyStr s => Returned (map (fun c => PyStr (String c EmptyString)) (list_ascii_of_string s))
  | _ => Raised (Exn TypeError "object is not iterable")
  end.

(** ** The parsed document (BeautifulSoup's tree)

    A [Tag] carries its name, the list of its classes (the parser splits
    the [class] attribute on whitespace), its other attributes and its
    children; a [NavigableString] is a piece of text; a [Comment] stands
    for the strings [get_text] leaves out (comments, declarations). *)

Inductive node : Type :=
| NavigableString (s : string)
| Comment (s : string)
| Tag (name : string) (classes : list string) (attrs : list (string * string))
      (children : list node).

(** An element together with the siblings that follow it. *)
Record located : Type := Loc { elt : node; next_siblings : list node }.

(** [n] and its descendants in document order. *)
Fixpoint self_and_descendants (following : list node) (n : node) : list located :=
  Loc n following ::
  match n with
  | Tag _ _ _ ch =>
      (fix go (l : list node) : list located :=
         match l with
         | [] => []
         | c :: l' => self_and_descendants l' c ++ go l'
         end) ch
  | _ => []
  end.

(** The descendants of a list of sibling nodes, in document order. *)
Fixpoint descendants_in (l : list node) : list located :=
  match l with
  | [] => []
  | c :: l' => self_and_descendants l' c ++ descendants_in l'
  end.

(** [tag.descendants] *)
Definition descendants (n : node) : list located :=
  match n with
  | Tag _ _ _ ch => descendants_in ch
  | _ => []
  end.

Definition tag_named (nm : string) (n : node) : bool :=
  match n with
  | Tag nm' _ _ _ => String.eqb nm' nm
  | _ => false
  end.

(** The [class_=c] filter: one of the classes is [c], or the whole
    attribute is. *)
Definition has_class (c : string) (n : node) : bool :=
  match n with
  | Tag _ cls _ _ =>
      existsb (String.eqb c) cls
      || (match cls with [] => false | _ :: _ => String.eqb (Str.join " " cls) c end)
  | _ => false
  end.

(** [soup.find_all(nm)] and [soup.find_all(nm, class_=c)] over the
    top-level nodes of a soup. *)
Definition find_all (nm : string) (soup : list node) : list located :=
  filter (fun d => tag_named nm (elt d)) (descendants_in soup).

Definition find_all_class (nm c : string) (soup : list node) : list located :=
  filter (fun d => tag_named nm (elt d) && has_class c (elt d)) (descendants_in soup).

(** [tag.find_all(nm)], [tag.find(nm)], [tag.find(nm, class_=c)] *)
Definition tag_find_all (nm : string) (n : node) : list node :=
  map elt (filter (fun d => tag_named nm (elt d)) (descendants n)).

Definition tag_find (nm : string) (n : node) : option node :=
  head (tag_find_all nm n).

Definition tag_find_class (nm c : string) (n : node) : option node :=
  head (map elt (filter (fun d => tag_named nm (elt d) && has_class c (elt d)) (descendants n))).

(** [tag.find_next_sibling(nm, class_=c)]: the first later sibling that
    matches, not only the adjacent one. *)
Definition find_next_sibling (nm c : string) (d : located) : option node :=
  head (filter (fun n => tag_named nm n && has_class c n) (next_siblings d)).

(** [tag.get(key)] and [tag.get(key, default)] *)
Definition tag_attr (key : string) (n : node) : option string :=
  match n with
  | Tag _ _ at_ _ => assoc key at_
  | _ => None
  end.

(** The text strings below a tag, in document order. *)
Definition all_strings (n : node) : list string :=
  flat_map (fun d => match elt d with NavigableString s => [s] | _ => [] end)
           (descendants n).

(** [tag.get_text()] *)
Definition get_text (n : node) : string := Str.join "" (all_strings n).

(** [tag.get_text(strip=True)]: every string stripped, the empty ones
    dropped. *)
Definition get_text_strip (n : node) : string :=
  Str.join ""
    (filter (fun s => negb (String.eqb s EmptyString)) (map Str.strip (all_strings n))).

(** ** The world: module state and external collaborators *)

(** What [session.get(url)] can do: fail before a response is there, with
    the exception it raises (an [aiohttp.ClientError] for a connection
    problem, another exception such as [asyncio.TimeoutError] when the
    total timeout expires), or answer with a status and a body; reading
    the body can fail too. *)
Inductive http_reply : Type :=
| TransportFailure (e : exn)
| Response (status : Z) (body : outcome string).

(** The module's mutable state: [_cache], how many times [time.time()] was
    read, and the URLs requested so far (oldest first). *)
Record world : Type := World {
  cache : gmap string (pyval * float);
  time_reads : nat;
  requests : list string;
}.

(** The collaborators outside the module. *)
Record externals : Type := Externals {
  (** the [n]-th reading of [time.time()] *)
  clock : nat -> float;
  (** the reply to the [n]-th request, sent to the given URL *)
  http : nat -> string -> http_reply;
  (** [json.loads] *)
  json_loads : string -> outcome pyval;
  (** [BeautifulSoup(markup, "html.parser")]: the top-level nodes *)
  BeautifulSoup : pyval -> outcome (list node);
  (** [version_utils.find_latest_version], first component of its result *)
  find_latest_version : pyval -> outcome (option string);
  (** [urllib.parse.quote] *)
  quote : string -> string;
  (** [_local_docs_root] *)
  local_docs_root : option string;
  (** the file system, by path: [Path.is_dir], [Path.is_file],
      [Path.iterdir] (entry names), [Path.read_text], and
      [Path.rglob(name)] (each match's parts relative to the directory) *)
  fs_is_dir : string -> bool;
  fs_is_file : string -> bool;
  fs_iterdir : string -> outcome (list string);
  fs_read_text : string -> outcome string;
  fs_rglob : string -> string -> outcome (list (list string));
}.

(** Computations over the world that may raise. *)
Definition M (A : Type) : Type := world -> outcome A * world.

#[global] Instance M_ret : MRet M := fun A a w => (Returned a, w).
#[global] Instance M_bind : MBind M := fun A B k m w =>
  match m w with
  | (Returned a, w') => k a w'
  | (Raised e, w') => (Raised e, w')
  end.

Definition raise {A : Type} (e : exn) : M A := fun w => (Raised e, w).

(** A pure step that may raise. *)
Definition lift {A : Type} (o : outcome A) : M A := fun w => (o, w).

(** [try: body except Exception as e: handler(e)] *)
Definition try_except {A : Type} (body : M A) (handler : exn -> M A) : M A := fun w =>
  match body w with
  | (Returned a, w') => (Returned a, w')
  | (Raised e, w') => handler e w'
  end.

(** [time.time()] *)
Definition time_time (E : externals) : M float := fun w =>
  (Returned (clock E (time_reads w)),
   World (cache w) (S (time_reads w)) (requests w)).

(** [session.get(url)] *)
Definition session_get (E : externals) (url : string) : M http_reply := fun w =>
  (Returned (http E (length (requests w)) url),
   World (cache w) (time_reads w) (requests w ++ [url])).

(** ** Simple TTL cache *)

(** [_cache.get(key)] and [_cache[key] = entry] *)
Definition cache_lookup (key : string) : M (option (pyval * float)) := fun w =>
  (Returned (cache w !! key), w).

Definition cache_store (key : string) (entry : pyval * float) : M unit := fun w =>
  (Returned tt, World (<[key := entry]> (cache w)) (time_reads w) (requests w)).

(** [cache_get]: the clock is read only when the key has an entry (a
    tuple is never falsy, and [and] short-circuits). *)
Definition cache_get (E : externals) (key : string) : M pyval :=
  entry ← cache_lookup key;
  match entry with
  | Some entry =>
      t ← time_time E;
      if PrimFloat.ltb t (snd entry) then mret (fst entry) else mret PyNone
  | None => mret PyNone
  end.

(** [cache_set] *)
Definition cache_set (E : externals) (key : string) (value : pyval) (ttl : float) : M unit :=
  t ← time_time E;
  cache_store key (value, (t + ttl)%float).

(** ** Fetching helpers *)

Definition fetch_text (E : externals) (url : string) : M (option string) :=
  resp ← session_get E url;
  match resp with
  | TransportFailure e => raise e
  | Response status body =>
      if negb (status =? 200)%Z then mret None
      else (txt ← lift body; mret (Some txt))
  end.

(** [fetch_json]: [None] is also what a body holding [null] gives. *)
Definition fetch_json (E : externals) (url : string) : M pyval :=
  resp ← session_get E url;
  match resp with
  | TransportFailure e => raise e
  | Response status body =>
      if negb (status =? 200)%Z then mret PyNone
      else (txt ← lift body; lift (json_loads E txt))
  end.

(** ** Directory listing parser *)

Definition SAGE_BASE : string := "https://sage.ci.dev/current/p".

Definition is_slash (c : ascii) : bool := Ascii.eqb c "/".

(** The loop body of [parse_directory_listing] over the anchors found. *)
Fixpoint directory_names (anchors : list located) : list string :=
  match anchors with
  | [] => []
  | a :: rest =>
      let href := default EmptyString (tag_attr "href" (elt a)) in
      if Str.startswith href "?" || Str.startswith href "/" || String.eqb href "../"
      then directory_names rest
      else if Str.endswith href "/"
           then Str.rstrip_by is_slash href :: directory_names rest
           else directory_names rest
  end.

Definition parse_directory_listing (E : externals) (html : string) : outcome (list string) :=
  obind (BeautifulSoup E (PyStr html)) (fun soup =>
  Returned (directory_names (find_all "a" soup))).

Definition py_strs (l : list string) : pyval := PyList (map PyStr l).

(** ** Package list, version resolution, status and doc JSON *)

Definition is_none (v : pyval) : bool :=
  match v with PyNone => true | _ => false end.

Definition get_all_packages (E : externals) : M pyval :=
  cached ← cache_get E "all_packages";
  if negb (is_none cached) then mret cached
  else
    html ← fetch_text E (SAGE_BASE +:+ "/");
    match html with
    | None => mret (PyList [])
    | Some html =>
        packages ← lift (parse_directory_listing E html);
        _ ← cache_set E "all_packages" (py_strs packages) 3600;
        mret (py_strs packages)
    end.

(** [if version:] an absent version and the empty string are both falsy. *)
Definition version_given (version : option string) : bool :=
  match version with
  | Some v => negb (String.eqb v EmptyString)
  | None => false
  end.

Definition resolve_version (E : externals) (package : string) (version : option string)
  : M (option string) :=
  if version_given version then mret version
  else
    let cache_key := "versions:" +:+ package in
    versions ← cache_get E cache_key;
    versions ←
      (if is_none versions then
         html ← fetch_text E (SAGE_BASE +:+ "/" +:+ package +:+ "/");
         match html with
         | None => mret None
         | Some html =>
             vs ← lift (parse_directory_listing E html);
             _ ← cache_set E cache_key (py_strs vs) 1800;
             mret (Some (py_strs vs))
         end
       else mret (Some versions));
    match versions with
    | None => mret None
    | Some versions =>
        if negb (truthy versions) then mret None
        else lift (find_latest_version E versions)
    end.

Definition get_status (E : externals) (package version : string) : M pyval :=
  let cache_key := "status:" +:+ package +:+ "/" +:+ version in
  cached ← cache_get E cache_key;
  if negb (is_none cached) then mret cached
  else
    data ← fetch_json E (SAGE_BASE +:+ "/" +:+ package +:+ "/" +:+ version +:+ "/status.json");
    _ ← (if negb (is_none data) then cache_set E cache_key data 1800 else mret tt);
    mret data.

Definition get_doc_json (E : externals) (package version path : string) : M pyval :=
  let cache_key := "doc:" +:+ package +:+ "/" +:+ version +:+ "/" +:+ path in
  cached ← cache_get E cache_key;
  if negb (is_none cached) then mret cached
  else
    data ← fetch_json E (SAGE_BASE +:+ "/" +:+ package +:+ "/" +:+ version +:+ "/" +:+ path);
    _ ← (if negb (is_none data) then cache_set E cache_key data 600 else mret tt);
    mret data.

(** ** HTML-to-text extraction *)

(** [" ".join(p.get_text(strip=True) for p in ...).strip()] *)
Definition paragraphs_text (ps : list node) : string :=
  Str.strip (Str.join " " (map get_text_strip ps)).

Definition extract_preamble_text (E : externals) (html : pyval) : outcome string :=
  if negb (truthy html) then Returned EmptyString
  else
    obind (BeautifulSoup E html) (fun soup =>
    Returned (paragraphs_text (map elt (find_all "p" soup)))).

(** A spec item [{"kind", "name", "signature", "doc"}]. *)
Record spec_item : Type := SpecItem {
  kind : string;
  name : string;
  signature : string;
  doc : string;
}.

(** "Categorize by anchor prefix": the [if]/[elif] chain of
    [extract_specs]. *)
Definition categorize (anchor : string) : string * string :=
  if Str.startswith anchor "val-" then ("val", Str.slice_from 4 anchor)
  else if Str.startswith anchor "type-" then ("type", Str.slice_from 5 anchor)
  else if Str.startswith anchor "module-type-" then ("module type", Str.slice_from 12 anchor)
  else if Str.startswith anchor "module-" then ("module", Str.slice_from 7 anchor)
  else if Str.startswith anchor "exception-" then ("exception", Str.slice_from 10 anchor)
  else if Str.startswith anchor "class-" then ("class", Str.slice_from 6 anchor)
  else ("other", anchor).

(** The item built from one spec container (one iteration of the loop,
    past the limit test). *)
Definition spec_item_of (spec_div : located) : spec_item :=
  let anchor := default EmptyString (tag_attr "id" (elt spec_div)) in
  let signature :=
    match tag_find "code" (elt spec_div) with
    | Some code => get_text_strip code
    | None => EmptyString
    end in
  let doc :=
    match find_next_sibling "div" "spec-doc" spec_div with
    | Some doc_div => paragraphs_text (tag_find_all "p" doc_div)
    | None => EmptyString
    end in
  let (kind, name) := categorize anchor in
  SpecItem kind name signature doc.

(** The [for spec_div in ...] loop: [items] is the list built so far; the
    result is [(items, truncated)]. *)
Fixpoint specs_loop (limit : Z) (spec_divs : list located) (items : list spec_item)
  : list spec_item * bool :=
  match spec_divs with
  | [] => (items, false)
  | spec_div :: rest =>
      if (limit <=? Z.of_nat (length items))%Z then (items, true)
      else specs_loop limit rest (items ++ [spec_item_of spec_div])
  end.

(** The spec containers of a soup: [soup.find_all("div", class_="spec")]. *)
Definition spec_containers (soup : list node) : list located :=
  find_all_class "div" "spec" soup.

Definition extract_specs (E : externals) (html : pyval) (limit : Z)
  : outcome (list spec_item * bool) :=
  if negb (truthy html) then Returned ([], false)
  else
    obind (BeautifulSoup E html) (fun soup =>
    Returned (specs_loop limit (spec_containers soup) [])).

(** A module entry [{"name", "synopsis"}] and a library
    [{"name", "modules"}]. *)
Record module_entry : Type := ModuleEntry { mod_name : string; synopsis : string }.
Record library : Type := Library { lib_name : string; lib_modules : list module_entry }.

Definition is_colon (c : ascii) : bool := Ascii.eqb c ":".

(** The inner loop of [extract_package_libraries] over the [li]s of a
    list element. *)
Fixpoint linked_items (lis : list node) : list module_entry :=
  match lis with
  | [] => []
  | li :: rest =>
      match tag_find "a" li with
      | Some link =>
          let mod_name := get_text_strip link in
          let full_text := get_text_strip li in
          let synopsis :=
            Str.strip (Str.lstrip_by is_colon
                         (Str.strip (Str.slice_from (String.length mod_name) full_text))) in
          ModuleEntry mod_name synopsis :: linked_items rest
      | None => linked_items rest
      end
  end.

(** [current_lib["modules"].extend(modules)] *)
Definition extend_modules (lib : library) (modules : list module_entry) : library :=
  Library (lib_name lib) (lib_modules lib ++ modules).

(** [if current_lib: libraries.append(current_lib)]: a library is a
    dictionary with two keys, never falsy. *)
Definition flush (libraries : list library) (current_lib : option library) : list library :=
  match current_lib with
  | Some lib => libraries ++ [lib]
  | None => libraries
  end.

(** The outer loop of [extract_package_libraries] over [soup.children],
    with the two variables [libraries] and [current_lib]. *)
Fixpoint libraries_loop (children : list node) (libraries : list library)
         (current_lib : option library) : list library * option library :=
  match children with
  | [] => (libraries, current_lib)
  | element :: rest =>
      match element with
      | Tag nm _ _ _ =>
          let '(libraries, current_lib) :=
            if String.eqb nm "h2"
            then (flush libraries current_lib, Some (Library (get_text_strip element) []))
            else (libraries, current_lib) in
          let current_lib :=
            if String.eqb nm "ul" || String.eqb nm "dl" then
              match linked_items (tag_find_all "li" element) with
              | [] => current_lib
              | modules =>
                  Some (extend_modules (default (Library "default" []) current_lib) modules)
              end
            else current_lib in
          libraries_loop rest libraries current_lib
      | _ => libraries_loop rest libraries current_lib
      end
  end.

Definition extract_package_libraries (E : externals) (html : pyval) : outcome (list library) :=
  if negb (truthy html) then Returned []
  else
    obind (BeautifulSoup E html) (fun soup =>
    let '(libraries, current_lib) := libraries_loop soup [] None in
    Returned (flush libraries current_lib)).

(** ** [sorted] *)

Fixpoint insert_by {A : Type} (lt : A -> A -> bool) (x : A) (l : list A) : list A :=
  match l with
  | [] => [x]
  | y :: l' => if lt x y then x :: l else y :: insert_by lt x l'
  end.

(** [sorted(l)] for an order [lt]; on a list without repetitions the
    result does not depend on the sorting algorithm. *)
Definition sorted_by {A : Type} (lt : A -> A -> bool) (l : list A) : list A :=
  foldr (insert_by lt) [] l.

(** Lists of strings compare lexicographically (the order of the parts of
    two paths). *)
Fixpoint parts_ltb (a b : list string) : bool :=
  match a, b with
  | _, [] => false
  | [], _ :: _ => true
  | x :: a', y :: b' =>
      if Str.ltb x y then true
      else if Str.ltb y x then false
      else parts_ltb a' b'
  end.

(** ** Result dictionaries *)

Definition error_result (msg : string) : pyval := PyDict [("error", PyStr msg)].

Definition item_to_py (it : spec_item) : pyval :=
  PyDict [("kind", PyStr (kind it)); ("name", PyStr (name it));
          ("signature", PyStr (signature it)); ("doc", PyStr (doc it))].

Definition module_to_py (m : module_entry) : pyval :=
  PyDict [("name", PyStr (mod_name m)); ("synopsis", PyStr (synopsis m))].

Definition library_to_py (l : library) : pyval :=
  PyDict [("name", PyStr (lib_name l)); ("modules", PyList (map module_to_py (lib_modules l)))].

Definition truncation_note (truncated : bool) : list (string * pyval) :=
  if truncated
  then [("truncated", PyBool true);
        ("note", PyStr "Output truncated at 100 items. The module has more entries.")]
  else [].

(** ** Tool 1: sherlodoc *)

(** The [result] dictionary built for one [li] of the answer. *)
Definition sherlodoc_result (item : node) : list (string * pyval) :=
  (match tag_find "pre" item with
   | Some pre =>
       ("signature", PyStr (get_text_strip pre)) ::
       match tag_find "a" pre with
       | Some link =>
           match tag_attr "href" link with
           | Some href =>
               if negb (String.eqb href EmptyString) then
                 ("url", PyStr href) ::
                 match tag_find "em" link with
                 | Some em => [("module_path", PyStr (get_text em))]
                 | None => []
                 end
               else []
           | None => []
           end
       | None => []
       end
   | None => []
   end)
  ++
  (match tag_find_class "div" "comment" item with
   | Some comment =>
       match map get_text_strip (tag_find_all "p" comment) with
       | [] => []
       | doc_parts => [("documentation", PyStr (Str.join " " doc_parts))]
       end
   | None => []
   end).

Fixpoint sherlodoc_results (items : list node) : list pyval :=
  match items with
  | [] => []
  | item :: rest =>
      let result := sherlodoc_result item in
      if truthy (default PyNone (assoc "signature" result))
      then PyDict result :: sherlodoc_results rest
      else sherlodoc_results rest
  end.

Definition sherlodoc (E : externals) (query : string) : M pyval :=
  try_except
    (let encoded := quote E query in
     let url := "https://doc.sherlocode.com/api?q=" +:+ encoded in
     resp ← session_get E url;
     match resp with
     | TransportFailure e => raise e
     | Response status body =>
         if negb (status =? 200)%Z
         then mret (error_result ("Sherlodoc returned status " +:+ pretty status))
         else
           html ← lift body;
           soup ← lift (BeautifulSoup E (PyStr html));
           let results := sherlodoc_results (take 20 (map elt (find_all "li" soup))) in
           mret (PyDict [("query", PyStr query); ("results", PyList results);
                         ("total_results", PyInt (Z.of_nat (length results)))])
     end)
    (fun e =>
       match exn_cls e with
       | ClientError => mret (error_result ("Failed to connect to Sherlodoc: " +:+ exn_msg e))
       | _ => mret (error_result ("Sherlodoc search failed: " +:+ exn_msg e))
       end).

(** ** Tool 2: search_package_names *)

(** [[p for p in packages if q in p.lower()]]: only a [str] has [lower]. *)
Fixpoint matching_packages (q : string) (packages : list pyval) : outcome (list pyval) :=
  match packages with
  | [] => Returned []
  | PyStr p :: rest =>
      obind (matching_packages q rest) (fun ms =>
      Returned (if Str.contains (Str.lower p) q then PyStr p :: ms else ms))
  | _ :: _ => Raised (Exn AttributeError "object has no attribute 'lower'")
  end.

Definition search_package_names (E : externals) (query : string) : M pyval :=
  try_except
    (packages ← get_all_packages E;
     let q := Str.lower query in
     ps ← lift (py_iter packages);
     matches ← lift (matching_packages q ps);
     mret (PyDict [("query", PyStr query); ("matches", PyList (take 50 matches));
                   ("total_matches", PyInt (Z.of_nat (length matches)))]))
    (fun e => mret (error_result ("Package search failed: " +:+ exn_msg e))).

(** ** Tool 3: get_package_info *)

Definition get_package_info (E : externals) (package_name : string) (version : option string)
  : M pyval :=
  try_except
    (ver ← resolve_version E package_name version;
     match ver with
     | None => mret (error_result ("Package '" +:+ package_name +:+ "' not found on sage.ci.dev"))
     | Some ver =>
         status ← get_status E package_name ver;
         if is_none status
         then mret (error_result ("Could not fetch status for " +:+ package_name +:+ "/" +:+ ver))
         else
           failed ← lift (py_get status "failed" (PyBool true));
           doc ← get_doc_json E package_name ver "doc/index.html.json";
           '(description, libraries) ←
             (if truthy doc then
                preamble ← lift (py_get doc "preamble" (PyStr EmptyString));
                content ← lift (py_get doc "content" (PyStr EmptyString));
                description ← lift (extract_preamble_text E preamble);
                description ←
                  (if String.eqb description EmptyString
                   then lift (extract_preamble_text E content)
                   else mret description);
                libraries ← lift (extract_package_libraries E content);
                mret (description, libraries)
              else mret (EmptyString, []));
           mret (PyDict [("package", PyStr package_name); ("version", PyStr ver);
                         ("failed", failed); ("description", PyStr description);
                         ("libraries", PyList (map library_to_py libraries))])
     end)
    (fun e => mret (error_result ("Failed to get package info: " +:+ exn_msg e))).

(** ** Tool 4: get_module_doc *)

(** One pass of [find_module_file]: the first path that passes [test];
    only a [str] has [endswith] and [lower]. *)
Fixpoint first_match (test : string -> bool) (files : list pyval) : outcome (option string) :=
  match files with
  | [] => Returned None
  | PyStr f :: rest => if test f then Returned (Some f) else first_match test rest
  | _ :: _ => Raised (Exn AttributeError "object has no attribute 'endswith'")
  end.

(** ["/".join(module_path.split(".")) + "/index.html"] *)
Definition module_suffix (module_path : string) : string :=
  Str.join "/" (Str.split "." module_path) +:+ "/index.html".

Definition find_module_file (files : pyval) (module_path : string) : outcome (option string) :=
  let suffix := module_suffix module_path in
  obind (py_iter files) (fun fs =>
  obind (first_match (fun f => Str.endswith f suffix) fs) (fun exact =>
  match exact with
  | Some f => Returned (Some f)
  | None =>
      let suffix_lower := Str.lower suffix in
      first_match (fun f => Str.endswith (Str.lower f) suffix_lower) fs
  end)).

(** The loop that fills [top_modules] when no file matched. *)
Fixpoint top_modules_loop (files : list pyval) (top_modules : gset string)
  : outcome (gset string) :=
  match files with
  | [] => Returned top_modules
  | PyStr f :: rest =>
      if Str.startswith f "doc/" && Str.endswith f "/index.html" then
        let parts := Str.split "/" (Str.slice_from 4 f) in
        if (3 <=? length parts)%nat
        then top_modules_loop rest ({[ nth 1 parts EmptyString ]} ∪ top_modules)
        else top_modules_loop rest top_modules
      else top_modules_loop rest top_modules
  | _ :: _ => Raised (Exn AttributeError "object has no attribute 'startswith'")
  end.

(** [hint = sorted(top_modules)[:30]] *)
Definition top_level_hint (files : pyval) : outcome (list string) :=
  obind (py_iter files) (fun fs =>
  obind (top_modules_loop fs ∅) (fun top_modules =>
  Returned (take 30 (sorted_by Str.ltb (elements top_modules))))).

Definition get_module_doc (E : externals) (package_name module_path : string)
           (version : option string) : M pyval :=
  try_except
    (ver ← resolve_version E package_name version;
     match ver with
     | None => mret (error_result ("Package '" +:+ package_name +:+ "' not found on sage.ci.dev"))
     | Some ver =>
         status ← get_status E package_name ver;
         if is_none status
         then mret (error_result ("Could not fetch status for " +:+ package_name +:+ "/" +:+ ver))
         else
           files ← lift (py_get status "files" (PyList []));
           matched_file ← lift (find_module_file files module_path);
           match matched_file with
           | None =>
               hint ← lift (top_level_hint files);
               mret (PyDict [("error", PyStr ("Module '" +:+ module_path +:+ "' not found in "
                                               +:+ package_name +:+ "/" +:+ ver));
                             ("available_top_level", py_strs hint)])
           | Some matched_file =>
               let json_path := matched_file +:+ ".json" in
               doc ← get_doc_json E package_name ver json_path;
               if is_none doc
               then mret (error_result ("Could not fetch documentation for " +:+ module_path))
               else
                 pre ← lift (py_get doc "preamble" (PyStr EmptyString));
                 preamble ← lift (extract_preamble_text E pre);
                 content_html ← lift (py_get doc "content" (PyStr EmptyString));
                 '(specs, truncated) ← lift (extract_specs E content_html 100);
                 mret (PyDict ([("package", PyStr package_name); ("version", PyStr ver);
                                ("module", PyStr module_path); ("preamble", PyStr preamble);
                                ("items", PyList (map item_to_py specs))]
                               ++ truncation_note truncated))
           end
     end)
    (fun e => mret (error_result ("Failed to get module doc: " +:+ exn_msg e))).

(** ** Local odoc tools *)

#[global] Instance outcome_ret : MRet outcome := fun A a => Returned a.
#[global] Instance outcome_bind : MBind outcome := fun A B k o => obind o k.

Definition _SKIP_DIRS : list string := ["odoc.support"].

(** [dir / name] *)
Definition child (dir name : string) : string := dir +:+ "/" +:+ name.

(** [dir / Path(parts...)]: a part that starts with a slash is absolute and
    replaces what stands before it. *)
Fixpoint joinpath (dir : string) (parts : list string) : string :=
  match parts with
  | [] => dir
  | p :: rest => joinpath (if Str.startswith p "/" then p else child dir p) rest
  end.

(** [sorted(root.iterdir())], by entry name. *)
Definition sorted_entries (E : externals) (root : string) : outcome (list string) :=
  names ← fs_iterdir E root;
  mret (sorted_by Str.ltb names).

Definition is_library_dir (E : externals) (root nm : string) : bool :=
  fs_is_dir E (child root nm) && negb (existsb (String.eqb nm) _SKIP_DIRS).

(** The entries [_scan_local_modules] appends for one library. *)
Definition library_modules (nm : string) (found : list (list string)) : list pyval :=
  flat_map (fun rel =>
              match removelast rel with
              | [] => []
              | parts => [PyDict [("library", PyStr nm);
                                  ("module_path", PyStr (Str.join "." parts))]]
              end)
           (sorted_by parts_ltb found).

Fixpoint scan_libraries (E : externals) (root : string) (names : list string)
  : outcome (list pyval) :=
  match names with
  | [] => mret []
  | nm :: rest =>
      if is_library_dir E root nm then
        found ← fs_rglob E (child root nm) "index.html.json";
        more ← scan_libraries E root rest;
        mret (library_modules nm found ++ more)
      else scan_libraries E root rest
  end.

Definition _scan_local_modules (E : externals) (root : string) : outcome (list pyval) :=
  names ← sorted_entries E root;
  scan_libraries E root names.

Definition not_configured : pyval :=
  error_result "Local docs not configured. Start the server with --local-docs <path>.".

Definition list_local_modules (E : externals) : M pyval :=
  match local_docs_root E with
  | None => mret not_configured
  | Some root =>
      cached ← cache_get E "local_modules";
      if negb (is_none cached) then mret cached
      else if negb (fs_is_dir E root)
      then mret (error_result ("Local docs path does not exist: " +:+ root))
      else
        modules ← lift (_scan_local_modules E root);
        let result := PyDict [("modules", PyList modules);
                              ("total", PyInt (Z.of_nat (length modules)))] in
        _ ← cache_set E "local_modules" result 300;
        mret result
  end.

(** What [get_local_module_doc] does with the first candidate file that
    exists. *)
Definition local_module_result (E : externals) (nm module_path candidate : string)
  : outcome pyval :=
  txt ← fs_read_text E candidate;
  doc ← json_loads E txt;
  pre ← py_get doc "preamble" (PyStr EmptyString);
  preamble ← extract_preamble_text E pre;
  content ← py_get doc "content" (PyStr EmptyString);
  '(specs, truncated) ← extract_specs E content 100;
  mret (PyDict ([("library", PyStr nm); ("module", PyStr module_path);
                 ("preamble", PyStr preamble); ("items", PyList (map item_to_py specs))]
                ++ truncation_note truncated)).

(** The search across library directories. *)
Fixpoint probe_libraries (E : externals) (root module_path : string) (suffix : list string)
         (names : list string) : outcome pyval :=
  match names with
  | [] => mret (error_result ("Module '" +:+ module_path +:+ "' not found in local docs"))
  | nm :: rest =>
      if is_library_dir E root nm then
        let candidate := joinpath (child root nm) suffix in
        if fs_is_file E candidate
        then local_module_result E nm module_path candidate
        else probe_libraries E root module_path suffix rest
      else probe_libraries E root module_path suffix rest
  end.

Definition get_local_module_doc (E : externals) (module_path : string) : M pyval :=
  match local_docs_root E with
  | None => mret not_configured
  | Some root =>
      if negb (fs_is_dir E root)
      then mret (error_result ("Local docs path does not exist: " +:+ root))
      else
        let parts := Str.split "." module_path in
        let suffix := parts ++ ["index.html.json"] in
        names ← lift (sorted_entries E root);
        lift (probe_libraries E root module_path suffix names)
  end.

(** ** Notions used to state the properties *)

(** The nodes of a fragment: an empty (falsy) fragment is not parsed and
    has none. *)
Definition document (E : externals) (html : pyval) : outcome (list node) :=
  if negb (truthy html) then Returned [] else BeautifulSoup E html.

(** The ordered prefix table of the specification, prefix and kind. *)
Definition prefix_table : list (string * string) :=
  [("val-", "val"); ("type-", "type"); ("module-type-", "module type");
   ("module-", "module"); ("exception-", "exception"); ("class-", "class")].

(** The entry of the table with the longest prefix that [anchor] starts
    with, if any. *)
Definition longest_prefix_entry (anchor : string) : option (string * string) :=
  fold_left
    (fun best e =>
       if Str.startswith anchor (fst e) then
         match best with
         | Some b => if (String.length (fst b) <? String.length (fst e))%nat then Some e else best
         | None => Some e
         end
       else best)
    prefix_table None.

(** Kind and name by longest-prefix match, as the specification words it. *)
Definition classify_by_table (anchor : string) : string * string :=
  match longest_prefix_entry anchor with
  | Some (p, k) => (k, Str.slice_from (String.length p) anchor)
  | None => ("other", anchor)
  end.

(** The name of a spec container: its [id] attribute, empty when it has
    none. *)
Definition anchor_of (spec_div : located) : string :=
  default EmptyString (tag_attr "id" (elt spec_div)).

(** Dots turned into path separators. *)
Fixpoint dots_to_slashes (s : string) : string :=
  match s with
  | EmptyString => EmptyString
  | String c s' => String (if Ascii.eqb c "." then "/"%char else c) (dots_to_slashes s')
  end.

(** [f] is the first element of [l] that passes [test]. *)
Definition first_passing (test : string -> bool) (l : list string) (f : string) : Prop :=
  exists l1 l2, l = l1 ++ f :: l2 /\ test f = true /\ Forall (fun x => test x = false) l1.

(** A string without the separator character. *)
Definition sep_free (sep : ascii) (s : string) : Prop :=
  Forall (fun c => c <> sep) (list_ascii_of_string s).

(** A path segment holds no slash. *)
Definition slash_free (s : string) : Prop := sep_free "/" s.

(** The strict order of [str] as a relation. *)
Definition str_lt (a b : string) : Prop := Str.ltb a b = true.

(** [f] is [doc/<library>/<m>/.../index.html]: under the documentation
    root, at least two segments before the index file name, the second
    of them [m]. *)
Definition top_level_candidate (f m : string) : Prop :=
  exists lib rest,
    f = "doc/" +:+ Str.join "/" (lib :: m :: rest ++ ["index.html"])
    /\ Forall slash_free (lib :: m :: rest).

(** The test of the hint loop on one path, and the name it adds. *)
Definition hint_parts (f : string) : list string := Str.split "/" (Str.slice_from 4 f).

Definition passes_hint_test (f : string) : bool :=
  Str.startswith f "doc/" && Str.endswith f "/index.html" && (3 <=? length (hint_parts f))%nat.

Definition hint_name (f : string) : string := nth 1 (hint_parts f) EmptyString.

(** The reading of the claim on the hint list: one segment between the
    root and the index file name is enough, and the name is the second
    segment after the root. *)
Definition candidate_with_one_segment (f m : string) : Prop :=
  exists first rest,
    f = "doc/" +:+ Str.join "/" (first :: rest ++ ["index.html"])
    /\ Forall slash_free (first :: rest)
    /\ nth 1 (first :: rest ++ ["index.html"]) EmptyString = m.

(** The linked list items below the top-level [ul] and [dl] elements of
    a soup, in document order. *)
Definition is_list_element (n : node) : bool := tag_named "ul" n || tag_named "dl" n.

Definition has_link (li : node) : bool :=
  match tag_find "a" li with Some _ => true | None => false end.

Definition linked_list_items (soup : list node) : list node :=
  flat_map (fun n => if is_list_element n then filter has_link (tag_find_all "li" n) else [])
           soup.

(** Name and synopsis of one linked list item. *)
Definition entry_of_item (li : node) : module_entry :=
  let mod_name := get_text_strip (default li (tag_find "a" li)) in
  ModuleEntry mod_name
    (Str.strip (Str.lstrip_by is_colon
                  (Str.strip (Str.slice_from (String.length mod_name) (get_text_strip li))))).

(** What a run of module entries does to the library being filled. *)
Definition absorb (current_lib : option library) (modules : list module_entry)
  : option library :=
  match modules with
  | [] => current_lib
  | _ :: _ => Some (extend_modules (default (Library "default" []) current_lib) modules)
  end.

(** ** An example environment

    A small backend used to run the definitions on concrete inputs: one
    package [demo] with version [1.0], whose status lists a few artifacts
    and no build flag, and whose documentation page cannot be fetched (that
    of version [2.0] does not exist); a local
    docs tree [/docs] with one library holding a module file that is not
    JSON. *)

Definition spec_div (id : string) : node :=
  Tag "div" ["spec"] [("id", id)] [Tag "code" [] [] [NavigableString ("val " +:+ id)]].

Definition demo_listing : list node :=
  [Tag "a" [] [("href", "../")] [NavigableString "Parent"];
   Tag "a" [] [("href", "1.0/")] [NavigableString "1.0/"]].

Definition demo_flat_list : list node :=
  [Tag "ul" [] []
     [Tag "li" [] [] [Tag "a" [] [("href", "A/index.html")] [NavigableString "A"];
                     NavigableString ": first"];
      Tag "li" [] [] [NavigableString "no link"];
      Tag "li" [] [] [Tag "a" [] [("href", "B/index.html")] [NavigableString "B"]]]].

Definition demo_files : list string :=
  ["doc/lib/index.html"; "doc/lib/Zeta/index.html"; "doc/lib/Alpha/Sub/index.html";
   "doc/lib/Alpha/index.html"; "doc/lib/Zeta/readme.txt"].

Definition demo_status : pyval := PyDict [("files", py_strs demo_files)].

Definition demo_soup (markup : pyval) : outcome (list node) :=
  match markup with
  | PyStr s =>
      if String.eqb s "versions" then Returned demo_listing
      else if String.eqb s "flat list" then Returned demo_flat_list
      else if String.eqb s "150 specs" then Returned (repeat (spec_div "val-x") 150)
      else if String.eqb s "50 specs" then Returned (repeat (spec_div "val-x") 50)
      else if String.eqb s "module type" then Returned [spec_div "module-type-Foo"]
      else Returned []
  | _ => Raised (Exn TypeError "markup is not a string")
  end.

Definition demo_http (n : nat) (url : string) : http_reply :=
  if String.eqb url "https://sage.ci.dev/current/p/demo/"
  then Response 200 (Returned "versions")
  else if String.eqb url "https://sage.ci.dev/current/p/demo/1.0/status.json"
          || String.eqb url "https://sage.ci.dev/current/p/demo/2.0/status.json"
  then Response 200 (Returned "status")
  else if String.eqb url "https://sage.ci.dev/current/p/demo/1.0/doc/index.html.json"
  then TransportFailure (Exn ClientError "connection reset")
  else Response 404 (Returned "not found").

Definition demo_env : externals := {|
  clock := fun n => match n with O => 100 | 1%nat => 100.5 | _ => 102 end%float;
  http := demo_http;
  json_loads := fun s =>
    if String.eqb s "status" then Returned demo_status
    else Raised (Exn JSONDecodeError "Expecting value: line 1 column 1 (char 0)");
  BeautifulSoup := demo_soup;
  find_latest_version := fun vs =>
    match vs with
    | PyList (PyStr v :: _) => Returned (Some v)
    | _ => Returned None
    end;
  quote := fun q => q;
  local_docs_root := Some "/docs";
  fs_is_dir := fun p => String.eqb p "/docs" || String.eqb p "/docs/lib";
  fs_is_file := fun p => String.eqb p "/docs/lib/Foo/index.html.json";
  fs_iterdir := fun p => if String.eqb p "/docs" then Returned ["lib"] else Returned [];
  fs_read_text := fun p => Returned "not json";
  fs_rglob := fun p nm => Returned [["Foo"; "index.html.json"]];
|}.

(** The same environment with a docs directory that cannot be listed. *)
Definition demo_env_unreadable : externals := {|
  clock := clock demo_env;
  http := http demo_env;
  json_loads := json_loads demo_env;
  BeautifulSoup := BeautifulSoup demo_env;
  find_latest_version := find_latest_version demo_env;
  quote := quote demo_env;
  local_docs_root := local_docs_root demo_env;
  fs_is_dir := fs_is_dir demo_env;
  fs_is_file := fs_is_file demo_env;
  fs_iterdir := fun p => Raised (Exn OSError "[Errno 13] Permission denied: '/docs'");
  fs_read_text := fs_read_text demo_env;
  fs_rglob := fs_rglob demo_env;
|}.

(** The state at start-up: empty cache, nothing read, nothing requested. *)
Definition initial_world : world := World ∅ 0 [].

(** The state after the status of version [2.0] of [demo] was fetched. *)
Definition demo_world_status_2 : world :=
  snd (get_status demo_env "demo" "2.0" initial_world).

(** The states after the latest version of [demo] was resolved, and after
    its status was fetched. *)
Definition demo_world_resolved : world :=
  snd (resolve_version demo_env "demo" None initial_world).

Definition demo_world_status : world :=
  snd (get_status demo_env "demo" "1.0" demo_world_resolved).

(** ** Further notions used to state properties *)

(** The [href] the directory listing parser reads off an anchor. *)
Definition href_of (a : located) : string := default EmptyString (tag_attr "href" (elt a)).

(** A string made of slashes only. *)
Definition only_slashes (s : string) : Prop :=
  Forall (fun c => is_slash c = true) (list_ascii_of_string s).

(** The prefix that announces a kind in a container's identifier. *)
Definition prefix_of_kind (k : string) : string :=
  if String.eqb k "val" then "val-"
  else if String.eqb k "type" then "type-"
  else if String.eqb k "module type" then "module-type-"
  else if String.eqb k "module" then "module-"
  else if String.eqb k "exception" then "exception-"
  else if String.eqb k "class" then "class-"
  else EmptyString.

(** A [div] of class [spec-doc]. *)
Definition is_spec_doc (n : node) : bool := tag_named "div" n && has_class "spec-doc" n.

(** The top-level nodes before the first level-2 heading. *)
Fixpoint before_first_heading (children : list node) : list node :=
  match children with
  | [] => []
  | n :: rest => if tag_named "h2" n then [] else n :: before_first_heading rest
  end.

(** The texts of the top-level level-2 headings, in document order. *)
Fixpoint heading_texts (children : list node) : list string :=
  match children with
  | [] => []
  | n :: rest =>
      if tag_named "h2" n then get_text_strip n :: heading_texts rest else heading_texts rest
  end.

(** A string that neither starts nor ends with white space. *)
Definition stripped (s : string) : Prop :=
  (forall c t, s = String c t -> Str.isspace c = false)
  /\ (forall q c, s = q +:+ String c EmptyString -> Str.isspace c = false).

(** A relation between the world before and after a computation, indexed
    by a budget of requests, holds of every run of [m]. *)
Definition within {A : Type} (R : nat -> world -> world -> Prop) (n : nat) (m : M A) : Prop :=
  forall w, R n w (snd (m w)).

(** The request log is extended by at most [n] requests. *)
Definition requests_extended (n : nat) (w w' : world) : Prop :=
  exists new, requests w' = requests w ++ new /\ (length new <= n)%nat.

(** A computation that keeps the requests already logged and sends at most
    [n] more. *)
Definition sends_at_most {A : Type} (n : nat) (m : M A) : Prop :=
  within requests_extended n m.

(** No entry of the cache holds [None]. *)
Definition cache_values_not_none (w : world) : Prop :=
  forall k e, cache w !! k = Some e -> is_none (fst e) = false.

Definition none_free_kept (n : nat) (w w' : world) : Prop :=
  cache_values_not_none w -> cache_values_not_none w'.

(** Every key of the cache of [w] is still a key of the cache of [w']. *)
Definition keys_kept (n : nat) (w w' : world) : Prop :=
  forall k, is_Some (cache w !! k) -> is_Some (cache w' !! k).

(** What [get_package_info] reads off the documentation page, the block
    under [if doc:]: description and libraries, both empty for a falsy
    page. *)
Definition page_overview (E : externals) (doc : pyval) : outcome (string * list library) :=
  if truthy doc then
    preamble ← py_get doc "preamble" (PyStr EmptyString);
    content ← py_get doc "content" (PyStr EmptyString);
    description ← extract_preamble_text E preamble;
    description ←
      (if String.eqb description EmptyString
       then extract_preamble_text E content
       else mret description);
    libraries ← extract_package_libraries E content;
    mret (description, libraries)
  else mret (EmptyString, []).

(** The pattern [get_status] and [get_doc_json] share: the JSON value
    behind [url], kept in the cache under [cache_key] for [ttl] seconds. *)
Definition cached_json (E : externals) (cache_key url : string) (ttl : float) : M pyval :=
  cached ← cache_get E cache_key;
  if negb (is_none cached) then mret cached
  else
    data ← fetch_json E url;
    _ ← (if negb (is_none data) then cache_set E cache_key data ttl else mret tt);
    mret data.


(** ** A second example environment

    The package index with three packages, a package [empty] whose
    version listing is an empty page, the documentation page of [demo]
    version [1.0], and an answer of the search service to the query
    [map], while the query [slow] runs into the total timeout
    ([asyncio.TimeoutError], whose text is empty); no local docs
    directory is configured. *)

Definition site_packages : list node :=
  [Tag "a" [] [("href", "../")] [NavigableString "Parent Directory"];
   Tag "a" [] [("href", "Lwt_ppx/")] [NavigableString "Lwt_ppx/"];
   Tag "a" [] [("href", "cohttp/")] [NavigableString "cohttp/"];
   Tag "a" [] [("href", "lwt/")] [NavigableString "lwt/"]].

Definition site_results : list node :=
  [Tag "ul" [] []
     [Tag "li" [] []
        [Tag "pre" [] []
           [Tag "a" [] [("href", "https://ocaml.org/p/ocaml-base-compiler/List.html#val-map")]
              [Tag "em" [] [] [NavigableString "List."]; NavigableString "map"];
            NavigableString " : ('a -> 'b) -> 'a list -> 'b list"];
         Tag "div" ["comment"] [] [Tag "p" [] [] [NavigableString "Apply a function."]]];
      Tag "li" [] [] [NavigableString "no signature here"]]].

Definition site_doc : pyval :=
  PyDict [("preamble", PyStr "preamble"); ("content", PyStr "50 specs")].

Definition site_soup (markup : pyval) : outcome (list node) :=
  match markup with
  | PyStr s =>
      if String.eqb s "packages" then Returned site_packages
      else if String.eqb s "results" then Returned site_results
      else if String.eqb s "preamble"
      then Returned [Tag "p" [] [] [NavigableString " A demo library. "]]
      else demo_soup markup
  | _ => demo_soup markup
  end.

Definition site_http (n : nat) (url : string) : http_reply :=
  if String.eqb url "https://doc.sherlocode.com/api?q=map"
  then Response 200 (Returned "results")
  else if String.eqb url "https://doc.sherlocode.com/api?q=slow"
  then TransportFailure (Exn OtherError EmptyString)
  else if String.eqb url "https://sage.ci.dev/current/p/"
  then Response 200 (Returned "packages")
  else if String.eqb url "https://sage.ci.dev/current/p/empty/"
  then Response 200 (Returned "nothing")
  else if String.eqb url "https://sage.ci.dev/current/p/demo/1.0/doc/index.html.json"
          || String.eqb url "https://sage.ci.dev/current/p/demo/1.0/doc/lib/Zeta/index.html.json"
  then Response 200 (Returned "doc")
  else demo_http n url.

Definition site_env : externals := {|
  clock := clock demo_env;
  http := site_http;
  json_loads := fun s => if String.eqb s "doc" then Returned site_doc else json_loads demo_env s;
  BeautifulSoup := site_soup;
  find_latest_version := find_latest_version demo_env;
  quote := quote demo_env;
  local_docs_root := None;
  fs_is_dir := fs_is_dir demo_env;
  fs_is_file := fs_is_file demo_env;
  fs_iterdir := fs_iterdir demo_env;
  fs_read_text := fs_read_text demo_env;
  fs_rglob := fs_rglob demo_env;
|}.

(** ** Command line

    The part of [main] that reads [sys.argv[1:]]: the [--local-docs] flag
    and its value are taken out wherever they stand, then the first
    argument left decides between the test harness and the server. *)

(** [args.index(x)], for [x in args] *)
Fixpoint index_of (x : string) (args : list string) : option nat :=
  match args with
  | [] => None
  | a :: rest => if String.eqb a x then Some 0%nat else option_map S (index_of x rest)
  end.

(** What the flag parsing leaves: [sys.exit(code)] after a message on the
    standard error, or the value given to [Path] for [_local_docs_root]
    ([None] at start-up) and the remaining arguments. *)
Inductive startup : Type :=
| Exit (code : Z) (message : string)
| Started (local_docs : option string) (args : list string).

Definition parse_local_docs (argv : list string) : startup :=
  match index_of "--local-docs" argv with
  | Some idx =>
      if (idx + 1 <? length argv)%nat
      then Started (Some (nth (idx + 1) argv EmptyString)) (take idx argv ++ drop (idx + 2) argv)
      else Exit 1 "Error: --local-docs requires a path argument"
  | None => Started None argv
  end.

(** [if args and args[0] == "--test"]: the test harness on [args[1:]], or
    the server. *)
Inductive mode : Type :=
| TestMode (test_args : list string)
| ServeMode.

Definition select_mode (args : list string) : mode :=
  match args with
  | a :: test_args => if String.eqb a "--test" then TestMode test_args else ServeMode
  | [] => ServeMode
  end.

(** ** A third example environment

    A docs directory [/srv/docs] with the libraries [base] and [core],
    both holding the module [Map], and a module file in another
    directory, [/opt/notes]; every file holds an empty JSON object. *)
Definition host_env : externals := {|
  clock := clock demo_env;
  http := http demo_env;
  json_loads := fun s =>
    if String.eqb s "{}" then Returned (PyDict []) else json_loads demo_env s;
  BeautifulSoup := BeautifulSoup demo_env;
  find_latest_version := find_latest_version demo_env;
  quote := quote demo_env;
  local_docs_root := Some "/srv/docs";
  fs_is_dir := fun p =>
    String.eqb p "/srv/docs" || String.eqb p "/srv/docs/base" || String.eqb p "/srv/docs/core"
    || String.eqb p "/srv/docs/odoc.support";
  fs_is_file := fun p =>
    String.eqb p "/srv/docs/base/Map/index.html.json"
    || String.eqb p "/srv/docs/core/Map/index.html.json"
    || String.eqb p "/opt/notes/index.html.json";
  fs_iterdir := fun p =>
    if String.eqb p "/srv/docs" then Returned ["odoc.support"; "core"; "base"; "README"]
    else Returned [];
  fs_read_text := fun p => Returned "{}";
  fs_rglob := fun p nm =>
    if String.eqb p "/srv/docs/base"
    then Returned [["index.html.json"]; ["Map"; "index.html.json"];
                   ["Map"; "Make"; "index.html.json"]]
    else if String.eqb p "/srv/docs/core" then Returned [["Map"; "index.html.json"]]
    else Returned [];
|}.

(* ===================================================================== *)
(** * Part II: theorems *)
(* ===================================================================== *)

Example split_dotted : Str.split "." "Base.List" = ["Base"; "List"].
Proof. reflexivity. Qed.

Example lower_mixed : Str.lower "doc/BASE/List" = "doc/base/list".
Proof. reflexivity. Qed.

Example get_text_nested :
  get_text_strip (Tag "li" [] [] [Tag "a" [] [("href", "x")] [NavigableString " Foo "];
                                  NavigableString " : bar "])
  = "Foo: bar".
Proof. vm_compute. reflexivity. Qed.

Example strip_both : Str.strip "  a b  " = "a b".
Proof. vm_compute. reflexivity. Qed.

Example directory_listing_fixture :
  directory_names
    (find_all "a"
       [Tag "a" [] [("href", "../")] []; Tag "a" [] [("href", "?C=N")] [];
        Tag "a" [] [("href", "foo/")] []; Tag "a" [] [("href", "BAR/")] [];
        Tag "a" [] [("href", "readme.txt")] []])
  = ["foo"; "BAR"].
Proof. vm_compute. reflexivity. Qed.

(** ** The monad of computations *)

Section Monad_laws.
Context {A B C : Type}.

Lemma M_bind_ret_l (a : A) (k : A -> M B) (w : world) : (mret a ≫= k) w = k a w.
Proof. reflexivity. Qed.

Lemma M_bind_ret_r (m : M A) (w : world) : (m ≫= mret) w = m w.
Proof.
  unfold mbind, M_bind, mret, M_ret. now destruct (m w) as [[a|e] w'].
Qed.

Lemma M_bind_assoc (m : M A) (k : A -> M B) (h : B -> M C) (w : world) :
  ((m ≫= k) ≫= h) w = (m ≫= (fun a => k a ≫= h)) w.
Proof.
  unfold mbind, M_bind. now destruct (m w) as [[a|e] w'].
Qed.

(** An exception skips the rest of the computation. *)
Lemma M_bind_raise (e : exn) (k : A -> M B) (w : world) :
  (raise e ≫= k) w = (Raised e, w).
Proof. reflexivity. Qed.

(** A handler is not run when the body returns. *)
Lemma try_except_returned (body : M A) (handler : exn -> M A) (a : A) (w w' : world) :
  body w = (Returned a, w') -> try_except body handler w = (Returned a, w').
Proof. intros H. unfold try_except. now rewrite H. Qed.

Lemma try_except_raised (body : M A) (handler : exn -> M A) (e : exn) (w w' : world) :
  body w = (Raised e, w') -> try_except body handler w = handler e w'.
Proof. intros H. unfold try_except. now rewrite H. Qed.
End Monad_laws.

(** ** Strings *)

Lemma str_app_nil_l (r : string) : EmptyString +:+ r = r.
Proof. reflexivity. Qed.

Lemma str_app_cons (c : ascii) (p r : string) : String c p +:+ r = String c (p +:+ r).
Proof. reflexivity. Qed.

Lemma str_app_nil_r (s : string) : s +:+ EmptyString = s.
Proof. induction s as [|c s IH]; [reflexivity|]. now rewrite str_app_cons, IH. Qed.

Lemma str_app_assoc (a b c : string) : (a +:+ b) +:+ c = a +:+ (b +:+ c).
Proof. induction a as [|x a IH]; [reflexivity|]. now rewrite !str_app_cons, IH. Qed.

Lemma str_length_app (a b : string) :
  String.length (a +:+ b) = (String.length a + String.length b)%nat.
Proof. induction a as [|x a IH]; [reflexivity|]. rewrite str_app_cons. simpl. now rewrite IH. Qed.

Lemma startswith_inv (s p : string) :
  Str.startswith s p = true -> s = p +:+ Str.slice_from (String.length p) s.
Proof.
  revert s. induction p as [|c p IH]; intros s H.
  - reflexivity.
  - destruct s as [|d s]; simpl in H; [discriminate|].
    apply andb_prop in H as [Hc H]. apply Ascii.eqb_eq in Hc as ->.
    rewrite str_app_cons. simpl. f_equal. now apply IH.
Qed.

Lemma startswith_app (p r : string) : Str.startswith (p +:+ r) p = true.
Proof.
  induction p as [|c p IH]; [reflexivity|].
  rewrite str_app_cons. simpl. now rewrite Ascii.eqb_refl.
Qed.

Lemma slice_from_app (p r : string) : Str.slice_from (String.length p) (p +:+ r) = r.
Proof. induction p as [|c p IH]; [now destruct r | rewrite str_app_cons; exact IH]. Qed.

(** ** Spec extractor: kinds and names *)

(** When the first test of the chain that passes is known, the anchor is
    that prefix followed by the name. *)
Ltac anchor_is H :=
  apply startswith_inv in H; simpl String.length in H;
  let r := fresh "rest" in
  set (r := Str.slice_from _ _) in H; clearbody r; subst.

Lemma categorize_longest_prefix (anchor : string) :
  categorize anchor = classify_by_table anchor.
Proof.
  unfold categorize, classify_by_table, longest_prefix_entry, prefix_table.
  cbn [fold_left fst snd].
  destruct (Str.startswith anchor "val-") eqn:Hval.
  { anchor_is Hval. reflexivity. }
  destruct (Str.startswith anchor "type-") eqn:Htype.
  { anchor_is Htype. reflexivity. }
  destruct (Str.startswith anchor "module-type-") eqn:Hmt.
  { anchor_is Hmt. reflexivity. }
  destruct (Str.startswith anchor "module-") eqn:Hm.
  { destruct (Str.startswith anchor "exception-") eqn:He.
    { anchor_is He. cbv in Hm. discriminate. }
    destruct (Str.startswith anchor "class-") eqn:Hc.
    { anchor_is Hc. cbv in Hm. discriminate. }
    reflexivity. }
  destruct (Str.startswith anchor "exception-") eqn:He.
  { anchor_is He. reflexivity. }
  destruct (Str.startswith anchor "class-") eqn:Hc; reflexivity.
Qed.

(** The table lookup does select a longest matching prefix, and finds
    none only when no prefix of the table matches. *)
Lemma longest_prefix_entry_spec (anchor : string) :
  match longest_prefix_entry anchor with
  | Some e =>
      In e prefix_table
      /\ Str.startswith anchor (fst e) = true
      /\ Forall (fun e' => Str.startswith anchor (fst e') = true ->
                           (String.length (fst e') <= String.length (fst e))%nat)
                prefix_table
  | None => Forall (fun e' => Str.startswith anchor (fst e') = false) prefix_table
  end.
Proof.
  unfold longest_prefix_entry, prefix_table. cbn [fold_left fst].
  destruct (Str.startswith anchor "val-") eqn:Hval;
  destruct (Str.startswith anchor "type-") eqn:Htype;
  destruct (Str.startswith anchor "module-type-") eqn:Hmt;
  destruct (Str.startswith anchor "module-") eqn:Hm;
  destruct (Str.startswith anchor "exception-") eqn:He;
  destruct (Str.startswith anchor "class-") eqn:Hc;
  cbn [fst String.length Nat.ltb Nat.leb];
  repeat first [ split | apply Forall_cons | apply Forall_nil ];
  cbn [fst String.length In]; try tauto; try congruence; try lia; intros _; lia.
Qed.

Lemma spec_item_of_categorize (spec_div : located) :
  (kind (spec_item_of spec_div), name (spec_item_of spec_div))
  = categorize (anchor_of spec_div).
Proof.
  unfold spec_item_of, anchor_of.
  now destruct (categorize (default EmptyString (tag_attr "id" (elt spec_div)))).
Qed.

(** ** Spec extractor: the loop and its limit *)

(** The loop appends to [items] the items of the first containers, as
    many as the limit leaves room for, and reports whether a container was
    left. *)
Lemma specs_loop_take (limit : Z) (spec_divs : list located) (items : list spec_item) :
  let room := Z.to_nat (limit - Z.of_nat (length items)) in
  specs_loop limit spec_divs items
  = (items ++ map spec_item_of (take room spec_divs), (room <? length spec_divs)%nat).
Proof.
  revert items. induction spec_divs as [|d rest IH]; intros items room.
  - simpl. now rewrite take_nil, app_nil_r.
  - simpl specs_loop. destruct (limit <=? Z.of_nat (length items))%Z eqn:Hfull.
    + apply Z.leb_le in Hfull.
      replace room with 0%nat by (subst room; lia).
      simpl. now rewrite app_nil_r.
    + apply Z.leb_gt in Hfull. rewrite IH. rewrite length_app. simpl length.
      replace room with (S (Z.to_nat (limit - Z.of_nat (length items + 1)))) by (subst room; lia).
      simpl. rewrite <- app_assoc. reflexivity.
Qed.

Lemma extract_specs_document (E : externals) (html : pyval) (limit : Z) (soup : list node) :
  document E html = Returned soup ->
  extract_specs E html limit
  = Returned (map spec_item_of (take (Z.to_nat limit) (spec_containers soup)),
              (Z.to_nat limit <? length (spec_containers soup))%nat).
Proof.
  unfold document, extract_specs. intros Hdoc.
  destruct (negb (truthy html)).
  - injection Hdoc as <-. cbn. now rewrite take_nil.
  - rewrite Hdoc. cbn [obind]. rewrite specs_loop_take. cbn [length app].
    now rewrite Z.sub_0_r.
Qed.

(** C4: for every HTML fragment and every limit (a count of items, hence
    not negative; the callers pass 100), [extract_specs] returns the items
    of the first [limit] spec containers: at most [limit] items, exactly
    [min limit n] of the [n] containers, and [truncated] is true iff
    strictly more than [limit] containers exist (so 150 containers under
    limit 100 give 100 items and [truncated], 50 give 50 items and no
    truncation, and exactly [limit] containers give no truncation). *)
Theorem extract_specs_truncation (E : externals) (html : pyval) (limit : Z) (soup : list node) :
  (0 <= limit)%Z ->
  document E html = Returned soup ->
  exists items truncated,
    extract_specs E html limit = Returned (items, truncated)
    /\ items = map spec_item_of (take (Z.to_nat limit) (spec_containers soup))
    /\ (Z.of_nat (length items) <= limit)%Z
    /\ length items = Nat.min (Z.to_nat limit) (length (spec_containers soup))
    /\ (truncated = true <-> (limit < Z.of_nat (length (spec_containers soup)))%Z).
Proof.
  intros Hlimit Hdoc. eexists _, _.
  split; [exact (extract_specs_document E html limit soup Hdoc)|].
  split; [reflexivity|].
  rewrite length_map, length_take. repeat split.
  - lia.
  - intros H. apply Nat.ltb_lt in H. lia.
  - intros H. apply Nat.ltb_lt. lia.
Qed.

(** 150 containers and limit 100: one hundred items and [truncated]. *)
Lemma extract_specs_truncation_witness :
  (0 <= 100)%Z
  /\ document demo_env (PyStr "150 specs") = Returned (repeat (spec_div "val-x") 150)
  /\ exists items truncated,
       extract_specs demo_env (PyStr "150 specs") 100 = Returned (items, truncated)
       /\ items = map spec_item_of
                      (take (Z.to_nat 100) (spec_containers (repeat (spec_div "val-x") 150)))
       /\ (Z.of_nat (length items) <= 100)%Z
       /\ length items = Nat.min (Z.to_nat 100)
                                 (length (spec_containers (repeat (spec_div "val-x") 150)))
       /\ (truncated = true
           <-> (100 < Z.of_nat (length (spec_containers (repeat (spec_div "val-x") 150))))%Z).
Proof.
  split; [lia|]. split; [reflexivity|].
  apply (extract_specs_truncation demo_env (PyStr "150 specs") 100); [lia | reflexivity].
Defined.

(** Outside the claim: a negative limit, which no caller passes, is no
    count of items; with no container and limit -1 the loop body never
    runs, so the result is no item and no truncation. *)
Lemma extract_specs_negative_limit :
  document demo_env (PyStr "") = Returned []
  /\ extract_specs demo_env (PyStr "") (-1) = Returned ([], false)
  /\ ~ (Z.of_nat (length (@nil spec_item)) <= -1)%Z
  /\ (-1 < Z.of_nat (length (spec_containers [])))%Z.
Proof. repeat split; simpl; lia. Qed.

Example extract_specs_150 :
  option_map (fun r => (length (fst r), snd r))
    (match extract_specs demo_env (PyStr "150 specs") 100 with
     | Returned r => Some r
     | Raised _ => None
     end) = Some (100%nat, true).
Proof. vm_compute. reflexivity. Qed.

Example extract_specs_50 :
  option_map (fun r => (length (fst r), snd r))
    (match extract_specs demo_env (PyStr "50 specs") 100 with
     | Returned r => Some r
     | Raised _ => None
     end) = Some (50%nat, false).
Proof. vm_compute. reflexivity. Qed.

(** The item [extract_specs] returns at a position is the one built from
    the container at that position. *)
Lemma extract_specs_item (E : externals) (html : pyval) (limit : Z) (soup : list node)
      (items : list spec_item) (truncated : bool) (i : nat) (spec_div : located)
      (it : spec_item) :
  document E html = Returned soup ->
  extract_specs E html limit = Returned (items, truncated) ->
  spec_containers soup !! i = Some spec_div ->
  items !! i = Some it ->
  it = spec_item_of spec_div.
Proof.
  intros Hdoc Hspecs Hdiv Hit.
  rewrite (extract_specs_document _ _ _ _ Hdoc) in Hspecs.
  injection Hspecs as <- _.
  rewrite list_lookup_fmap in Hit.
  destruct (take (Z.to_nat limit) (spec_containers soup) !! i) as [d|] eqn:Hd;
    [|discriminate].
  apply lookup_take_Some in Hd as [Hd _].
  injection Hit as <-. congruence.
Qed.

(** C5: for every spec container of a fragment that stands before the
    limit, [extract_specs] returns an item at the container's position,
    and that item has the kind and name of the longest prefix of the
    table that the container's identifier starts with; an identifier
    [module-type-X] gives kind "module type" and name [X], never kind
    "module" with name [type-X]; an identifier that no prefix matches
    gives kind "other" and the whole identifier as name. *)
Theorem extract_specs_kind_and_name (E : externals) (html : pyval) (limit : Z)
        (soup : list node) (i : nat) (spec_div : located) :
  document E html = Returned soup ->
  spec_containers soup !! i = Some spec_div ->
  (Z.of_nat i < limit)%Z ->
  exists items truncated it,
    extract_specs E html limit = Returned (items, truncated)
    /\ items !! i = Some it
    /\ it = spec_item_of spec_div
    /\ (kind it, name it) = classify_by_table (anchor_of spec_div)
    /\ (forall X, anchor_of spec_div = "module-type-" +:+ X ->
                  kind it = "module type" /\ name it = X
                  /\ (kind it, name it) <> ("module", "type-" +:+ X))
    /\ (longest_prefix_entry (anchor_of spec_div) = None ->
        kind it = "other" /\ name it = anchor_of spec_div).
Proof.
  intros Hdoc Hdiv Hlimit.
  pose proof (spec_item_of_categorize spec_div) as Hcat.
  rewrite categorize_longest_prefix in Hcat.
  eexists _, _, (spec_item_of spec_div).
  split; [exact (extract_specs_document E html limit soup Hdoc)|].
  split; [|split; [reflexivity|]].
  { rewrite list_lookup_fmap, lookup_take_lt by lia. now rewrite Hdiv. }
  split; [exact Hcat|]. split.
  - intros X HX. rewrite HX in Hcat.
    change (classify_by_table ("module-type-" +:+ X)) with ("module type", X) in Hcat.
    injection Hcat as Hkind Hname. rewrite Hkind, Hname.
    repeat split. discriminate.
  - intros Hnone. unfold classify_by_table in Hcat. rewrite Hnone in Hcat.
    now injection Hcat as -> ->.
Qed.

(** A fragment whose one container is named [module-type-Foo]. *)
Lemma extract_specs_kind_and_name_witness :
  let container := Loc (spec_div "module-type-Foo") [] in
  document demo_env (PyStr "module type") = Returned [spec_div "module-type-Foo"]
  /\ spec_containers [spec_div "module-type-Foo"] !! 0%nat = Some container
  /\ (Z.of_nat 0 < 100)%Z
  /\ exists items truncated it,
       extract_specs demo_env (PyStr "module type") 100 = Returned (items, truncated)
       /\ items !! 0%nat = Some it
       /\ it = spec_item_of container
       /\ (kind it, name it) = classify_by_table (anchor_of container)
       /\ (forall X, anchor_of container = "module-type-" +:+ X ->
                     kind it = "module type" /\ name it = X
                     /\ (kind it, name it) <> ("module", "type-" +:+ X))
       /\ (longest_prefix_entry (anchor_of container) = None ->
           kind it = "other" /\ name it = anchor_of container).
Proof.
  intros container.
  split; [reflexivity|]. split; [reflexivity|]. split; [lia|].
  apply (extract_specs_kind_and_name demo_env (PyStr "module type") 100
           [spec_div "module-type-Foo"] 0 container); [reflexivity | reflexivity | lia].
Defined.

Example extract_specs_module_type :
  extract_specs demo_env (PyStr "module type") 100
  = Returned ([SpecItem "module type" "Foo" "val module-type-Foo" ""], false).
Proof. vm_compute. reflexivity. Qed.

Example module_type_precedence : categorize "module-type-Foo" = ("module type", "Foo").
Proof. reflexivity. Qed.

(** ** Remote module matcher *)

Lemma split_not_nil (sep : ascii) (s : string) : Str.split sep s <> [].
Proof.
  destruct s as [|c s]; simpl; [discriminate|].
  destruct (Ascii.eqb c sep); [discriminate|].
  destruct (Str.split sep s); discriminate.
Qed.

Lemma join_cons (sep x : string) (l : list string) :
  l <> [] -> Str.join sep (x :: l) = x +:+ sep +:+ Str.join sep l.
Proof. destruct l; [congruence | reflexivity]. Qed.

(** Splitting at the dots and joining with slashes turns every dot into a
    slash and changes nothing else. *)
Lemma join_split_dots (s : string) :
  Str.join "/" (Str.split "." s) = dots_to_slashes s.
Proof.
  induction s as [|c s IH]; [reflexivity|].
  simpl Str.split. simpl dots_to_slashes.
  destruct (Ascii.eqb c ".") eqn:Hc.
  - rewrite join_cons by apply split_not_nil. now rewrite IH.
  - pose proof (split_not_nil "." s) as Hne.
    destruct (Str.split "." s) as [|w ws]; [congruence|].
    rewrite <- IH. destruct ws as [|w' ws]; [reflexivity|].
    rewrite !join_cons by discriminate. reflexivity.
Qed.

Lemma first_match_strs (test : string -> bool) (paths : list string) :
  first_match test (map PyStr paths) = Returned (List.find test paths).
Proof.
  induction paths as [|p paths IH]; [reflexivity|].
  simpl. destruct (test p); [reflexivity | exact IH].
Qed.

Lemma find_first_passing (test : string -> bool) (l : list string) (f : string) :
  List.find test l = Some f <-> first_passing test l f.
Proof.
  unfold first_passing. induction l as [|x l IH]; simpl.
  - split; [discriminate|]. intros (l1 & l2 & Hl & _). now destruct l1.
  - destruct (test x) eqn:Hx.
    + split.
      * intros [= ->]. exists [], l. repeat split; auto.
      * intros (l1 & l2 & Hl & Hf & Hl1). destruct l1 as [|y l1].
        -- now injection Hl as ->.
        -- injection Hl as -> _. apply Forall_cons_1 in Hl1 as [Hy _]. congruence.
    + rewrite IH. split.
      * intros (l1 & l2 & -> & Hf & Hl1). exists (x :: l1), l2. repeat split; auto.
      * intros (l1 & l2 & Hl & Hf & Hl1). destruct l1 as [|y l1].
        -- injection Hl as -> _. congruence.
        -- injection Hl as -> ->. apply Forall_cons_1 in Hl1 as [_ Hl1].
           exists l1, l2. repeat split; auto.
Qed.

Lemma find_none_iff (test : string -> bool) (l : list string) :
  List.find test l = None <-> Forall (fun x => test x = false) l.
Proof.
  induction l as [|x l IH]; simpl.
  - split; auto.
  - destruct (test x) eqn:Hx.
    + split; [discriminate|]. intros H. apply Forall_cons_1 in H as [H _]. congruence.
    + rewrite IH. split; [now constructor | intros H; now apply Forall_cons_1 in H].
Qed.

(** C6: on a list of paths, [find_module_file] answers the first path that
    ends with [<dots-as-slashes>/index.html]; if no path does, the first
    path whose lower-cased form ends with the lower-cased suffix; and it
    answers absent exactly when no path passes either test. *)
Theorem find_module_file_two_passes (paths : list string) (module_path : string) :
  let suffix := dots_to_slashes module_path +:+ "/index.html" in
  let exact := fun f => Str.endswith f suffix in
  let folded := fun f => Str.endswith (Str.lower f) (Str.lower suffix) in
  exists result,
    find_module_file (py_strs paths) module_path = Returned result
    /\ (forall f, result = Some f <->
                  first_passing exact paths f
                  \/ (Forall (fun p => exact p = false) paths /\ first_passing folded paths f))
    /\ (result = None <-> Forall (fun p => exact p = false /\ folded p = false) paths).
Proof.
  intros suffix exact folded.
  unfold find_module_file, module_suffix. rewrite join_split_dots.
  fold suffix. cbn [py_strs py_iter obind]. rewrite first_match_strs. cbn [obind].
  fold exact.
  destruct (List.find exact paths) as [f0|] eqn:Hexact.
  - exists (Some f0). split; [reflexivity|]. split.
    + intros f. split.
      * intros [= <-]. left. now apply find_first_passing.
      * intros [H | [Hnone _]].
        -- apply find_first_passing in H. congruence.
        -- apply find_none_iff in Hnone. congruence.
    + split; [discriminate|]. intros Hall.
      assert (List.find exact paths = None); [|congruence].
      apply find_none_iff. eapply Forall_impl; [exact Hall|]. now intros p [? _].
  - rewrite first_match_strs. fold folded.
    exists (List.find folded paths). split; [reflexivity|].
    apply find_none_iff in Hexact. split.
    + intros f. rewrite find_first_passing. split.
      * intros H. right. now split.
      * intros [(l1 & l2 & -> & Hf & _) | [_ H]]; [|exact H].
        apply Forall_app in Hexact as [_ Hexact].
        apply Forall_cons_1 in Hexact as [Hexact _]. congruence.
    + rewrite find_none_iff. split.
      * intros Hfold. rewrite Forall_forall in Hexact, Hfold |- *.
        intros p Hp. split; auto.
      * intros Hall. eapply Forall_impl; [exact Hall|]. now intros p [_ ?].
Qed.

Example find_module_file_exact :
  find_module_file (py_strs ["doc/index.html"; "doc/Base/List/index.html"]) "Base.List"
  = Returned (Some "doc/Base/List/index.html").
Proof. vm_compute. reflexivity. Qed.

Example find_module_file_folded :
  find_module_file (py_strs ["doc/BASE/LIST/index.html"]) "Base.List"
  = Returned (Some "doc/BASE/LIST/index.html").
Proof. vm_compute. reflexivity. Qed.

Example find_module_file_exact_first :
  find_module_file (py_strs ["x/base/list/index.html"; "y/Base/List/index.html"]) "Base.List"
  = Returned (Some "y/Base/List/index.html").
Proof. vm_compute. reflexivity. Qed.

(** ** TTL cache *)

Lemma SFleb_not_SFltb (a b : spec_float) : SFleb a b = true -> SFltb b a = false.
Proof.
  unfold SFleb, SFltb.
  destruct a as [sa|sa| |sa ma ea], b as [sb|sb| |sb mb eb]; simpl; try congruence;
    try (destruct sa, sb; simpl; congruence);
    try (destruct sa; simpl; congruence);
    try (destruct sb; simpl; congruence).
  change (PosDef.Pos.compare_cont Eq ma mb) with (ma ?= mb)%positive.
  change (PosDef.Pos.compare_cont Eq mb ma) with (mb ?= ma)%positive.
  rewrite (Z.compare_antisym eb ea), (Pos.compare_antisym mb ma).
  destruct sa, sb; simpl; try congruence;
    destruct (eb ?= ea)%Z; simpl; try congruence;
    destruct (mb ?= ma)%positive; simpl; congruence.
Qed.

(** On floats, [a <= b] excludes [b < a] (neither holds for a NaN). *)
Lemma leb_not_ltb (a b : float) : PrimFloat.leb a b = true -> PrimFloat.ltb b a = false.
Proof. rewrite leb_spec, ltb_spec. apply SFleb_not_SFltb. Qed.

(** What [cache_get] answers and how it leaves the world: the clock is
    read once when the key has an entry, and the cache is never changed. *)
Lemma cache_get_eq (E : externals) (key : string) (w : world) :
  cache_get E key w =
  match cache w !! key with
  | Some entry =>
      (Returned (if PrimFloat.ltb (clock E (time_reads w)) (snd entry)
                 then fst entry else PyNone),
       World (cache w) (S (time_reads w)) (requests w))
  | None => (Returned PyNone, w)
  end.
Proof.
  unfold cache_get, cache_lookup, time_time, mbind, M_bind, mret, M_ret. simpl.
  destruct (cache w !! key) as [entry|]; [|reflexivity].
  now destruct (PrimFloat.ltb _ _).
Qed.

Lemma cache_set_eq (E : externals) (key : string) (value : pyval) (ttl : float) (w : world) :
  cache_set E key value ttl w =
  (Returned tt,
   World (<[key := (value, (clock E (time_reads w) + ttl)%float)]> (cache w))
         (S (time_reads w)) (requests w)).
Proof. reflexivity. Qed.

(** C9: [cache_set] stores the value with the expiry instant "now + ttl".
    In any later state that still holds that entry, [cache_get] returns the
    stored value itself when the clock reads strictly before the expiry,
    and absent when the clock reads the expiry or later, whatever value is
    stored; for a key without entry it returns absent. *)
Theorem cache_get_after_set (E : externals) (key : string) (value : pyval) (ttl : float)
        (w : world) :
  let expiry := (clock E (time_reads w) + ttl)%float in
  cache (snd (cache_set E key value ttl w)) !! key = Some (value, expiry)
  /\ (forall w', cache w' !! key = Some (value, expiry) ->
                 PrimFloat.ltb (clock E (time_reads w')) expiry = true ->
                 fst (cache_get E key w') = Returned value)
  /\ (forall w' stored stored_expiry,
         cache w' !! key = Some (stored, stored_expiry) ->
         PrimFloat.leb stored_expiry (clock E (time_reads w')) = true ->
         fst (cache_get E key w') = Returned PyNone)
  /\ (forall w', cache w' !! key = None -> fst (cache_get E key w') = Returned PyNone).
Proof.
  intros expiry. rewrite cache_set_eq. cbn [snd cache].
  split; [apply lookup_insert_eq|].
  split; [|split].
  - intros w' Hentry Hbefore. rewrite cache_get_eq, Hentry. cbn [fst snd].
    now rewrite Hbefore.
  - intros w' stored stored_expiry Hentry Hafter. rewrite cache_get_eq, Hentry.
    cbn [fst snd]. now rewrite (leb_not_ltb _ _ Hafter).
  - intros w' Hnone. now rewrite cache_get_eq, Hnone.
Qed.

(** A value set with a time to live of one second at instant 100 is read
    back unchanged at instant 100.5 and is absent at instant 102. *)
Example cache_ttl_one_second :
  let w1 := snd (cache_set demo_env "k" (PyStr "v") 1 initial_world) in
  let w2 := snd (cache_get demo_env "k" w1) in
  fst (cache_get demo_env "k" w1) = Returned (PyStr "v")
  /\ fst (cache_get demo_env "k" w2) = Returned PyNone
  /\ fst (cache_get demo_env "other" w1) = Returned PyNone.
Proof. vm_compute. repeat split. Qed.

(** ** Content fetcher *)

(** C2 (as amended): [fetch_text] and [fetch_json] send one request; when
    the response status is not 200 they return absent; when the transport
    fails they do not return: the exception of [session.get] (a client
    error, a timeout) is raised to the caller (the query operations catch
    it at their boundary); on status 200 they
    return the body, decoded by [json.loads] for [fetch_json], or raise
    what reading or decoding the body raises. *)
Theorem fetch_outcomes (E : externals) (url : string) (w : world) :
  let w' := World (cache w) (time_reads w) (requests w ++ [url]) in
  match http E (length (requests w)) url with
  | TransportFailure e =>
      fetch_text E url w = (Raised e, w')
      /\ fetch_json E url w = (Raised e, w')
  | Response status body =>
      if (status =? 200)%Z then
        fetch_text E url w = (obind body (fun txt => Returned (Some txt)), w')
        /\ fetch_json E url w = (obind body (json_loads E), w')
      else
        fetch_text E url w = (Returned None, w')
        /\ fetch_json E url w = (Returned PyNone, w')
  end.
Proof.
  intros w'. unfold fetch_text, fetch_json, session_get, mbind, M_bind. simpl.
  destruct (http E (length (requests w)) url) as [msg | status body]; [now split|].
  destruct (status =? 200)%Z; simpl; [|now split].
  unfold lift, obind. destruct body as [txt | e]; simpl; split; reflexivity.
Qed.

(** C2 as stated fails when the transport fails: both helpers raise. *)
Lemma fetch_transport_failure_raises :
  let url := "https://sage.ci.dev/current/p/demo/1.0/doc/index.html.json" in
  http demo_env 0 url = TransportFailure (Exn ClientError "connection reset")
  /\ fst (fetch_text demo_env url initial_world) = Raised (Exn ClientError "connection reset")
  /\ fst (fetch_json demo_env url initial_world) = Raised (Exn ClientError "connection reset")
  /\ fst (fetch_text demo_env url initial_world) <> Returned None
  /\ fst (fetch_json demo_env url initial_world) <> Returned PyNone.
Proof. vm_compute. repeat split; discriminate. Qed.

(** ** Version resolver *)

(** C3 (as amended): a non-empty explicit version is returned verbatim and
    the world is left as it was: no cache access, no clock reading, no
    request, hence no check against the package's version listing. *)
Theorem resolve_version_explicit (E : externals) (package version : string) (w : world) :
  version <> EmptyString ->
  resolve_version E package (Some version) w = (Returned (Some version), w).
Proof.
  intros Hgiven. unfold resolve_version, version_given.
  destruct (String.eqb version EmptyString) eqn:Heq; [|reflexivity].
  apply String.eqb_eq in Heq. contradiction.
Qed.

Lemma resolve_version_explicit_witness :
  "9.9" <> EmptyString
  /\ resolve_version demo_env "demo" (Some "9.9") initial_world
     = (Returned (Some "9.9"), initial_world).
Proof.
  split; [discriminate|].
  apply (resolve_version_explicit demo_env "demo" "9.9" initial_world). discriminate.
Defined.

(** An empty explicit version is treated as no version. *)
Lemma resolve_version_empty (E : externals) (package : string) (w : world) :
  resolve_version E package (Some EmptyString) w = resolve_version E package None w.
Proof. reflexivity. Qed.

(** C3 as stated fails for the empty version string: the listing is
    fetched and its latest version is returned. *)
Lemma resolve_version_empty_string_fetches :
  fst (resolve_version demo_env "demo" (Some EmptyString) initial_world) = Returned (Some "1.0")
  /\ requests (snd (resolve_version demo_env "demo" (Some EmptyString) initial_world))
     = ["https://sage.ci.dev/current/p/demo/"]
  /\ fst (resolve_version demo_env "demo" (Some EmptyString) initial_world)
     <> Returned (Some EmptyString).
Proof. vm_compute. repeat split; discriminate. Qed.

(** ** Library extractor *)

Lemma linked_items_filter (lis : list node) :
  linked_items lis = map entry_of_item (filter has_link lis).
Proof.
  induction lis as [|li lis IH]; [reflexivity|].
  simpl linked_items. destruct (tag_find "a" li) as [link|] eqn:Hlink.
  - rewrite filter_cons_True by (unfold has_link; now rewrite Hlink).
    simpl. unfold entry_of_item at 1. rewrite Hlink. simpl. now rewrite IH.
  - rewrite filter_cons_False by (unfold has_link; now rewrite Hlink).
    exact IH.
Qed.

Lemma absorb_app (current_lib : option library) (a b : list module_entry) :
  absorb (absorb current_lib a) b = absorb current_lib (a ++ b).
Proof.
  destruct a as [|x a]; [reflexivity|].
  destruct b as [|y b]; [now rewrite app_nil_r|].
  unfold absorb, extend_modules. simpl. now rewrite <- app_assoc.
Qed.

(** Without a heading among the children, the loop flushes nothing and
    gathers every linked item into the current library. *)
Lemma libraries_loop_no_heading (children : list node) (libraries : list library)
      (current_lib : option library) :
  Forall (fun n => tag_named "h2" n = false) children ->
  libraries_loop children libraries current_lib
  = (libraries, absorb current_lib (map entry_of_item (linked_list_items children))).
Proof.
  revert current_lib. induction children as [|element rest IH]; intros current_lib Hno.
  - reflexivity.
  - apply Forall_cons_1 in Hno as [Hel Hrest].
    unfold linked_list_items. simpl flat_map. fold (linked_list_items rest).
    rewrite map_app, <- absorb_app.
    destruct element as [s | s | nm cls ats ch]; simpl libraries_loop.
    + now rewrite IH.
    + now rewrite IH.
    + simpl in Hel. rewrite Hel. unfold is_list_element. simpl tag_named.
      rewrite IH by assumption. f_equal. f_equal.
      destruct (String.eqb nm "ul" || String.eqb nm "dl"); [|reflexivity].
      rewrite linked_items_filter. unfold absorb.
      destruct (map entry_of_item (filter _ _)); reflexivity.
Qed.

(** C8: a fragment whose top-level elements hold no level-2 heading and
    whose top-level [ul]/[dl] elements hold at least one linked list item
    yields exactly one library, named "default", with all those items in
    document order. *)
Theorem extract_package_libraries_default (E : externals) (html : pyval) (soup : list node) :
  document E html = Returned soup ->
  Forall (fun n => tag_named "h2" n = false) soup ->
  linked_list_items soup <> [] ->
  extract_package_libraries E html
  = Returned [Library "default" (map entry_of_item (linked_list_items soup))].
Proof.
  unfold document, extract_package_libraries. intros Hdoc Hno Hsome.
  destruct (negb (truthy html)).
  - injection Hdoc as <-. now contradiction Hsome.
  - rewrite Hdoc. cbn [obind]. rewrite libraries_loop_no_heading by assumption.
    destruct (linked_list_items soup) as [|li lis]; [congruence|]. reflexivity.
Qed.

Lemma extract_package_libraries_default_witness :
  document demo_env (PyStr "flat list") = Returned demo_flat_list
  /\ Forall (fun n => tag_named "h2" n = false) demo_flat_list
  /\ linked_list_items demo_flat_list <> []
  /\ extract_package_libraries demo_env (PyStr "flat list")
     = Returned [Library "default" (map entry_of_item (linked_list_items demo_flat_list))].
Proof.
  assert (Hno : Forall (fun n => tag_named "h2" n = false) demo_flat_list)
    by (repeat constructor).
  assert (Hsome : linked_list_items demo_flat_list <> []) by (vm_compute; discriminate).
  split; [reflexivity|]. split; [exact Hno|]. split; [exact Hsome|].
  apply (extract_package_libraries_default demo_env (PyStr "flat list") demo_flat_list);
    [reflexivity | exact Hno | exact Hsome].
Defined.

Example flat_list_libraries :
  extract_package_libraries demo_env (PyStr "flat list")
  = Returned [Library "default" [ModuleEntry "A" "first"; ModuleEntry "B" ""]].
Proof. vm_compute. reflexivity. Qed.

(** ** More on strings: suffixes, splitting and joining *)

Lemma slice_to_from (k : nat) (s : string) : Str.slice_to k s +:+ Str.slice_from k s = s.
Proof.
  revert s. induction k as [|k IH]; intros s; [reflexivity|].
  destruct s as [|c s]; [reflexivity|]. simpl. now rewrite str_app_cons, IH.
Qed.

Lemma length_slice_to (k : nat) (s : string) :
  (k <= String.length s)%nat -> String.length (Str.slice_to k s) = k.
Proof.
  revert s. induction k as [|k IH]; intros s Hk; [reflexivity|].
  destruct s as [|c s]; simpl in *; [lia|]. rewrite IH; lia.
Qed.

(** [endswith] is the suffix relation. *)
Lemma endswith_spec (s suf : string) :
  Str.endswith s suf = true <-> exists p, s = p +:+ suf.
Proof.
  unfold Str.endswith. split.
  - intros H. apply andb_prop in H as [_ H]. apply String.eqb_eq in H.
    exists (Str.slice_to (String.length s - String.length suf) s).
    rewrite <- H at 2. now rewrite slice_to_from.
  - intros [p ->]. rewrite str_length_app. apply andb_true_intro. split.
    + apply Nat.leb_le. lia.
    + replace (String.length p + String.length suf - String.length suf)%nat
        with (String.length p) by lia.
      rewrite slice_from_app. apply String.eqb_refl.
Qed.

Lemma split_sep_free (sep : ascii) (s : string) : sep_free sep s -> Str.split sep s = [s].
Proof.
  unfold sep_free. induction s as [|c s IH]; intros H; [reflexivity|].
  simpl in H. apply Forall_cons_1 in H as [Hc H]. simpl.
  destruct (Ascii.eqb c sep) eqn:Heq; [apply Ascii.eqb_eq in Heq; contradiction|].
  now rewrite IH.
Qed.

Lemma split_pieces_sep_free (sep : ascii) (s : string) :
  Forall (sep_free sep) (Str.split sep s).
Proof.
  induction s as [|c s IH]; simpl.
  - repeat constructor.
  - destruct (Ascii.eqb c sep) eqn:Heq.
    + constructor; [constructor | exact IH].
    + destruct (Str.split sep s) as [|w ws]; [repeat constructor; now apply Ascii.eqb_neq|].
      apply Forall_cons_1 in IH as [Hw Hws]. constructor; [|exact Hws].
      constructor; [now apply Ascii.eqb_neq | exact Hw].
Qed.

Lemma split_app_sep (sep : ascii) (p z : string) :
  Str.split sep (p +:+ String sep z) = Str.split sep p ++ Str.split sep z.
Proof.
  induction p as [|c p IH].
  - rewrite str_app_nil_l. simpl. now rewrite Ascii.eqb_refl.
  - rewrite str_app_cons. simpl. rewrite IH.
    destruct (Ascii.eqb c sep); [reflexivity|].
    pose proof (split_not_nil sep p) as Hne.
    now destruct (Str.split sep p).
Qed.

Lemma join_split (sep : ascii) (s : string) :
  Str.join (String sep EmptyString) (Str.split sep s) = s.
Proof.
  induction s as [|c s IH]; [reflexivity|]. simpl Str.split.
  destruct (Ascii.eqb c sep) eqn:Heq.
  - apply Ascii.eqb_eq in Heq as ->.
    rewrite join_cons by apply split_not_nil. now rewrite IH.
  - pose proof (split_not_nil sep s) as Hne.
    destruct (Str.split sep s) as [|w ws]; [congruence|].
    rewrite <- IH. destruct ws as [|w' ws]; [reflexivity|].
    rewrite !join_cons by discriminate. reflexivity.
Qed.

Lemma split_join (sep : ascii) (l : list string) :
  l <> [] -> Forall (sep_free sep) l ->
  Str.split sep (Str.join (String sep EmptyString) l) = l.
Proof.
  induction l as [|x l IH]; [congruence|]. intros _ Hfree.
  apply Forall_cons_1 in Hfree as [Hx Hl].
  destruct l as [|y l]; [now apply split_sep_free|].
  rewrite join_cons by discriminate.
  change (x +:+ String sep EmptyString +:+ Str.join (String sep EmptyString) (y :: l))
    with (x +:+ String sep (Str.join (String sep EmptyString) (y :: l))).
  rewrite split_app_sep, split_sep_free by assumption.
  rewrite IH by (auto; discriminate). reflexivity.
Qed.

Lemma join_snoc (sep : string) (l : list string) (z : string) :
  l <> [] -> Str.join sep (l ++ [z]) = Str.join sep l +:+ sep +:+ z.
Proof.
  induction l as [|x l IH]; [congruence|]. intros _.
  destruct l as [|y l]; [reflexivity|].
  change ((x :: y :: l) ++ [z]) with (x :: ((y :: l) ++ [z])).
  rewrite join_cons by (simpl; discriminate).
  rewrite IH by discriminate.
  rewrite (join_cons sep x (y :: l)) by discriminate.
  now rewrite !str_app_assoc.
Qed.

(** ** The order of strings and [sorted] *)

Lemma nat_of_ascii_inj (x y : ascii) : nat_of_ascii x = nat_of_ascii y -> x = y.
Proof.
  intros H. rewrite <- (ascii_nat_embedding x), <- (ascii_nat_embedding y). now rewrite H.
Qed.

Lemma ltb_irrefl (a : string) : Str.ltb a a = false.
Proof.
  induction a as [|x a IH]; [reflexivity|]. simpl.
  now rewrite Nat.ltb_irrefl.
Qed.

Lemma ltb_trans (a b c : string) :
  Str.ltb a b = true -> Str.ltb b c = true -> Str.ltb a c = true.
Proof.
  revert b c. induction a as [|x a IH]; intros [|y b] [|z c]; simpl; try congruence.
  destruct (nat_of_ascii x <? nat_of_ascii y)%nat eqn:Hxy,
           (nat_of_ascii y <? nat_of_ascii x)%nat eqn:Hyx,
           (nat_of_ascii y <? nat_of_ascii z)%nat eqn:Hyz,
           (nat_of_ascii z <? nat_of_ascii y)%nat eqn:Hzy,
           (nat_of_ascii x <? nat_of_ascii z)%nat eqn:Hxz,
           (nat_of_ascii z <? nat_of_ascii x)%nat eqn:Hzx;
    try congruence;
    repeat match goal with
           | H : (_ <? _)%nat = true |- _ => apply Nat.ltb_lt in H
           | H : (_ <? _)%nat = false |- _ => apply Nat.ltb_ge in H
           end; try lia.
  apply IH.
Qed.

Lemma ltb_total (a b : string) : a <> b -> Str.ltb a b = false -> Str.ltb b a = true.
Proof.
  revert b. induction a as [|x a IH]; intros [|y b]; simpl; try congruence.
  intros Hne.
  destruct (nat_of_ascii x <? nat_of_ascii y)%nat eqn:Hxy; [congruence|].
  destruct (nat_of_ascii y <? nat_of_ascii x)%nat eqn:Hyx; [reflexivity|].
  apply Nat.ltb_ge in Hxy, Hyx.
  assert (x = y) as -> by (apply nat_of_ascii_inj; lia).
  apply IH. congruence.
Qed.

Lemma elem_of_insert_by {A : Type} (lt : A -> A -> bool) (x y : A) (l : list A) :
  y ∈ insert_by lt x l <-> y = x \/ y ∈ l.
Proof.
  induction l as [|z l IH]; simpl.
  - rewrite list_elem_of_singleton. rewrite elem_of_nil. tauto.
  - destruct (lt x z); rewrite !elem_of_cons; [tauto|]. rewrite IH. tauto.
Qed.

Lemma elem_of_sorted_by {A : Type} (lt : A -> A -> bool) (y : A) (l : list A) :
  y ∈ sorted_by lt l <-> y ∈ l.
Proof.
  unfold sorted_by. induction l as [|x l IH]; simpl; [reflexivity|].
  rewrite elem_of_insert_by, elem_of_cons, IH. tauto.
Qed.

Lemma insert_by_sorted (x : string) (l : list string) :
  x ∉ l -> StronglySorted str_lt l -> StronglySorted str_lt (insert_by Str.ltb x l).
Proof.
  intros Hx Hl. induction Hl as [|y l Hl IH Hy]; simpl.
  - repeat constructor.
  - rewrite not_elem_of_cons in Hx. destruct Hx as [Hxy Hx].
    destruct (Str.ltb x y) eqn:Hlt.
    + constructor; [now constructor|]. constructor; [exact Hlt|].
      eapply Forall_impl; [exact Hy|]. intros z Hz. now apply (ltb_trans x y z).
    + constructor; [now apply IH|].
      apply Forall_forall. intros z Hz. apply elem_of_insert_by in Hz as [-> | Hz].
      * now apply ltb_total.
      * rewrite Forall_forall in Hy. now apply Hy.
Qed.

(** Sorting a list without repetitions gives a strictly increasing list. *)
Lemma sorted_by_sorted (l : list string) :
  NoDup l -> StronglySorted str_lt (sorted_by Str.ltb l).
Proof.
  unfold sorted_by. induction 1 as [|x l Hx Hl IH]; simpl; [constructor|].
  apply insert_by_sorted; [|exact IH].
  now rewrite (elem_of_sorted_by Str.ltb x l).
Qed.

Lemma str_lt_irrefl (a : string) : ~ str_lt a a.
Proof. unfold str_lt. now rewrite ltb_irrefl. Qed.

(** A strictly increasing list is determined by its elements: what
    [sorted] returns on a set does not depend on how it sorts. *)
Lemma strictly_sorted_unique (l1 l2 : list string) :
  StronglySorted str_lt l1 -> StronglySorted str_lt l2 ->
  (forall x, x ∈ l1 <-> x ∈ l2) -> l1 = l2.
Proof.
  intros H1. revert l2. induction H1 as [|x l1 H1 IH Hx]; intros l2 H2 Hsame.
  - destruct l2 as [|y l2]; [reflexivity|].
    assert (y ∈ []) as Hy by (apply Hsame, elem_of_cons; now left).
    now apply elem_of_nil in Hy.
  - destruct H2 as [|y l2 H2 Hy].
    { assert (x ∈ []) as Hx' by (apply Hsame, elem_of_cons; now left).
      now apply elem_of_nil in Hx'. }
    rewrite Forall_forall in Hx, Hy.
    assert (x = y) as <-.
    { assert (x ∈ y :: l2) as Hxy by (apply Hsame, elem_of_cons; now left).
      assert (y ∈ x :: l1) as Hyx by (apply Hsame, elem_of_cons; now left).
      apply elem_of_cons in Hxy as [-> | Hxy]; [reflexivity|].
      apply elem_of_cons in Hyx as [-> | Hyx]; [reflexivity|].
      exfalso. apply (str_lt_irrefl x).
      apply (ltb_trans x y x); [now apply Hx | now apply Hy]. }
    f_equal. apply IH; [exact H2|]. intros z. split; intros Hz.
    + assert (z ∈ x :: l2) as Hz' by (apply Hsame, elem_of_cons; now right).
      apply elem_of_cons in Hz' as [-> | Hz']; [|exact Hz'].
      exfalso. apply (str_lt_irrefl x). now apply Hx.
    + assert (z ∈ x :: l1) as Hz' by (apply Hsame, elem_of_cons; now right).
      apply elem_of_cons in Hz' as [-> | Hz']; [|exact Hz'].
      exfalso. apply (str_lt_irrefl x). now apply Hy.
Qed.

(** ** The hint of top-level modules *)

Lemma index_html_slash_free : slash_free "index.html".
Proof. repeat constructor; discriminate. Qed.

(** The test of the loop, read on the path: [doc/<library>/<m>/.../index.html]. *)
Lemma passes_hint_test_candidate (f m : string) :
  passes_hint_test f = true /\ hint_name f = m <-> top_level_candidate f m.
Proof.
  unfold passes_hint_test, hint_name, hint_parts, top_level_candidate. split.
  - intros [Hpass Hname].
    apply andb_prop in Hpass as [Hpass Hlen]. apply andb_prop in Hpass as [Hstart Hend].
    apply Nat.leb_le in Hlen.
    apply startswith_inv in Hstart. simpl String.length in Hstart.
    apply endswith_spec in Hend as [p Hp].
    set (x := Str.slice_from 4 f) in *.
    assert (Hsplit : "doc" :: Str.split "/" x = Str.split "/" p ++ ["index.html"]).
    { change ("doc" :: Str.split "/" x) with (Str.split "/" "doc" ++ Str.split "/" x).
      rewrite <- split_app_sep.
      change ("doc" +:+ String "/" x) with ("doc/" +:+ x). rewrite <- Hstart, Hp.
      change (p +:+ "/index.html") with (p +:+ String "/" "index.html").
      now rewrite split_app_sep. }
    pose proof (split_pieces_sep_free "/" x) as Hfree.
    pose proof (join_split "/" x) as Hjoin.
    destruct (Str.split "/" x) as [|lib [|m' r]]; simpl in Hlen; try lia.
    simpl in Hname. subst m'.
    destruct r as [|r0 r]; [simpl in Hlen; lia|].
    destruct (exists_last (l := r0 :: r)) as (rest & z & Hr); [discriminate|].
    rewrite Hr in *.
    change ("doc" :: lib :: m :: rest ++ [z]) with (("doc" :: lib :: m :: rest) ++ [z]) in Hsplit.
    apply app_inj_tail in Hsplit as [_ ->].
    exists lib, rest. split.
    + rewrite Hstart at 1. now rewrite Hjoin.
    + apply Forall_cons_1 in Hfree as [Hlib Hfree].
      apply Forall_cons_1 in Hfree as [Hm Hfree].
      apply Forall_app in Hfree as [Hrest _].
      repeat constructor; assumption.
  - intros (lib & rest & -> & Hfree).
    assert (Hall : Forall (sep_free "/") (lib :: m :: rest ++ ["index.html"])).
    { apply Forall_cons_1 in Hfree as [Hlib Hfree].
      apply Forall_cons_1 in Hfree as [Hm Hrest].
      constructor; [exact Hlib|]. constructor; [exact Hm|].
      apply Forall_app. split; [exact Hrest|]. constructor; [|constructor].
      exact index_html_slash_free. }
    rewrite startswith_app.
    change 4%nat with (String.length "doc/"). rewrite slice_from_app.
    rewrite (split_join "/") by (auto; discriminate).
    split; [|reflexivity].
    apply andb_true_intro.
    split; [|apply Nat.leb_le; simpl; rewrite length_app; simpl; lia].
    apply andb_true_intro. split; [reflexivity|].
    apply endswith_spec.
    exists ("doc/" +:+ Str.join "/" (lib :: m :: rest)).
    change (lib :: m :: rest ++ ["index.html"]) with ((lib :: m :: rest) ++ ["index.html"]).
    rewrite join_snoc by discriminate. now rewrite !str_app_assoc.
Qed.

Lemma top_modules_loop_cons (f : string) (rest : list pyval) (top_modules : gset string) :
  top_modules_loop (PyStr f :: rest) top_modules
  = if passes_hint_test f
    then top_modules_loop rest ({[hint_name f]} ∪ top_modules)
    else top_modules_loop rest top_modules.
Proof.
  unfold passes_hint_test, hint_name, hint_parts. cbn [top_modules_loop].
  destruct (Str.startswith f "doc/"), (Str.endswith f "/index.html"),
           (3 <=? length (Str.split "/" (Str.slice_from 4 f)))%nat; reflexivity.
Qed.

(** The loop adds to [top_modules] the names of the paths that pass. *)
Lemma top_modules_loop_strs (paths : list string) (top_modules : gset string) :
  exists names,
    top_modules_loop (map PyStr paths) top_modules = Returned names
    /\ forall m, m ∈ names <->
                 m ∈ top_modules
                 \/ exists f, f ∈ paths /\ passes_hint_test f = true /\ hint_name f = m.
Proof.
  revert top_modules. induction paths as [|f paths IH]; intros top_modules.
  - exists top_modules. split; [reflexivity|]. intros m. split; [now left|].
    intros [H | (f & Hf & _)]; [exact H | now apply elem_of_nil in Hf].
  - change (map PyStr (f :: paths)) with (PyStr f :: map PyStr paths).
    rewrite top_modules_loop_cons.
    destruct (passes_hint_test f) eqn:Htest.
    + destruct (IH ({[hint_name f]} ∪ top_modules)) as (names & Hrun & Hnames).
      exists names. split; [exact Hrun|]. intros m. rewrite Hnames.
      rewrite elem_of_union, elem_of_singleton. split.
      * intros [[-> | Hm] | (g & Hg & Hpass)].
        -- right. exists f. split; [apply elem_of_cons; now left | now split].
        -- now left.
        -- right. exists g. split; [apply elem_of_cons; now right | exact Hpass].
      * intros [Hm | (g & Hg & Hpass & Hname)]; [left; now right|].
        apply elem_of_cons in Hg as [-> | Hg]; [left; left; now symmetry|].
        right. now exists g.
    + destruct (IH top_modules) as (names & Hrun & Hnames).
      exists names. split; [exact Hrun|]. intros m. rewrite Hnames. split.
      * intros [Hm | (g & Hg & Hpass)]; [now left|].
        right. exists g. split; [apply elem_of_cons; now right | exact Hpass].
      * intros [Hm | (g & Hg & Hpass & Hname)]; [now left|].
        apply elem_of_cons in Hg as [-> | Hg]; [congruence|right; now exists g].
Qed.

Lemma first_match_none_strs (test : string -> bool) (fs : list pyval) :
  first_match test fs = Returned None -> exists paths, fs = map PyStr paths.
Proof.
  induction fs as [|v fs IH]; intros H.
  - now exists [].
  - destruct v as [ | | | | f | | ]; simpl in H; try discriminate.
    destruct (test f); [discriminate|].
    destruct (IH H) as [paths ->]. now exists (f :: paths).
Qed.

(** When the matcher answers absent, it has visited every element of
    [files], and each is a string. *)
Lemma find_module_file_none_strs (files : pyval) (module_path : string) :
  find_module_file files module_path = Returned None ->
  exists paths, py_iter files = Returned (map PyStr paths).
Proof.
  unfold find_module_file. destruct (py_iter files) as [fs|e]; [|discriminate].
  cbn [obind].
  destruct (first_match _ fs) as [[f|]|e] eqn:Hexact; cbn [obind]; try discriminate.
  intros _. apply first_match_none_strs in Hexact as [paths ->]. now exists paths.
Qed.

(** The hint: the first thirty of the candidate names, sorted and without
    repetition. *)
Lemma top_level_hint_strs (files : pyval) (paths : list string) :
  py_iter files = Returned (map PyStr paths) ->
  exists full,
    top_level_hint files = Returned (take 30 full)
    /\ StronglySorted str_lt full
    /\ forall m, m ∈ full <-> exists f, f ∈ paths /\ top_level_candidate f m.
Proof.
  intros Hiter. unfold top_level_hint. rewrite Hiter. cbn [obind].
  destruct (top_modules_loop_strs paths ∅) as (names & -> & Hnames). cbn [obind].
  exists (sorted_by Str.ltb (elements names)). split; [reflexivity|]. split.
  - apply sorted_by_sorted, NoDup_elements.
  - intros m. rewrite elem_of_sorted_by, elem_of_elements, Hnames. split.
    + intros [Hm | (f & Hf & Hpass)]; [now apply elem_of_empty in Hm|].
      exists f. split; [exact Hf|]. now apply passes_hint_test_candidate.
    + intros (f & Hf & Hcand). right. exists f. split; [exact Hf|].
      now apply passes_hint_test_candidate.
Qed.

(** C7 (as amended): when [get_module_doc] finds no artifact for the module
    path, it returns the error result whose hint list is the first thirty
    entries of the strictly increasing (sorted, duplicate-free) list of
    the names [m] of the artifact paths [doc/<library>/<m>/.../index.html]:
    paths under the documentation root that end in the index file name
    with at least two segments between the root and the file name, the
    second of which is [m]. *)
Theorem get_module_doc_hint (E : externals) (package_name module_path : string)
        (version : option string) (w w1 w2 : world) (ver : string) (status files : pyval) :
  resolve_version E package_name version w = (Returned (Some ver), w1) ->
  get_status E package_name ver w1 = (Returned status, w2) ->
  is_none status = false ->
  py_get status "files" (PyList []) = Returned files ->
  find_module_file files module_path = Returned None ->
  exists paths hint full,
    py_iter files = Returned (map PyStr paths)
    /\ get_module_doc E package_name module_path version w
       = (Returned (PyDict [("error", PyStr ("Module '" +:+ module_path +:+ "' not found in "
                                              +:+ package_name +:+ "/" +:+ ver));
                            ("available_top_level", py_strs hint)]), w2)
    /\ hint = take 30 full
    /\ (length hint <= 30)%nat
    /\ StronglySorted str_lt full
    /\ (forall m, m ∈ full <-> exists f, f ∈ paths /\ top_level_candidate f m).
Proof.
  intros Hver Hstatus Hsome Hfiles Hnone.
  destruct (find_module_file_none_strs _ _ Hnone) as [paths Hiter].
  destruct (top_level_hint_strs files paths Hiter) as (full & Hhint & Hsorted & Hfull).
  exists paths, (take 30 full), full.
  split; [exact Hiter|]. split.
  - unfold get_module_doc, try_except, mbind, M_bind.
    rewrite Hver, Hstatus, Hsome. unfold lift.
    rewrite Hfiles, Hnone, Hhint. reflexivity.
  - split; [reflexivity|]. split; [rewrite length_take; lia|]. now split.
Qed.

Lemma get_module_doc_hint_witness :
  resolve_version demo_env "demo" None initial_world = (Returned (Some "1.0"), demo_world_resolved)
  /\ get_status demo_env "demo" "1.0" demo_world_resolved = (Returned demo_status, demo_world_status)
  /\ is_none demo_status = false
  /\ py_get demo_status "files" (PyList []) = Returned (py_strs demo_files)
  /\ find_module_file (py_strs demo_files) "Foo" = Returned None
  /\ exists paths hint full,
       py_iter (py_strs demo_files) = Returned (map PyStr paths)
       /\ get_module_doc demo_env "demo" "Foo" None initial_world
          = (Returned (PyDict [("error", PyStr ("Module '" +:+ "Foo" +:+ "' not found in "
                                                 +:+ "demo" +:+ "/" +:+ "1.0"));
                               ("available_top_level", py_strs hint)]), demo_world_status)
       /\ hint = take 30 full
       /\ (length hint <= 30)%nat
       /\ StronglySorted str_lt full
       /\ (forall m, m ∈ full <-> exists f, f ∈ paths /\ top_level_candidate f m).
Proof.
  assert (H1 : resolve_version demo_env "demo" None initial_world
               = (Returned (Some "1.0"), demo_world_resolved)) by (vm_compute; reflexivity).
  assert (H2 : get_status demo_env "demo" "1.0" demo_world_resolved
               = (Returned demo_status, demo_world_status)) by (vm_compute; reflexivity).
  assert (H5 : find_module_file (py_strs demo_files) "Foo" = Returned None)
    by (vm_compute; reflexivity).
  split; [exact H1|]. split; [exact H2|]. split; [reflexivity|]. split; [reflexivity|].
  split; [exact H5|].
  exact (get_module_doc_hint demo_env "demo" "Foo" None initial_world demo_world_resolved
           demo_world_status "1.0" demo_status (py_strs demo_files)
           H1 H2 eq_refl eq_refl H5).
Defined.

(** C7 as stated fails on a path with a single segment between the root
    and the index file name: [doc/lib/index.html] is such a path, its
    second segment after the root is [index.html], and the hint list does
    not hold it. *)
Lemma hint_skips_single_segment_paths :
  "doc/lib/index.html" ∈ demo_files
  /\ candidate_with_one_segment "doc/lib/index.html" "index.html"
  /\ fst (get_module_doc demo_env "demo" "Foo" None initial_world)
     = Returned (PyDict [("error", PyStr "Module 'Foo' not found in demo/1.0");
                         ("available_top_level", py_strs ["Alpha"; "Zeta"])])
  /\ "index.html" ∉ ["Alpha"; "Zeta"].
Proof.
  split; [apply elem_of_cons; now left|]. split.
  - exists "lib", []. split; [reflexivity|]. split; [|reflexivity].
    repeat constructor; discriminate.
  - split; [vm_compute; reflexivity|].
    rewrite !not_elem_of_cons. repeat split; try discriminate. apply not_elem_of_nil.
Qed.

(** ** Package overview: the build flag *)

(** C10 (as amended): for a package whose status record lacks the [failed]
    field, [get_package_info] returns the package overview with [failed]
    reported as true whenever fetching the documentation page and
    extracting description and libraries from it return; when one of
    them raises, and only then, the result is the generic error result,
    built from that exception. *)
Theorem get_package_info_failed_default (E : externals) (package_name : string)
        (version : option string) (w w1 w2 : world) (ver : string)
        (d : list (string * pyval)) :
  resolve_version E package_name version w = (Returned (Some ver), w1) ->
  get_status E package_name ver w1 = (Returned (PyDict d), w2) ->
  assoc "failed" d = None ->
  get_package_info E package_name version w
  = match get_doc_json E package_name ver "doc/index.html.json" w2 with
    | (Returned doc, w3) =>
        match page_overview E doc with
        | Returned (description, libraries) =>
            (Returned (PyDict [("package", PyStr package_name); ("version", PyStr ver);
                               ("failed", PyBool true); ("description", PyStr description);
                               ("libraries", PyList (map library_to_py libraries))]), w3)
        | Raised e =>
            (Returned (error_result ("Failed to get package info: " +:+ exn_msg e)), w3)
        end
    | (Raised e, w3) =>
        (Returned (error_result ("Failed to get package info: " +:+ exn_msg e)), w3)
    end.
Proof.
  intros Hver Hstatus Hfailed.
  unfold get_package_info, try_except, mbind, M_bind.
  rewrite Hver, Hstatus. cbn [is_none py_get lift]. rewrite Hfailed.
  destruct (get_doc_json E package_name ver "doc/index.html.json" w2) as [[doc|e] w3];
    [|reflexivity].
  unfold page_overview, mbind, outcome_bind, mret, outcome_ret, M_ret.
  destruct (truthy doc); [|reflexivity].
  unfold lift.
  destruct (py_get doc "preamble" (PyStr EmptyString)) as [preamble|e]; [|reflexivity].
  cbn [obind].
  destruct (py_get doc "content" (PyStr EmptyString)) as [content|e]; [|reflexivity].
  cbn [obind].
  destruct (extract_preamble_text E preamble) as [description|e]; [|reflexivity].
  cbn [obind].
  destruct (String.eqb description EmptyString).
  - destruct (extract_preamble_text E content) as [description'|e]; [|reflexivity].
    cbn [obind].
    destruct (extract_package_libraries E content) as [libraries|e]; reflexivity.
  - cbn [obind].
    destruct (extract_package_libraries E content) as [libraries|e]; reflexivity.
Qed.

Lemma get_package_info_failed_default_witness :
  resolve_version demo_env "demo" (Some "2.0") initial_world
  = (Returned (Some "2.0"), initial_world)
  /\ get_status demo_env "demo" "2.0" initial_world
     = (Returned (PyDict [("files", py_strs demo_files)]), demo_world_status_2)
  /\ assoc "failed" [("files", py_strs demo_files)] = None
  /\ get_package_info demo_env "demo" (Some "2.0") initial_world
     = match get_doc_json demo_env "demo" "2.0" "doc/index.html.json" demo_world_status_2 with
       | (Returned doc, w3) =>
           match page_overview demo_env doc with
           | Returned (description, libraries) =>
               (Returned (PyDict [("package", PyStr "demo"); ("version", PyStr "2.0");
                                  ("failed", PyBool true); ("description", PyStr description);
                                  ("libraries", PyList (map library_to_py libraries))]), w3)
           | Raised e =>
               (Returned (error_result ("Failed to get package info: " +:+ exn_msg e)), w3)
           end
       | (Raised e, w3) =>
           (Returned (error_result ("Failed to get package info: " +:+ exn_msg e)), w3)
       end.
Proof.
  assert (H2 : get_status demo_env "demo" "2.0" initial_world
               = (Returned (PyDict [("files", py_strs demo_files)]), demo_world_status_2))
    by (vm_compute; reflexivity).
  split; [reflexivity|]. split; [exact H2|]. split; [reflexivity|].
  exact (get_package_info_failed_default demo_env "demo" (Some "2.0") initial_world
           initial_world demo_world_status_2 "2.0" [("files", py_strs demo_files)]
           eq_refl H2 eq_refl).
Defined.

(** The overview of a package without build flag and without
    documentation page. *)
Example package_info_without_flag :
  fst (get_package_info demo_env "demo" (Some "2.0") initial_world)
  = Returned (PyDict [("package", PyStr "demo"); ("version", PyStr "2.0");
                      ("failed", PyBool true); ("description", PyStr "");
                      ("libraries", PyList [])]).
Proof. vm_compute. reflexivity. Qed.

(** C10 as stated fails when a later step raises: the status of [demo]
    1.0 lacks the flag, fetching its documentation page fails in the
    transport, and the result is the generic error, which reports no
    [failed] entry. *)
Lemma package_info_error_has_no_flag :
  fst (get_status demo_env "demo" "1.0" demo_world_resolved) = Returned demo_status
  /\ py_get demo_status "failed" PyNone = Returned PyNone
  /\ fst (get_package_info demo_env "demo" None initial_world)
     = Returned (error_result "Failed to get package info: connection reset")
  /\ py_get (error_result "Failed to get package info: connection reset") "failed" PyNone
     = Returned PyNone.
Proof. vm_compute. repeat split. Qed.

(** ** The query surface and unexpected failures *)

(** A [try] whose handler returns always returns. *)
Lemma try_except_returns {A : Type} (body : M A) (handler : exn -> M A) :
  (forall e w, exists r w', handler e w = (Returned r, w')) ->
  forall w, exists r w', try_except body handler w = (Returned r, w').
Proof.
  intros Hhandler w. unfold try_except.
  destruct (body w) as [[a|e] w']; [now exists a, w' | apply Hhandler].
Qed.

(** The four remote operations catch every exception at their boundary
    and return a result. *)
Lemma remote_tools_return (E : externals) (w : world) :
  (forall query, exists r w', sherlodoc E query w = (Returned r, w'))
  /\ (forall query, exists r w', search_package_names E query w = (Returned r, w'))
  /\ (forall package_name version,
         exists r w', get_package_info E package_name version w = (Returned r, w'))
  /\ (forall package_name module_path version,
         exists r w', get_module_doc E package_name module_path version w = (Returned r, w')).
Proof.
  repeat split; intros; apply try_except_returns; intros e w0;
    try (destruct (exn_cls e)); eexists _, _; reflexivity.
Qed.

(** C1 fails on the two local operations, which have no handler: a module
    file that is not JSON makes [get_local_module_doc] raise the decoding
    error, and a docs directory that cannot be listed makes
    [list_local_modules] raise the system error. *)
Theorem local_tools_propagate_failures :
  fst (get_local_module_doc demo_env "Foo" initial_world)
  = Raised (Exn JSONDecodeError "Expecting value: line 1 column 1 (char 0)")
  /\ fst (list_local_modules demo_env_unreadable initial_world)
     = Raised (Exn OSError "[Errno 13] Permission denied: '/docs'").
Proof. vm_compute. split; reflexivity. Qed.

(** Whatever the environment, what reading or decoding the module file
    raises leaves [get_local_module_doc] as it is. *)
Lemma local_module_result_raises (E : externals) (nm module_path candidate txt : string)
      (e : exn) :
  fs_read_text E candidate = Returned txt ->
  json_loads E txt = Raised e ->
  local_module_result E nm module_path candidate = Raised e.
Proof. intros Hread Hjson. unfold local_module_result. now rewrite Hread; cbn; rewrite Hjson. Qed.


(* ===================================================================== *)
(** * Part III: further properties of the code *)
(* ===================================================================== *)

(** ** Kinds and names: nothing of the identifier is lost *)

(** X1: the kind and the name [extract_specs] derives from a container's
    identifier determine the identifier: it is the prefix of the kind
    followed by the name (the empty prefix for kind "other"), and the kind
    is one of the seven kinds. *)
Theorem categorize_round_trip (anchor : string) :
  let (k, n) := categorize anchor in
  anchor = prefix_of_kind k +:+ n
  /\ In k ["val"; "type"; "module type"; "module"; "exception"; "class"; "other"].
Proof.
  unfold categorize.
  destruct (Str.startswith anchor "val-") eqn:Hval.
  { split; [now apply startswith_inv in Hval | simpl; tauto]. }
  destruct (Str.startswith anchor "type-") eqn:Htype.
  { split; [now apply startswith_inv in Htype | simpl; tauto]. }
  destruct (Str.startswith anchor "module-type-") eqn:Hmt.
  { split; [now apply startswith_inv in Hmt | simpl; tauto]. }
  destruct (Str.startswith anchor "module-") eqn:Hm.
  { split; [now apply startswith_inv in Hm | simpl; tauto]. }
  destruct (Str.startswith anchor "exception-") eqn:He.
  { split; [now apply startswith_inv in He | simpl; tauto]. }
  destruct (Str.startswith anchor "class-") eqn:Hc.
  { split; [now apply startswith_inv in Hc | simpl; tauto]. }
  split; [reflexivity | simpl; tauto].
Qed.

(** ** Directory listing parser *)

Lemma rstrip_by_decompose (p : ascii -> bool) (s : string) :
  exists t, s = Str.rstrip_by p s +:+ t
            /\ Forall (fun c => p c = true) (list_ascii_of_string t).
Proof.
  induction s as [|c s IH].
  - exists EmptyString. split; [reflexivity | constructor].
  - destruct IH as (t & Hs & Ht). simpl Str.rstrip_by.
    destruct (Str.rstrip_by p s) as [|a r] eqn:Hr.
    + rewrite str_app_nil_l in Hs. subst t. destruct (p c) eqn:Hc.
      * exists (String c s). split; [reflexivity|]. simpl. now constructor.
      * exists s. split; [reflexivity | exact Ht].
    + exists t. split; [|exact Ht]. rewrite str_app_cons. now f_equal.
Qed.

(** What [rstrip] leaves does not end with a stripped character. *)
Lemma rstrip_by_last (p : ascii -> bool) (s q : string) (c : ascii) :
  Str.rstrip_by p s = q +:+ String c EmptyString -> p c = false.
Proof.
  revert q. induction s as [|a s IH]; intros q H.
  - simpl in H. destruct q; discriminate.
  - simpl in H. destruct (Str.rstrip_by p s) as [|b r] eqn:Hr.
    + destruct (p a) eqn:Ha.
      * destruct q; discriminate.
      * destruct q as [|x q].
        -- rewrite str_app_nil_l in H. now injection H as <-.
        -- rewrite str_app_cons in H. injection H as _ H. destruct q; discriminate.
    + destruct q as [|x q].
      * rewrite str_app_nil_l in H. discriminate.
      * rewrite str_app_cons in H. injection H as _ H. now apply (IH q).
Qed.

Lemma rstrip_by_cons_kept (p : ascii -> bool) (c : ascii) (s : string) :
  p c = false -> Str.rstrip_by p (String c s) = String c (Str.rstrip_by p s).
Proof. intros Hc. simpl. destruct (Str.rstrip_by p s); [now rewrite Hc | reflexivity]. Qed.

Lemma startswith_single (c d : ascii) (s : string) :
  Str.startswith (String d s) (String c EmptyString) = Ascii.eqb c d.
Proof. cbn [Str.startswith]. apply andb_true_r. Qed.

Lemma directory_names_cons (a : located) (rest : list located) :
  directory_names (a :: rest) =
  if Str.startswith (href_of a) "?" || Str.startswith (href_of a) "/"
     || String.eqb (href_of a) "../"
  then directory_names rest
  else if Str.endswith (href_of a) "/"
       then Str.rstrip_by is_slash (href_of a) :: directory_names rest
       else directory_names rest.
Proof. reflexivity. Qed.

(** The names the loop keeps, each with the anchor it comes from. *)
Lemma directory_names_elem (anchors : list located) (n : string) :
  n ∈ directory_names anchors ->
  exists a, a ∈ anchors
            /\ Str.startswith (href_of a) "?" = false
            /\ Str.startswith (href_of a) "/" = false
            /\ Str.endswith (href_of a) "/" = true
            /\ n = Str.rstrip_by is_slash (href_of a).
Proof.
  induction anchors as [|a rest IH]; intros Hn.
  - now apply elem_of_nil in Hn.
  - assert (Hrest : n ∈ directory_names rest ->
                    exists b, b ∈ a :: rest
                      /\ Str.startswith (href_of b) "?" = false
                      /\ Str.startswith (href_of b) "/" = false
                      /\ Str.endswith (href_of b) "/" = true
                      /\ n = Str.rstrip_by is_slash (href_of b)).
    { intros H. destruct (IH H) as (b & Hb & Hrest). exists b.
      split; [apply elem_of_cons; now right | exact Hrest]. }
    rewrite directory_names_cons in Hn.
    destruct (Str.startswith (href_of a) "?") eqn:Hq; [now apply Hrest|].
    destruct (Str.startswith (href_of a) "/") eqn:Hs; [now apply Hrest|].
    destruct (String.eqb (href_of a) "../") eqn:Hp; [now apply Hrest|].
    cbn [orb] in Hn.
    destruct (Str.endswith (href_of a) "/") eqn:He; [|now apply Hrest].
    apply elem_of_cons in Hn as [-> | Hn]; [|now apply Hrest].
    exists a. split; [apply elem_of_cons; now left | auto].
Qed.

(** X2: every name [parse_directory_listing] returns is the [href] of an
    anchor of the page with its trailing slashes (at least one) removed;
    it is not empty, does not end with a slash, and starts with neither a
    question mark nor a slash. *)
Theorem parse_directory_listing_names (E : externals) (html : string) (names : list string) :
  parse_directory_listing E html = Returned names ->
  exists soup,
    BeautifulSoup E (PyStr html) = Returned soup
    /\ forall n, n ∈ names ->
         n <> EmptyString
         /\ Str.endswith n "/" = false
         /\ Str.startswith n "?" = false
         /\ Str.startswith n "/" = false
         /\ exists a slashes,
              a ∈ find_all "a" soup
              /\ href_of a = n +:+ slashes
              /\ slashes <> EmptyString
              /\ only_slashes slashes.
Proof.
  unfold parse_directory_listing. intros H.
  destruct (BeautifulSoup E (PyStr html)) as [soup|e]; [|discriminate].
  cbn [obind] in H. injection H as <-. exists soup. split; [reflexivity|].
  intros n Hn. apply directory_names_elem in Hn as (a & Ha & Hq & Hs & He & ->).
  destruct (href_of a) as [|c h] eqn:Hhref; [discriminate|].
  assert (Hc : is_slash c = false).
  { unfold is_slash. rewrite Ascii.eqb_sym. now rewrite startswith_single in Hs. }
  rewrite (rstrip_by_cons_kept _ _ _ Hc).
  destruct (rstrip_by_decompose is_slash h) as (t & Hh & Ht).
  split; [discriminate|]. split; [|split; [|split]].
  - destruct (Str.endswith (String c (Str.rstrip_by is_slash h)) "/") eqn:Hend; [|reflexivity].
    apply endswith_spec in Hend as [q Hq'].
    rewrite <- (rstrip_by_cons_kept _ _ _ Hc) in Hq'.
    now apply rstrip_by_last in Hq'.
  - now rewrite startswith_single in Hq |- *.
  - now rewrite startswith_single in Hs |- *.
  - exists a, t. split; [exact Ha|]. split; [|split; [|exact Ht]].
    + rewrite Hhref, str_app_cons. now f_equal.
    + intros ->. rewrite str_app_nil_r in Hh.
      apply endswith_spec in He as [q Hq'].
      rewrite Hh, <- (rstrip_by_cons_kept _ _ _ Hc) in Hq'.
      now apply rstrip_by_last in Hq'.
Qed.

Lemma parse_directory_listing_names_witness :
  parse_directory_listing demo_env "versions" = Returned ["1.0"]
  /\ exists soup,
       BeautifulSoup demo_env (PyStr "versions") = Returned soup
       /\ forall n, n ∈ ["1.0"] ->
            n <> EmptyString
            /\ Str.endswith n "/" = false
            /\ Str.startswith n "?" = false
            /\ Str.startswith n "/" = false
            /\ exists a slashes,
                 a ∈ find_all "a" soup
                 /\ href_of a = n +:+ slashes
                 /\ slashes <> EmptyString
                 /\ only_slashes slashes.
Proof.
  split; [reflexivity|].
  apply (parse_directory_listing_names demo_env "versions" ["1.0"]). reflexivity.
Defined.

(** ** Preamble text *)

Lemma lstrip_by_head (p : ascii -> bool) (s t : string) (c : ascii) :
  Str.lstrip_by p s = String c t -> p c = false.
Proof.
  induction s as [|a s IH]; simpl; [discriminate|].
  destruct (p a) eqn:Ha; [exact IH|]. intros H. now injection H as <- _.
Qed.

Lemma strip_stripped (s : string) : stripped (Str.strip s).
Proof.
  unfold Str.strip. split.
  - intros c t H. destruct (Str.lstrip_by Str.isspace s) as [|a l] eqn:Hl; [discriminate|].
    pose proof (lstrip_by_head _ _ _ _ Hl) as Ha.
    rewrite (rstrip_by_cons_kept _ _ _ Ha) in H. now injection H as <- _.
  - intros q c H. now apply rstrip_by_last in H.
Qed.

(** X3: [extract_preamble_text] returns text that neither starts nor ends
    with white space, and it can only raise on a truthy fragment: a falsy
    one (empty string, [None]) gives the empty string without being
    parsed. *)
Theorem extract_preamble_text_stripped (E : externals) (html : pyval) :
  match extract_preamble_text E html with
  | Returned text => stripped text
  | Raised e => truthy html = true /\ BeautifulSoup E html = Raised e
  end.
Proof.
  unfold extract_preamble_text. destruct (truthy html); cbn [negb].
  - destruct (BeautifulSoup E html) as [soup|e]; cbn [obind].
    + apply strip_stripped.
    + now split.
  - split; intros ? ? H; [discriminate | destruct q; discriminate].
Qed.

(** ** Libraries of a package page: nothing lost, nothing invented *)

Lemma flush_absorb_modules (libraries : list library) (current_lib : option library)
      (modules : list module_entry) :
  flat_map lib_modules (flush libraries (absorb current_lib modules))
  = flat_map lib_modules (flush libraries current_lib) ++ modules.
Proof.
  destruct modules as [|m modules]; [now rewrite app_nil_r|].
  destruct current_lib as [lib|]; simpl; rewrite !flat_map_app; simpl;
    now rewrite ?app_nil_r, ?app_assoc.
Qed.

Lemma absorb_some_name (lib : library) (modules : list module_entry) :
  exists lib', absorb (Some lib) modules = Some lib' /\ lib_name lib' = lib_name lib.
Proof. destruct modules; simpl; eauto. Qed.

Lemma h2_not_list_element (n : node) : tag_named "h2" n = true -> is_list_element n = false.
Proof.
  destruct n as [s | s | nm cls ats ch]; simpl; try discriminate.
  intros H. apply String.eqb_eq in H. now subst nm.
Qed.

(** One iteration of the outer loop, in terms of [flush] and [absorb]. *)
Lemma libraries_loop_cons (element : node) (rest : list node) (libraries : list library)
      (current_lib : option library) :
  libraries_loop (element :: rest) libraries current_lib
  = if tag_named "h2" element
    then libraries_loop rest (flush libraries current_lib)
                        (Some (Library (get_text_strip element) []))
    else libraries_loop rest libraries
                        (absorb current_lib (map entry_of_item (linked_list_items [element]))).
Proof.
  unfold linked_list_items. simpl flat_map. rewrite app_nil_r.
  destruct element as [s | s | nm cls ats ch]; try reflexivity.
  simpl libraries_loop. simpl tag_named. unfold is_list_element. simpl tag_named.
  destruct (String.eqb nm "h2") eqn:Hh2.
  - apply String.eqb_eq in Hh2. subst nm. reflexivity.
  - f_equal. destruct (String.eqb nm "ul" || String.eqb nm "dl"); [|reflexivity].
    rewrite linked_items_filter. unfold absorb.
    destruct (map entry_of_item (filter _ _)); reflexivity.
Qed.

Lemma linked_list_items_cons (element : node) (rest : list node) :
  linked_list_items (element :: rest) = linked_list_items [element] ++ linked_list_items rest.
Proof. unfold linked_list_items. simpl. now rewrite app_nil_r. Qed.

Lemma libraries_loop_modules (children : list node) (libraries : list library)
      (current_lib : option library) :
  flat_map lib_modules
           (flush (fst (libraries_loop children libraries current_lib))
                  (snd (libraries_loop children libraries current_lib)))
  = flat_map lib_modules (flush libraries current_lib)
    ++ map entry_of_item (linked_list_items children).
Proof.
  revert libraries current_lib.
  induction children as [|element rest IH]; intros libraries current_lib.
  - simpl. now rewrite app_nil_r.
  - rewrite (linked_list_items_cons element rest), map_app, libraries_loop_cons.
    destruct (tag_named "h2" element) eqn:Hh2.
    + assert (Hnone : linked_list_items [element] = []).
      { unfold linked_list_items. simpl. now rewrite (h2_not_list_element _ Hh2). }
      rewrite IH, Hnone. simpl flush. rewrite flat_map_app. simpl.
      now rewrite app_nil_r.
    + rewrite IH, flush_absorb_modules. now rewrite <- app_assoc.
Qed.

Lemma libraries_loop_names (children : list node) (libraries : list library)
      (current_lib : option library) :
  map lib_name
      (flush (fst (libraries_loop children libraries current_lib))
             (snd (libraries_loop children libraries current_lib)))
  = map lib_name
        (flush libraries
               (absorb current_lib
                       (map entry_of_item (linked_list_items (before_first_heading children)))))
    ++ heading_texts children.
Proof.
  revert libraries current_lib.
  induction children as [|element rest IH]; intros libraries current_lib.
  - simpl. now rewrite app_nil_r.
  - rewrite libraries_loop_cons. simpl before_first_heading. simpl heading_texts.
    destruct (tag_named "h2" element) eqn:Hh2.
    + rewrite IH.
      destruct (absorb_some_name (Library (get_text_strip element) [])
                  (map entry_of_item (linked_list_items (before_first_heading rest))))
        as (lib' & -> & Hname).
      simpl flush. rewrite map_app. simpl. rewrite Hname. simpl.
      now rewrite <- app_assoc.
    + rewrite IH, absorb_app, <- map_app, <- linked_list_items_cons. reflexivity.
Qed.

(** X4: the libraries [extract_package_libraries] returns partition the
    linked list items of the page: their modules, taken in order, are
    exactly the linked items of the top-level [ul]/[dl] elements in
    document order; their names are the texts of the top-level level-2
    headings in order, preceded by "default" exactly when a linked item
    stands before the first heading.  A heading without modules still
    yields a library. *)
Theorem extract_package_libraries_partition (E : externals) (html : pyval) (soup : list node) :
  document E html = Returned soup ->
  exists libraries,
    extract_package_libraries E html = Returned libraries
    /\ flat_map lib_modules libraries = map entry_of_item (linked_list_items soup)
    /\ map lib_name libraries
       = match linked_list_items (before_first_heading soup) with
         | [] => []
         | _ :: _ => ["default"]
         end ++ heading_texts soup.
Proof.
  unfold document, extract_package_libraries. intros Hdoc.
  destruct (negb (truthy html)).
  - injection Hdoc as <-. exists []. repeat split.
  - rewrite Hdoc. cbn [obind].
    pose proof (libraries_loop_modules soup [] None) as Hm.
    pose proof (libraries_loop_names soup [] None) as Hn.
    destruct (libraries_loop soup [] None) as [libraries current_lib].
    cbn [fst snd] in Hm, Hn.
    exists (flush libraries current_lib). split; [reflexivity|].
    split; [exact Hm|]. rewrite Hn. f_equal.
    destruct (linked_list_items (before_first_heading soup)); reflexivity.
Qed.

Lemma extract_package_libraries_partition_witness :
  document demo_env (PyStr "flat list") = Returned demo_flat_list
  /\ exists libraries,
       extract_package_libraries demo_env (PyStr "flat list") = Returned libraries
       /\ flat_map lib_modules libraries = map entry_of_item (linked_list_items demo_flat_list)
       /\ map lib_name libraries
          = match linked_list_items (before_first_heading demo_flat_list) with
            | [] => []
            | _ :: _ => ["default"]
            end ++ heading_texts demo_flat_list.
Proof.
  split; [reflexivity|].
  apply (extract_package_libraries_partition demo_env (PyStr "flat list") demo_flat_list).
  reflexivity.
Defined.

(** ** What the operations do to the world *)

Section Effects.
Variable R : nat -> world -> world -> Prop.
Hypothesis R_refl : forall w, R 0 w w.
Hypothesis R_trans : forall a b w1 w2 w3, R a w1 w2 -> R b w2 w3 -> R (a + b) w1 w3.
Hypothesis R_mono : forall a b w w', (a <= b)%nat -> R a w w' -> R b w w'.
Hypothesis R_time : forall E w, R 0 w (snd (time_time E w)).
Hypothesis R_get : forall E url w, R 1 w (snd (session_get E url w)).
Hypothesis R_store : forall key entry w,
  is_none (fst entry) = false -> R 0 w (snd (cache_store key entry w)).

Lemma within_ret {A : Type} (n : nat) (a : A) : within R n (mret a).
Proof. intros w. apply (R_mono 0); [lia | apply R_refl]. Qed.

Lemma within_raise {A : Type} (n : nat) (e : exn) : within R n (@raise A e).
Proof. intros w. apply (R_mono 0); [lia | apply R_refl]. Qed.

Lemma within_lift {A : Type} (n : nat) (o : outcome A) : within R n (lift o).
Proof. intros w. apply (R_mono 0); [lia | apply R_refl]. Qed.

Lemma within_bind {A B : Type} (a n : nat) (m : M A) (k : A -> M B) :
  (a <= n)%nat -> within R a m -> (forall x, within R (n - a) (k x)) ->
  within R n (m ≫= k).
Proof.
  intros Hle Hm Hk w. unfold mbind, M_bind. specialize (Hm w).
  destruct (m w) as [[x|e] w']; cbn [snd] in Hm.
  - apply (R_mono (a + (n - a))); [lia|]. eapply R_trans; [exact Hm | apply Hk].
  - apply (R_mono a); [lia | exact Hm].
Qed.

Lemma within_try {A : Type} (a n : nat) (body : M A) (handler : exn -> M A) :
  (a <= n)%nat -> within R a body -> (forall e, within R (n - a) (handler e)) ->
  within R n (try_except body handler).
Proof.
  intros Hle Hm Hk w. unfold try_except. specialize (Hm w).
  destruct (body w) as [[x|e] w']; cbn [snd] in Hm.
  - apply (R_mono a); [lia | exact Hm].
  - apply (R_mono (a + (n - a))); [lia|]. eapply R_trans; [exact Hm | apply Hk].
Qed.

Lemma within_cache_get (E : externals) (key : string) (n : nat) :
  within R n (cache_get E key).
Proof.
  unfold cache_get. apply (within_bind 0); [lia | intros w; apply R_refl |].
  intros [entry|]; [|apply within_ret].
  apply (within_bind 0); [lia | intros w; apply R_time |].
  intros t. destruct (PrimFloat.ltb _ _); apply within_ret.
Qed.

Lemma within_cache_set (E : externals) (key : string) (value : pyval) (ttl : float) (n : nat) :
  is_none value = false -> within R n (cache_set E key value ttl).
Proof.
  intros Hv. unfold cache_set. apply (within_bind 0); [lia | intros w; apply R_time |].
  intros t w. apply (R_mono 0); [lia|]. now apply R_store.
Qed.

Lemma within_fetch_text (E : externals) (url : string) (n : nat) :
  (1 <= n)%nat -> within R n (fetch_text E url).
Proof.
  intros Hn. unfold fetch_text. apply (within_bind 1); [lia | intros w; apply R_get |].
  intros [msg|status body]; [apply within_raise|].
  destruct (negb _); [apply within_ret|].
  apply (within_bind 0); [lia | apply within_lift | intros; apply within_ret].
Qed.

Lemma within_fetch_json (E : externals) (url : string) (n : nat) :
  (1 <= n)%nat -> within R n (fetch_json E url).
Proof.
  intros Hn. unfold fetch_json. apply (within_bind 1); [lia | intros w; apply R_get |].
  intros [msg|status body]; [apply within_raise|].
  destruct (negb _); [apply within_ret|].
  apply (within_bind 0); [lia | apply within_lift | intros; apply within_lift].
Qed.

Lemma within_get_all_packages (E : externals) (n : nat) :
  (1 <= n)%nat -> within R n (get_all_packages E).
Proof.
  intros Hn. unfold get_all_packages.
  apply (within_bind 0); [lia | apply within_cache_get |].
  intros cached. destruct (negb _); [apply within_ret|].
  apply (within_bind 1); [lia | now apply within_fetch_text |].
  intros [html|]; [|apply within_ret].
  apply (within_bind 0); [lia | apply within_lift |]. intros packages.
  apply (within_bind 0); [lia | now apply within_cache_set | intros; apply within_ret].
Qed.

Lemma within_resolve_version (E : externals) (package : string) (version : option string)
      (n : nat) :
  (1 <= n)%nat -> within R n (resolve_version E package version).
Proof.
  intros Hn. unfold resolve_version. destruct (version_given version); [apply within_ret|].
  apply (within_bind 0); [lia | apply within_cache_get |]. intros versions.
  apply (within_bind 1); [lia | |].
  - destruct (is_none versions); [|apply within_ret].
    apply (within_bind 1); [lia | now apply within_fetch_text |].
    intros [html|]; [|apply within_ret].
    apply (within_bind 0); [lia | apply within_lift |]. intros vs.
    apply (within_bind 0); [lia | now apply within_cache_set | intros; apply within_ret].
  - intros [vs|]; [|apply within_ret].
    destruct (negb _); [apply within_ret | apply within_lift].
Qed.

Lemma within_get_status (E : externals) (package version : string) (n : nat) :
  (1 <= n)%nat -> within R n (get_status E package version).
Proof.
  intros Hn. unfold get_status.
  apply (within_bind 0); [lia | apply within_cache_get |].
  intros cached. destruct (negb _); [apply within_ret|].
  apply (within_bind 1); [lia | now apply within_fetch_json |]. intros data.
  apply (within_bind 0); [lia | | intros; apply within_ret].
  destruct (is_none data) eqn:Hd; cbn [negb]; [apply within_ret | now apply within_cache_set].
Qed.

Lemma within_get_doc_json (E : externals) (package version path : string) (n : nat) :
  (1 <= n)%nat -> within R n (get_doc_json E package version path).
Proof.
  intros Hn. unfold get_doc_json.
  apply (within_bind 0); [lia | apply within_cache_get |].
  intros cached. destruct (negb _); [apply within_ret|].
  apply (within_bind 1); [lia | now apply within_fetch_json |]. intros data.
  apply (within_bind 0); [lia | | intros; apply within_ret].
  destruct (is_none data) eqn:Hd; cbn [negb]; [apply within_ret | now apply within_cache_set].
Qed.

Lemma within_sherlodoc (E : externals) (query : string) : within R 1 (sherlodoc E query).
Proof.
  unfold sherlodoc. apply (within_try 1); [lia | |].
  - apply (within_bind 1); [lia | intros w; apply R_get |].
    intros [msg|status body]; [apply within_raise|].
    destruct (negb _); [apply within_ret|].
    apply (within_bind 0); [lia | apply within_lift |]. intros html.
    apply (within_bind 0); [lia | apply within_lift | intros; apply within_ret].
  - intros e. destruct (exn_cls e); apply within_ret.
Qed.

Lemma within_search_package_names (E : externals) (query : string) :
  within R 1 (search_package_names E query).
Proof.
  unfold search_package_names. apply (within_try 1); [lia | | intros; apply within_ret].
  apply (within_bind 1); [lia | now apply within_get_all_packages |]. intros packages.
  apply (within_bind 0); [lia | apply within_lift |]. intros ps.
  apply (within_bind 0); [lia | apply within_lift | intros; apply within_ret].
Qed.

Lemma within_get_package_info (E : externals) (package_name : string)
      (version : option string) :
  within R 3 (get_package_info E package_name version).
Proof.
  unfold get_package_info. apply (within_try 3); [lia | | intros; apply within_ret].
  apply (within_bind 1); [lia | now apply within_resolve_version |].
  intros [ver|]; [|apply within_ret].
  apply (within_bind 1); [simpl; lia | now apply within_get_status |]. intros status.
  destruct (is_none status); [apply within_ret|].
  apply (within_bind 0); [lia | apply within_lift |]. intros failed.
  apply (within_bind 1); [simpl; lia | now apply within_get_doc_json |]. intros doc.
  apply (within_bind 0); [lia | | intros [description libraries]; apply within_ret].
  destruct (truthy doc); [|apply within_ret].
  apply (within_bind 0); [lia | apply within_lift |]. intros preamble.
  apply (within_bind 0); [lia | apply within_lift |]. intros content.
  apply (within_bind 0); [lia | apply within_lift |]. intros description.
  apply (within_bind 0); [lia | |].
  { destruct (String.eqb _ _); [apply within_lift | apply within_ret]. }
  intros description'.
  apply (within_bind 0); [lia | apply within_lift | intros; apply within_ret].
Qed.

Lemma within_get_module_doc (E : externals) (package_name module_path : string)
      (version : option string) :
  within R 3 (get_module_doc E package_name module_path version).
Proof.
  unfold get_module_doc. apply (within_try 3); [lia | | intros; apply within_ret].
  apply (within_bind 1); [lia | now apply within_resolve_version |].
  intros [ver|]; [|apply within_ret].
  apply (within_bind 1); [simpl; lia | now apply within_get_status |]. intros status.
  destruct (is_none status); [apply within_ret|].
  apply (within_bind 0); [lia | apply within_lift |]. intros files.
  apply (within_bind 0); [lia | apply within_lift |]. intros [matched_file|].
  - apply (within_bind 1); [simpl; lia | now apply within_get_doc_json |]. intros doc.
    destruct (is_none doc); [apply within_ret|].
    apply (within_bind 0); [lia | apply within_lift |]. intros pre.
    apply (within_bind 0); [lia | apply within_lift |]. intros preamble.
    apply (within_bind 0); [lia | apply within_lift |]. intros content_html.
    apply (within_bind 0); [lia | apply within_lift |]. intros [specs truncated].
    apply within_ret.
  - apply (within_bind 0); [lia | apply within_lift | intros; apply within_ret].
Qed.

Lemma within_list_local_modules (E : externals) : within R 0 (list_local_modules E).
Proof.
  unfold list_local_modules. destruct (local_docs_root E) as [root|]; [|apply within_ret].
  apply (within_bind 0); [lia | apply within_cache_get |].
  intros cached. destruct (negb (is_none cached)); [apply within_ret|].
  destruct (negb (fs_is_dir E root)); [apply within_ret|].
  apply (within_bind 0); [lia | apply within_lift |]. intros modules.
  apply (within_bind 0); [lia | now apply within_cache_set | intros; apply within_ret].
Qed.

Lemma within_get_local_module_doc (E : externals) (module_path : string) :
  within R 0 (get_local_module_doc E module_path).
Proof.
  unfold get_local_module_doc. destruct (local_docs_root E) as [root|]; [|apply within_ret].
  destruct (negb (fs_is_dir E root)); [apply within_ret|].
  apply (within_bind 0); [lia | apply within_lift | intros; apply within_lift].
Qed.

End Effects.

Lemma requests_extended_refl (w : world) : requests_extended 0 w w.
Proof. exists []. split; [now rewrite app_nil_r | simpl; lia]. Qed.

Lemma requests_extended_trans (a b : nat) (w1 w2 w3 : world) :
  requests_extended a w1 w2 -> requests_extended b w2 w3 -> requests_extended (a + b) w1 w3.
Proof.
  intros (n1 & H1 & L1) (n2 & H2 & L2). exists (n1 ++ n2). split.
  - now rewrite H2, H1, app_assoc.
  - rewrite length_app. lia.
Qed.

Lemma requests_extended_mono (a b : nat) (w w' : world) :
  (a <= b)%nat -> requests_extended a w w' -> requests_extended b w w'.
Proof. intros Hab (n1 & H1 & L1). exists n1. split; [exact H1 | lia]. Qed.

(** X5: no operation removes or rewrites a request already logged, and
    each stays within a fixed budget of new requests: one for [sherlodoc]
    and [search_package_names], three for [get_package_info] and
    [get_module_doc] (versions, status, documentation page), none for the
    two local operations. *)
Theorem tools_request_budget (E : externals) :
  (forall query, sends_at_most 1 (sherlodoc E query))
  /\ (forall query, sends_at_most 1 (search_package_names E query))
  /\ (forall package_name version, sends_at_most 3 (get_package_info E package_name version))
  /\ (forall package_name module_path version,
         sends_at_most 3 (get_module_doc E package_name module_path version))
  /\ sends_at_most 0 (list_local_modules E)
  /\ (forall module_path, sends_at_most 0 (get_local_module_doc E module_path)).
Proof.
  assert (Htime : forall E w, requests_extended 0 w (snd (time_time E w)))
    by (intros ? w; exists []; split; [simpl; now rewrite app_nil_r | simpl; lia]).
  assert (Hget : forall E url w, requests_extended 1 w (snd (session_get E url w)))
    by (intros ? url w; exists [url]; split; [reflexivity | simpl; lia]).
  assert (Hstore : forall key entry w, is_none (fst entry) = false ->
                     requests_extended 0 w (snd (cache_store key entry w)))
    by (intros ? ? w _; exists []; split; [simpl; now rewrite app_nil_r | simpl; lia]).
  pose proof requests_extended_refl as Hrefl.
  pose proof requests_extended_trans as Htrans.
  pose proof requests_extended_mono as Hmono.
  unfold sends_at_most. repeat split; intros.
  - exact (within_sherlodoc _ Hrefl Htrans Hmono Hget E query).
  - exact (within_search_package_names _ Hrefl Htrans Hmono Htime Hget Hstore E query).
  - exact (within_get_package_info _ Hrefl Htrans Hmono Htime Hget Hstore
             E package_name version).
  - exact (within_get_module_doc _ Hrefl Htrans Hmono Htime Hget Hstore
             E package_name module_path version).
  - exact (within_list_local_modules _ Hrefl Htrans Hmono Htime Hstore E).
  - exact (within_get_local_module_doc _ Hrefl Htrans Hmono E module_path).
Qed.

Lemma cache_store_eq (key : string) (entry : pyval * float) (w : world) :
  cache (snd (cache_store key entry w)) = <[key := entry]> (cache w).
Proof. reflexivity. Qed.

Lemma keys_kept_store (key : string) (entry : pyval * float) (w : world) :
  keys_kept 0 w (snd (cache_store key entry w)).
Proof.
  intros k Hk. rewrite cache_store_eq. destruct (decide (key = k)) as [->|Hne].
  - rewrite lookup_insert_eq. eauto.
  - now rewrite lookup_insert_ne.
Qed.

(** X6: the cache only grows.  No operation deletes an entry, not even an
    expired one: every key cached before a call is still cached after
    it. *)
Theorem cache_never_evicts (E : externals) (w : world) (k : string) :
  is_Some (cache w !! k) ->
  (forall key, is_Some (cache (snd (cache_get E key w)) !! k))
  /\ (forall query, is_Some (cache (snd (sherlodoc E query w)) !! k))
  /\ (forall query, is_Some (cache (snd (search_package_names E query w)) !! k))
  /\ (forall package_name version,
         is_Some (cache (snd (get_package_info E package_name version w)) !! k))
  /\ (forall package_name module_path version,
         is_Some (cache (snd (get_module_doc E package_name module_path version w)) !! k))
  /\ is_Some (cache (snd (list_local_modules E w)) !! k)
  /\ (forall module_path, is_Some (cache (snd (get_local_module_doc E module_path w)) !! k)).
Proof.
  intros Hk.
  assert (Hrefl : forall w, keys_kept 0 w w) by (intros ? ? H; exact H).
  assert (Htrans : forall a b w1 w2 w3, keys_kept a w1 w2 -> keys_kept b w2 w3 ->
                     keys_kept (a + b) w1 w3) by (intros ? ? ? ? ? H1 H2 ? H; apply H2, H1, H).
  assert (Hmono : forall a b w w', (a <= b)%nat -> keys_kept a w w' -> keys_kept b w w')
    by (intros ? ? ? ? _ H; exact H).
  assert (Htime : forall E w, keys_kept 0 w (snd (time_time E w))) by (intros ? ? ? H; exact H).
  assert (Hget : forall E url w, keys_kept 1 w (snd (session_get E url w)))
    by (intros ? ? ? ? H; exact H).
  assert (Hstore : forall key entry w, is_none (fst entry) = false ->
                     keys_kept 0 w (snd (cache_store key entry w)))
    by (intros; apply keys_kept_store).
  repeat split; intros.
  - now apply (within_cache_get keys_kept Hrefl Htrans Hmono Htime E key 0 w).
  - now apply (within_sherlodoc keys_kept Hrefl Htrans Hmono Hget E query w).
  - now apply (within_search_package_names keys_kept Hrefl Htrans Hmono Htime Hget Hstore
                 E query w).
  - now apply (within_get_package_info keys_kept Hrefl Htrans Hmono Htime Hget Hstore
                 E package_name version w).
  - now apply (within_get_module_doc keys_kept Hrefl Htrans Hmono Htime Hget Hstore
                 E package_name module_path version w).
  - now apply (within_list_local_modules keys_kept Hrefl Htrans Hmono Htime Hstore E w).
  - now apply (within_get_local_module_doc keys_kept Hrefl Htrans Hmono E module_path w).
Qed.

Lemma cache_never_evicts_witness :
  is_Some (cache demo_world_status_2 !! "status:demo/2.0")
  /\ (forall key, is_Some (cache (snd (cache_get demo_env key demo_world_status_2))
                         !! "status:demo/2.0"))
  /\ (forall query, is_Some (cache (snd (sherlodoc demo_env query demo_world_status_2))
                           !! "status:demo/2.0"))
  /\ (forall query, is_Some (cache (snd (search_package_names demo_env query
                                           demo_world_status_2)) !! "status:demo/2.0"))
  /\ (forall package_name version,
         is_Some (cache (snd (get_package_info demo_env package_name version
                                demo_world_status_2)) !! "status:demo/2.0"))
  /\ (forall package_name module_path version,
         is_Some (cache (snd (get_module_doc demo_env package_name module_path version
                                demo_world_status_2)) !! "status:demo/2.0"))
  /\ is_Some (cache (snd (list_local_modules demo_env demo_world_status_2))
              !! "status:demo/2.0")
  /\ (forall module_path,
         is_Some (cache (snd (get_local_module_doc demo_env module_path
                                demo_world_status_2)) !! "status:demo/2.0")).
Proof.
  assert (H : is_Some (cache demo_world_status_2 !! "status:demo/2.0"))
    by (vm_compute; eauto).
  split; [exact H|].
  exact (cache_never_evicts demo_env demo_world_status_2 "status:demo/2.0" H).
Defined.

Lemma none_free_store (key : string) (entry : pyval * float) (w : world) :
  is_none (fst entry) = false -> none_free_kept 0 w (snd (cache_store key entry w)).
Proof.
  intros Hentry Hw k e. rewrite cache_store_eq. destruct (decide (key = k)) as [->|Hne].
  - rewrite lookup_insert_eq. intros H. now injection H as <-.
  - rewrite lookup_insert_ne by assumption. apply Hw.
Qed.

(** X7: [None] is what [cache_get] answers on a miss, and the cache never
    holds it: when no entry of the cache holds [None] before a call of an
    operation, none does after it. *)
Theorem cache_never_holds_none (E : externals) (w : world) :
  cache_values_not_none w ->
  (forall query, cache_values_not_none (snd (search_package_names E query w)))
  /\ (forall package_name version,
         cache_values_not_none (snd (get_package_info E package_name version w)))
  /\ (forall package_name module_path version,
         cache_values_not_none (snd (get_module_doc E package_name module_path version w)))
  /\ cache_values_not_none (snd (list_local_modules E w)).
Proof.
  intros Hw.
  assert (Hrefl : forall w, none_free_kept 0 w w) by (intros ? H; exact H).
  assert (Htrans : forall a b w1 w2 w3, none_free_kept a w1 w2 -> none_free_kept b w2 w3 ->
                     none_free_kept (a + b) w1 w3) by (intros ? ? ? ? ? H1 H2 H; apply H2, H1, H).
  assert (Hmono : forall a b w w', (a <= b)%nat -> none_free_kept a w w' ->
                    none_free_kept b w w') by (intros ? ? ? ? _ H; exact H).
  assert (Htime : forall E w, none_free_kept 0 w (snd (time_time E w)))
    by (intros ? ? H; exact H).
  assert (Hget : forall E url w, none_free_kept 1 w (snd (session_get E url w)))
    by (intros ? ? ? H; exact H).
  pose proof none_free_store as Hstore.
  repeat split; intros.
  - now apply (within_search_package_names none_free_kept Hrefl Htrans Hmono Htime Hget Hstore
                 E query w).
  - now apply (within_get_package_info none_free_kept Hrefl Htrans Hmono Htime Hget Hstore
                 E package_name version w).
  - now apply (within_get_module_doc none_free_kept Hrefl Htrans Hmono Htime Hget Hstore
                 E package_name module_path version w).
  - now apply (within_list_local_modules none_free_kept Hrefl Htrans Hmono Htime Hstore E w).
Qed.

Lemma cache_never_holds_none_witness :
  cache_values_not_none initial_world
  /\ (forall query, cache_values_not_none (snd (search_package_names demo_env query
                                                  initial_world)))
  /\ (forall package_name version,
         cache_values_not_none (snd (get_package_info demo_env package_name version
                                       initial_world)))
  /\ (forall package_name module_path version,
         cache_values_not_none (snd (get_module_doc demo_env package_name module_path version
                                       initial_world)))
  /\ cache_values_not_none (snd (list_local_modules demo_env initial_world)).
Proof.
  assert (H : cache_values_not_none initial_world)
    by (intros k e Hk; simpl in Hk; rewrite lookup_empty in Hk; discriminate).
  split; [exact H|].
  exact (cache_never_holds_none demo_env initial_world H).
Defined.

(** ** Cached fetches *)

Lemma fetch_text_eq (E : externals) (url : string) (w : world) :
  fetch_text E url w
  = (match http E (length (requests w)) url with
     | TransportFailure e => Raised e
     | Response status body =>
         if (status =? 200)%Z then obind body (fun txt => Returned (Some txt))
         else Returned None
     end,
     World (cache w) (time_reads w) (requests w ++ [url])).
Proof.
  unfold fetch_text, session_get, mbind, M_bind. simpl.
  destruct (http E (length (requests w)) url) as [msg | status body]; [reflexivity|].
  destruct (status =? 200)%Z; simpl; [|reflexivity].
  unfold lift, obind. now destruct body.
Qed.

Lemma fetch_json_eq (E : externals) (url : string) (w : world) :
  fetch_json E url w
  = (match http E (length (requests w)) url with
     | TransportFailure e => Raised e
     | Response status body =>
         if (status =? 200)%Z then obind body (json_loads E) else Returned PyNone
     end,
     World (cache w) (time_reads w) (requests w ++ [url])).
Proof.
  unfold fetch_json, session_get, mbind, M_bind. simpl.
  destruct (http E (length (requests w)) url) as [msg | status body]; [reflexivity|].
  destruct (status =? 200)%Z; simpl; [|reflexivity].
  unfold lift, obind. now destruct body.
Qed.

Lemma get_status_cached_json (E : externals) (package version : string) :
  get_status E package version
  = cached_json E ("status:" +:+ package +:+ "/" +:+ version)
                (SAGE_BASE +:+ "/" +:+ package +:+ "/" +:+ version +:+ "/status.json") 1800.
Proof. reflexivity. Qed.

Lemma get_doc_json_cached_json (E : externals) (package version path : string) :
  get_doc_json E package version path
  = cached_json E ("doc:" +:+ package +:+ "/" +:+ version +:+ "/" +:+ path)
                (SAGE_BASE +:+ "/" +:+ package +:+ "/" +:+ version +:+ "/" +:+ path) 600.
Proof. reflexivity. Qed.

(** What a miss of [cache_get] leaves of the world: the cache and the
    requests. *)
Lemma cache_get_world (E : externals) (key : string) (w : world) :
  cache (snd (cache_get E key w)) = cache w
  /\ requests (snd (cache_get E key w)) = requests w.
Proof. rewrite cache_get_eq. now destruct (cache w !! key). Qed.

Lemma is_none_true (v : pyval) : is_none v = true -> v = PyNone.
Proof. now destruct v. Qed.

Lemma cached_json_hit (E : externals) (key url : string) (ttl expiry : float) (data : pyval)
      (w : world) :
  cache w !! key = Some (data, expiry) ->
  is_none data = false ->
  PrimFloat.ltb (clock E (time_reads w)) expiry = true ->
  cached_json E key url ttl w
  = (Returned data, World (cache w) (S (time_reads w)) (requests w)).
Proof.
  intros Hkey Hdata Hfresh. unfold cached_json, mbind, M_bind.
  rewrite cache_get_eq, Hkey. cbn [fst snd]. rewrite Hfresh, Hdata. reflexivity.
Qed.

Lemma cached_json_fetch (E : externals) (key url txt : string) (ttl : float) (data : pyval)
      (w : world) :
  fst (cache_get E key w) = Returned PyNone ->
  http E (length (requests w)) url = Response 200 (Returned txt) ->
  json_loads E txt = Returned data ->
  is_none data = false ->
  let now := clock E (time_reads (snd (cache_get E key w))) in
  cached_json E key url ttl w
  = (Returned data,
     World (<[key := (data, (now + ttl)%float)]> (cache w))
           (S (time_reads (snd (cache_get E key w)))) (requests w ++ [url])).
Proof.
  intros Hmiss Hhttp Hjson Hdata now. subst now.
  destruct (cache_get_world E key w) as [Hc Hr].
  unfold cached_json, mbind, M_bind.
  destruct (cache_get E key w) as [[cached|e] w0]; cbn [fst snd] in *; [|discriminate].
  injection Hmiss as ->. cbn [is_none negb].
  rewrite fetch_json_eq, Hr, Hhttp. cbn [Z.eqb Pos.eqb obind]. rewrite Hjson, Hdata.
  cbn [negb]. unfold cache_set, time_time, cache_store, mbind, M_bind, mret, M_ret.
  cbn [cache time_reads requests]. now rewrite Hc.
Qed.

(** When the value behind the URL cannot be had, nothing is cached. *)
Lemma cached_json_none (E : externals) (key url : string) (ttl : float) (w : world) :
  fst (cached_json E key url ttl w) = Returned PyNone ->
  cache (snd (cached_json E key url ttl w)) = cache w
  /\ requests (snd (cached_json E key url ttl w)) = requests w ++ [url].
Proof.
  destruct (cache_get_world E key w) as [Hc Hr].
  unfold cached_json, mbind, M_bind.
  destruct (cache_get E key w) as [[cached|e] w0] eqn:Hget; cbn [fst snd] in *.
  - destruct (is_none cached) eqn:Hcached; cbn [negb].
    + rewrite fetch_json_eq.
      destruct (match http E (length (requests w0)) url with
                | TransportFailure e => Raised e
                | Response status body =>
                    if (status =? 200)%Z then obind body (json_loads E) else Returned PyNone
                end) as [data|e]; [|discriminate].
      destruct (is_none data) eqn:Hdata; cbn [negb].
      * intros _. cbn. now rewrite Hc, Hr.
      * unfold cache_set, time_time, cache_store, mbind, M_bind, mret, M_ret. cbn.
        intros H. injection H as ->. discriminate.
    + unfold mret, M_ret. cbn. intros H. injection H as ->. discriminate.
  - rewrite cache_get_eq in Hget. destruct (cache w !! key); discriminate.
Qed.

(** X8: a status record fetched after a miss is served from the cache from
    then on: it is stored for 1800 seconds, and every later call that finds
    the entry and reads the clock before its expiry returns the record
    without sending a request. *)
Theorem get_status_round_trip (E : externals) (package version txt : string) (data : pyval)
        (w : world) :
  let key := "status:" +:+ package +:+ "/" +:+ version in
  let url := SAGE_BASE +:+ "/" +:+ package +:+ "/" +:+ version +:+ "/status.json" in
  let w0 := snd (cache_get E key w) in
  let expiry := (clock E (time_reads w0) + 1800)%float in
  fst (cache_get E key w) = Returned PyNone ->
  http E (length (requests w)) url = Response 200 (Returned txt) ->
  json_loads E txt = Returned data ->
  is_none data = false ->
  get_status E package version w
  = (Returned data,
     World (<[key := (data, expiry)]> (cache w)) (S (time_reads w0)) (requests w ++ [url]))
  /\ forall w',
       cache w' !! key = Some (data, expiry) ->
       PrimFloat.ltb (clock E (time_reads w')) expiry = true ->
       get_status E package version w'
       = (Returned data, World (cache w') (S (time_reads w')) (requests w')).
Proof.
  intros key url w0 expiry Hmiss Hhttp Hjson Hdata. rewrite get_status_cached_json. split.
  - exact (cached_json_fetch E key url txt 1800 data w Hmiss Hhttp Hjson Hdata).
  - intros w' Hkey Hfresh. now apply (cached_json_hit E key url 1800 expiry).
Qed.

Lemma get_status_round_trip_witness :
  let key := "status:demo/2.0" in
  let url := "https://sage.ci.dev/current/p/demo/2.0/status.json" in
  let expiry := (clock demo_env 0 + 1800)%float in
  fst (cache_get demo_env key initial_world) = Returned PyNone
  /\ http demo_env 0 url = Response 200 (Returned "status")
  /\ json_loads demo_env "status" = Returned demo_status
  /\ is_none demo_status = false
  /\ get_status demo_env "demo" "2.0" initial_world
     = (Returned demo_status, World (<[key := (demo_status, expiry)]> ∅) 1 [url])
  /\ forall w',
       cache w' !! key = Some (demo_status, expiry) ->
       PrimFloat.ltb (clock demo_env (time_reads w')) expiry = true ->
       get_status demo_env "demo" "2.0" w'
       = (Returned demo_status, World (cache w') (S (time_reads w')) (requests w')).
Proof.
  intros key url expiry.
  split; [reflexivity|]. split; [reflexivity|]. split; [reflexivity|]. split; [reflexivity|].
  apply (get_status_round_trip demo_env "demo" "2.0" "status" demo_status initial_world);
    reflexivity.
Defined.

(** X9: a documentation page fetched after a miss is served from the cache
    from then on: it is stored for 600 seconds, and every later call that
    finds the entry and reads the clock before its expiry returns the page
    without sending a request. *)
Theorem get_doc_json_round_trip (E : externals) (package version path txt : string)
        (data : pyval) (w : world) :
  let key := "doc:" +:+ package +:+ "/" +:+ version +:+ "/" +:+ path in
  let url := SAGE_BASE +:+ "/" +:+ package +:+ "/" +:+ version +:+ "/" +:+ path in
  let w0 := snd (cache_get E key w) in
  let expiry := (clock E (time_reads w0) + 600)%float in
  fst (cache_get E key w) = Returned PyNone ->
  http E (length (requests w)) url = Response 200 (Returned txt) ->
  json_loads E txt = Returned data ->
  is_none data = false ->
  get_doc_json E package version path w
  = (Returned data,
     World (<[key := (data, expiry)]> (cache w)) (S (time_reads w0)) (requests w ++ [url]))
  /\ forall w',
       cache w' !! key = Some (data, expiry) ->
       PrimFloat.ltb (clock E (time_reads w')) expiry = true ->
       get_doc_json E package version path w'
       = (Returned data, World (cache w') (S (time_reads w')) (requests w')).
Proof.
  intros key url w0 expiry Hmiss Hhttp Hjson Hdata. rewrite get_doc_json_cached_json. split.
  - exact (cached_json_fetch E key url txt 600 data w Hmiss Hhttp Hjson Hdata).
  - intros w' Hkey Hfresh. now apply (cached_json_hit E key url 600 expiry).
Qed.

Lemma get_doc_json_round_trip_witness :
  let key := "doc:demo/1.0/doc/index.html.json" in
  let url := "https://sage.ci.dev/current/p/demo/1.0/doc/index.html.json" in
  let expiry := (clock site_env 0 + 600)%float in
  fst (cache_get site_env key initial_world) = Returned PyNone
  /\ http site_env 0 url = Response 200 (Returned "doc")
  /\ json_loads site_env "doc" = Returned site_doc
  /\ is_none site_doc = false
  /\ get_doc_json site_env "demo" "1.0" "doc/index.html.json" initial_world
     = (Returned site_doc, World (<[key := (site_doc, expiry)]> ∅) 1 [url])
  /\ forall w',
       cache w' !! key = Some (site_doc, expiry) ->
       PrimFloat.ltb (clock site_env (time_reads w')) expiry = true ->
       get_doc_json site_env "demo" "1.0" "doc/index.html.json" w'
       = (Returned site_doc, World (cache w') (S (time_reads w')) (requests w')).
Proof.
  intros key url expiry.
  split; [reflexivity|]. split; [reflexivity|]. split; [reflexivity|]. split; [reflexivity|].
  apply (get_doc_json_round_trip site_env "demo" "1.0" "doc/index.html.json" "doc" site_doc
           initial_world); reflexivity.
Defined.

(** X10: failures are not cached.  Whenever [get_status] or [get_doc_json]
    returns [None], it has sent its request and has left the cache as it
    was, so the next call asks the server again. *)
Theorem failed_fetch_not_cached (E : externals) (package version path : string) (w : world) :
  (fst (get_status E package version w) = Returned PyNone ->
   cache (snd (get_status E package version w)) = cache w
   /\ requests (snd (get_status E package version w))
      = requests w ++ [SAGE_BASE +:+ "/" +:+ package +:+ "/" +:+ version +:+ "/status.json"])
  /\ (fst (get_doc_json E package version path w) = Returned PyNone ->
      cache (snd (get_doc_json E package version path w)) = cache w
      /\ requests (snd (get_doc_json E package version path w))
         = requests w ++ [SAGE_BASE +:+ "/" +:+ package +:+ "/" +:+ version +:+ "/" +:+ path]).
Proof.
  rewrite get_status_cached_json, get_doc_json_cached_json.
  split; apply cached_json_none.
Qed.

Lemma failed_fetch_not_cached_witness :
  (fst (get_status demo_env "demo" "3.0" initial_world) = Returned PyNone
   /\ cache (snd (get_status demo_env "demo" "3.0" initial_world)) = cache initial_world
   /\ requests (snd (get_status demo_env "demo" "3.0" initial_world))
      = requests initial_world ++ ["https://sage.ci.dev/current/p/demo/3.0/status.json"])
  /\ (fst (get_doc_json demo_env "demo" "3.0" "doc/index.html.json" initial_world)
      = Returned PyNone
      /\ cache (snd (get_doc_json demo_env "demo" "3.0" "doc/index.html.json" initial_world))
         = cache initial_world
      /\ requests (snd (get_doc_json demo_env "demo" "3.0" "doc/index.html.json" initial_world))
         = requests initial_world
           ++ ["https://sage.ci.dev/current/p/demo/3.0/doc/index.html.json"]).
Proof.
  destruct (failed_fetch_not_cached demo_env "demo" "3.0" "doc/index.html.json" initial_world)
    as [Hstatus Hdoc].
  split; (split; [reflexivity|]); [apply Hstatus | apply Hdoc]; reflexivity.
Defined.

(** A version listing fetched after a miss, and what the resolver makes of
    a listing. *)
Lemma resolve_version_fetch (E : externals) (package html : string)
      (version : option string) (vs : list string) (w : world) :
  let key := "versions:" +:+ package in
  let url := SAGE_BASE +:+ "/" +:+ package +:+ "/" in
  let w0 := snd (cache_get E key w) in
  version_given version = false ->
  fst (cache_get E key w) = Returned PyNone ->
  http E (length (requests w)) url = Response 200 (Returned html) ->
  parse_directory_listing E html = Returned vs ->
  resolve_version E package version w
  = (match vs with
     | [] => Returned None
     | _ :: _ => find_latest_version E (py_strs vs)
     end,
     World (<[key := (py_strs vs, (clock E (time_reads w0) + 1800)%float)]> (cache w))
           (S (time_reads w0)) (requests w ++ [url])).
Proof.
  intros key url w0 Hversion Hmiss Hhttp Hparse. subst w0.
  destruct (cache_get_world E key w) as [Hc Hr].
  unfold resolve_version. rewrite Hversion. unfold mbind, M_bind. fold key.
  destruct (cache_get E key w) as [[cached|e] w0]; cbn [fst snd] in *; [|discriminate].
  injection Hmiss as ->. cbn [is_none].
  rewrite fetch_text_eq, Hr. fold url. rewrite Hhttp. cbn [Z.eqb Pos.eqb obind].
  unfold lift. rewrite Hparse.
  unfold cache_set, time_time, cache_store, mbind, M_bind, mret, M_ret.
  cbn [cache time_reads requests]. rewrite Hc.
  destruct vs; reflexivity.
Qed.

Lemma resolve_version_hit (E : externals) (package : string) (version : option string)
      (vs : list string) (expiry : float) (w : world) :
  version_given version = false ->
  cache w !! ("versions:" +:+ package) = Some (py_strs vs, expiry) ->
  PrimFloat.ltb (clock E (time_reads w)) expiry = true ->
  resolve_version E package version w
  = (match vs with
     | [] => Returned None
     | _ :: _ => find_latest_version E (py_strs vs)
     end,
     World (cache w) (S (time_reads w)) (requests w)).
Proof.
  intros Hversion Hkey Hfresh. unfold resolve_version. rewrite Hversion.
  unfold mbind, M_bind. rewrite cache_get_eq, Hkey. cbn [fst snd]. rewrite Hfresh.
  destruct vs; reflexivity.
Qed.

(** X11: a version listing fetched after a miss is cached for 1800
    seconds, also when it is empty: later calls that find the entry before
    its expiry answer from it without a request, with the latest version
    of the listing, or with [None] (package not found) for the empty
    listing. *)
Theorem resolve_version_round_trip (E : externals) (package html : string)
        (version : option string) (vs : list string) (w : world) :
  let key := "versions:" +:+ package in
  let url := SAGE_BASE +:+ "/" +:+ package +:+ "/" in
  let w0 := snd (cache_get E key w) in
  let expiry := (clock E (time_reads w0) + 1800)%float in
  let answer := match vs with
                | [] => Returned None
                | _ :: _ => find_latest_version E (py_strs vs)
                end in
  version_given version = false ->
  fst (cache_get E key w) = Returned PyNone ->
  http E (length (requests w)) url = Response 200 (Returned html) ->
  parse_directory_listing E html = Returned vs ->
  resolve_version E package version w
  = (answer, World (<[key := (py_strs vs, expiry)]> (cache w))
                   (S (time_reads w0)) (requests w ++ [url]))
  /\ forall w',
       cache w' !! key = Some (py_strs vs, expiry) ->
       PrimFloat.ltb (clock E (time_reads w')) expiry = true ->
       resolve_version E package version w'
       = (answer, World (cache w') (S (time_reads w')) (requests w')).
Proof.
  intros key url w0 expiry answer Hversion Hmiss Hhttp Hparse. split.
  - exact (resolve_version_fetch E package html version vs w Hversion Hmiss Hhttp Hparse).
  - intros w' Hkey Hfresh. now apply resolve_version_hit with (expiry := expiry).
Qed.

(** The package [empty] has an empty listing page: it is reported as not
    found, and the empty listing is cached. *)
Lemma resolve_version_round_trip_witness :
  let key := "versions:empty" in
  let url := "https://sage.ci.dev/current/p/empty/" in
  let expiry := (clock site_env 0 + 1800)%float in
  version_given None = false
  /\ fst (cache_get site_env key initial_world) = Returned PyNone
  /\ http site_env 0 url = Response 200 (Returned "nothing")
  /\ parse_directory_listing site_env "nothing" = Returned []
  /\ resolve_version site_env "empty" None initial_world
     = (Returned None, World (<[key := (PyList [], expiry)]> ∅) 1 [url])
  /\ forall w',
       cache w' !! key = Some (PyList [], expiry) ->
       PrimFloat.ltb (clock site_env (time_reads w')) expiry = true ->
       resolve_version site_env "empty" None w'
       = (Returned None, World (cache w') (S (time_reads w')) (requests w')).
Proof.
  intros key url expiry.
  split; [reflexivity|]. split; [reflexivity|]. split; [reflexivity|]. split; [reflexivity|].
  apply (resolve_version_round_trip site_env "empty" "nothing" None [] initial_world);
    reflexivity.
Defined.

(** ** Package search *)

Lemma matching_packages_strs (q : string) (names : list string) :
  matching_packages q (map PyStr names)
  = Returned (map PyStr (filter (fun p => Str.contains (Str.lower p) q) names)).
Proof.
  induction names as [|p names IH]; [reflexivity|].
  simpl matching_packages. rewrite IH. cbn [obind].
  destruct (Str.contains (Str.lower p) q) eqn:Hp.
  - now rewrite filter_cons_True by now rewrite Hp.
  - now rewrite filter_cons_False by now rewrite Hp.
Qed.

Lemma contains_empty (s : string) : Str.contains s EmptyString = true.
Proof. now destruct s. Qed.

(** X12: [search_package_names] returns the first 50 of the packages whose
    lower-cased name contains the lower-cased query, in the order of the
    index, and counts all of them in [total_matches]; the empty query
    matches every package. *)
Theorem search_package_names_matches (E : externals) (query : string) (names : list string)
        (w : world) :
  fst (get_all_packages E w) = Returned (py_strs names) ->
  let matches :=
    filter (fun p => Str.contains (Str.lower p) (Str.lower query)) names in
  fst (search_package_names E query w)
  = Returned (PyDict [("query", PyStr query); ("matches", py_strs (take 50 matches));
                      ("total_matches", PyInt (Z.of_nat (length matches)))])
  /\ (length (take 50 matches) <= 50)%nat
  /\ (query = EmptyString -> matches = names).
Proof.
  intros Hpackages matches. split; [|split].
  - unfold search_package_names, try_except, mbind, M_bind.
    destruct (get_all_packages E w) as [[packages|e] w1]; cbn [fst] in Hpackages;
      [|discriminate].
    injection Hpackages as ->. unfold lift, py_strs. cbn [py_iter].
    rewrite matching_packages_strs. fold matches. cbn [fst mret M_ret].
    now rewrite firstn_map, length_map.
  - rewrite length_take. lia.
  - intros ->. subst matches. clear Hpackages. simpl Str.lower.
    induction names as [|p names IH]; [reflexivity|].
    rewrite filter_cons_True by now rewrite contains_empty.
    now rewrite IH.
Qed.

Lemma search_package_names_matches_witness :
  fst (get_all_packages site_env initial_world) = Returned (py_strs ["Lwt_ppx"; "cohttp"; "lwt"])
  /\ let matches :=
       filter (fun p => Str.contains (Str.lower p) (Str.lower "LWT"))
              ["Lwt_ppx"; "cohttp"; "lwt"] in
     fst (search_package_names site_env "LWT" initial_world)
     = Returned (PyDict [("query", PyStr "LWT"); ("matches", py_strs (take 50 matches));
                         ("total_matches", PyInt (Z.of_nat (length matches)))])
     /\ (length (take 50 matches) <= 50)%nat
     /\ ("LWT" = EmptyString -> matches = ["Lwt_ppx"; "cohttp"; "lwt"]).
Proof.
  split; [reflexivity|].
  apply (search_package_names_matches site_env "LWT" ["Lwt_ppx"; "cohttp"; "lwt"]
           initial_world).
  reflexivity.
Defined.

Example search_is_case_insensitive :
  fst (search_package_names site_env "LWT" initial_world)
  = Returned (PyDict [("query", PyStr "LWT"); ("matches", py_strs ["Lwt_ppx"; "lwt"]);
                      ("total_matches", PyInt 2)]).
Proof. vm_compute. reflexivity. Qed.

(** X13: when the package index cannot be fetched (any status but 200),
    [search_package_names] does not report an error: it answers with no
    match, and nothing is cached, so the next call asks for the index
    again. *)
Theorem search_package_names_index_unavailable (E : externals) (query : string)
        (status : Z) (body : outcome string) (w : world) :
  let url := SAGE_BASE +:+ "/" in
  fst (cache_get E "all_packages" w) = Returned PyNone ->
  http E (length (requests w)) url = Response status body ->
  status <> 200%Z ->
  fst (search_package_names E query w)
  = Returned (PyDict [("query", PyStr query); ("matches", PyList []);
                      ("total_matches", PyInt 0)])
  /\ cache (snd (search_package_names E query w)) = cache w
  /\ requests (snd (search_package_names E query w)) = requests w ++ [url].
Proof.
  intros url Hmiss Hhttp Hstatus.
  destruct (cache_get_world E "all_packages" w) as [Hc Hr].
  unfold search_package_names, try_except, get_all_packages, mbind, M_bind.
  destruct (cache_get E "all_packages" w) as [[cached|e] w0]; cbn [fst snd] in *;
    [|discriminate].
  injection Hmiss as ->. cbn [is_none negb].
  rewrite fetch_text_eq, Hr. fold url. rewrite Hhttp.
  apply Z.eqb_neq in Hstatus. rewrite Hstatus. cbn. now rewrite Hc.
Qed.

Lemma search_package_names_index_unavailable_witness :
  let url := "https://sage.ci.dev/current/p/" in
  fst (cache_get demo_env "all_packages" initial_world) = Returned PyNone
  /\ http demo_env 0 url = Response 404 (Returned "not found")
  /\ 404%Z <> 200%Z
  /\ fst (search_package_names demo_env "lwt" initial_world)
     = Returned (PyDict [("query", PyStr "lwt"); ("matches", PyList []);
                         ("total_matches", PyInt 0)])
  /\ cache (snd (search_package_names demo_env "lwt" initial_world)) = cache initial_world
  /\ requests (snd (search_package_names demo_env "lwt" initial_world))
     = requests initial_world ++ [url].
Proof.
  intros url.
  split; [reflexivity|]. split; [reflexivity|]. split; [lia|].
  apply (search_package_names_index_unavailable demo_env "lwt" 404 (Returned "not found")
           initial_world); [reflexivity | reflexivity | lia].
Defined.

(** ** Search by signature *)

(** The signature of a result dictionary is the text of the item's [pre]
    element; an item without one has no signature. *)
Lemma sherlodoc_result_signature (item : node) :
  assoc "signature" (sherlodoc_result item)
  = match tag_find "pre" item with
    | Some pre => Some (PyStr (get_text_strip pre))
    | None => None
    end.
Proof.
  unfold sherlodoc_result. destruct (tag_find "pre" item) as [pre|]; [reflexivity|].
  cbn [app]. destruct (tag_find_class "div" "comment" item) as [comment|]; [|reflexivity].
  destruct (map get_text_strip (tag_find_all "p" comment)); reflexivity.
Qed.

Lemma sherlodoc_results_spec (items : list node) :
  (length (sherlodoc_results items) <= length items)%nat
  /\ Forall (fun r => exists item sig,
                 item ∈ items
                 /\ r = PyDict (sherlodoc_result item)
                 /\ assoc "signature" (sherlodoc_result item) = Some (PyStr sig)
                 /\ sig <> EmptyString)
            (sherlodoc_results items).
Proof.
  induction items as [|item items [IHlen IH]]; [split; [simpl; lia | constructor]|].
  assert (Hrest : Forall (fun r => exists item' sig,
                              item' ∈ item :: items
                              /\ r = PyDict (sherlodoc_result item')
                              /\ assoc "signature" (sherlodoc_result item') = Some (PyStr sig)
                              /\ sig <> EmptyString)
                         (sherlodoc_results items)).
  { eapply Forall_impl; [exact IH|]. intros r (item' & sig & Hin & H).
    exists item', sig. split; [apply elem_of_cons; now right | exact H]. }
  simpl sherlodoc_results.
  destruct (truthy (default PyNone (assoc "signature" (sherlodoc_result item)))) eqn:Hsig.
  - split; [simpl; lia|]. constructor; [|exact Hrest].
    rewrite sherlodoc_result_signature in Hsig.
    destruct (tag_find "pre" item) as [pre|] eqn:Hpre; [|discriminate].
    exists item, (get_text_strip pre). split; [apply elem_of_cons; now left|].
    split; [reflexivity|]. split; [now rewrite sherlodoc_result_signature, Hpre|].
    intros Hempty. cbn [default truthy] in Hsig. now rewrite Hempty in Hsig.
  - split; [simpl; lia | exact Hrest].
Qed.

(** X14: on a 200 answer that parses, [sherlodoc] sends its one request
    and returns at most 20 results, each built from one of the first 20
    [li] elements of the answer and carrying a non-empty signature;
    [total_results] is the number of results returned. *)
Theorem sherlodoc_results_shape (E : externals) (query html : string) (soup : list node)
        (w : world) :
  let url := "https://doc.sherlocode.com/api?q=" +:+ quote E query in
  http E (length (requests w)) url = Response 200 (Returned html) ->
  BeautifulSoup E (PyStr html) = Returned soup ->
  exists results,
    sherlodoc E query w
    = (Returned (PyDict [("query", PyStr query); ("results", PyList results);
                         ("total_results", PyInt (Z.of_nat (length results)))]),
       World (cache w) (time_reads w) (requests w ++ [url]))
    /\ (length results <= 20)%nat
    /\ Forall (fun r => exists item sig,
                   item ∈ take 20 (map elt (find_all "li" soup))
                   /\ r = PyDict (sherlodoc_result item)
                   /\ assoc "signature" (sherlodoc_result item) = Some (PyStr sig)
                   /\ sig <> EmptyString)
              results.
Proof.
  intros url Hhttp Hsoup.
  exists (sherlodoc_results (take 20 (map elt (find_all "li" soup)))).
  destruct (sherlodoc_results_spec (take 20 (map elt (find_all "li" soup)))) as [Hlen Hall].
  split; [|split; [|exact Hall]].
  - unfold sherlodoc, try_except, session_get, mbind, M_bind. cbn [fst snd]. fold url.
    rewrite Hhttp. cbn [Z.eqb Pos.eqb negb lift]. now rewrite Hsoup.
  - rewrite length_take in Hlen. lia.
Qed.

Lemma sherlodoc_results_shape_witness :
  let url := "https://doc.sherlocode.com/api?q=map" in
  http site_env 0 url = Response 200 (Returned "results")
  /\ BeautifulSoup site_env (PyStr "results") = Returned site_results
  /\ exists results,
       sherlodoc site_env "map" initial_world
       = (Returned (PyDict [("query", PyStr "map"); ("results", PyList results);
                            ("total_results", PyInt (Z.of_nat (length results)))]),
          World ∅ 0 [url])
       /\ (length results <= 20)%nat
       /\ Forall (fun r => exists item sig,
                      item ∈ take 20 (map elt (find_all "li" site_results))
                      /\ r = PyDict (sherlodoc_result item)
                      /\ assoc "signature" (sherlodoc_result item) = Some (PyStr sig)
                      /\ sig <> EmptyString)
                 results.
Proof.
  intros url. split; [reflexivity|]. split; [reflexivity|].
  apply (sherlodoc_results_shape site_env "map" "results" site_results initial_world);
    reflexivity.
Defined.

Example sherlodoc_answer :
  fst (sherlodoc site_env "map" initial_world)
  = Returned
      (PyDict [("query", PyStr "map");
               ("results",
                PyList [PyDict [("signature", PyStr "List.map: ('a -> 'b) -> 'a list -> 'b list");
                                ("url", PyStr "https://ocaml.org/p/ocaml-base-compiler/List.html#val-map");
                                ("module_path", PyStr "List.");
                                ("documentation", PyStr "Apply a function.")]]);
               ("total_results", PyInt 1)]).
Proof. vm_compute. reflexivity. Qed.


(** A request that runs into the total timeout. *)
Example sherlodoc_timeout :
  fst (sherlodoc site_env "slow" initial_world)
  = Returned (error_result "Sherlodoc search failed: ").
Proof. vm_compute. reflexivity. Qed.

(** ** Package overview and module documentation: error and edge cases *)

(** X16: when the version resolver finds no version, [get_package_info]
    and [get_module_doc] both answer that the package was not found, and
    do nothing more: the world is the one the resolver left, so no status
    or documentation request is sent. *)
Theorem package_not_found (E : externals) (package_name module_path : string)
        (version : option string) (w : world) :
  fst (resolve_version E package_name version w) = Returned None ->
  let w1 := snd (resolve_version E package_name version w) in
  let result := error_result ("Package '" +:+ package_name +:+ "' not found on sage.ci.dev") in
  get_package_info E package_name version w = (Returned result, w1)
  /\ get_module_doc E package_name module_path version w = (Returned result, w1).
Proof.
  intros Hnone w1 result. subst w1.
  unfold get_package_info, get_module_doc, try_except, mbind, M_bind.
  destruct (resolve_version E package_name version w) as [[ver|e] w1]; cbn [fst snd] in *;
    [|discriminate].
  injection Hnone as ->. now split.
Qed.

Lemma package_not_found_witness :
  fst (resolve_version demo_env "nosuch" None initial_world) = Returned None
  /\ let w1 := snd (resolve_version demo_env "nosuch" None initial_world) in
     let result := error_result "Package 'nosuch' not found on sage.ci.dev" in
     get_package_info demo_env "nosuch" None initial_world = (Returned result, w1)
     /\ get_module_doc demo_env "nosuch" "Lwt" None initial_world = (Returned result, w1).
Proof.
  split; [reflexivity|].
  apply (package_not_found demo_env "nosuch" "Lwt" None initial_world). reflexivity.
Defined.

(** X17: when the status record of the resolved version cannot be had,
    [get_package_info] and [get_module_doc] both answer that the status
    could not be fetched, naming package and version, and send no
    documentation request.  An explicit version that does not exist ends
    here, since the resolver returns it unchecked. *)
Theorem status_unavailable (E : externals) (package_name module_path ver : string)
        (version : option string) (w w1 : world) :
  resolve_version E package_name version w = (Returned (Some ver), w1) ->
  fst (get_status E package_name ver w1) = Returned PyNone ->
  let w2 := snd (get_status E package_name ver w1) in
  let result := error_result ("Could not fetch status for " +:+ package_name +:+ "/" +:+ ver) in
  get_package_info E package_name version w = (Returned result, w2)
  /\ get_module_doc E package_name module_path version w = (Returned result, w2).
Proof.
  intros Hver Hnone w2 result. subst w2.
  unfold get_package_info, get_module_doc, try_except, mbind, M_bind. rewrite Hver.
  destruct (get_status E package_name ver w1) as [[status|e] w2]; cbn [fst snd] in *;
    [|discriminate].
  injection Hnone as ->. now split.
Qed.

Lemma status_unavailable_witness :
  resolve_version demo_env "demo" (Some "3.0") initial_world
  = (Returned (Some "3.0"), initial_world)
  /\ fst (get_status demo_env "demo" "3.0" initial_world) = Returned PyNone
  /\ let w2 := snd (get_status demo_env "demo" "3.0" initial_world) in
     let result := error_result "Could not fetch status for demo/3.0" in
     get_package_info demo_env "demo" (Some "3.0") initial_world = (Returned result, w2)
     /\ get_module_doc demo_env "demo" "Lwt" (Some "3.0") initial_world = (Returned result, w2).
Proof.
  split; [reflexivity|]. split; [reflexivity|].
  apply (status_unavailable demo_env "demo" "Lwt" "3.0" (Some "3.0") initial_world
           initial_world); reflexivity.
Defined.

(** X18: a missing documentation page is not an error for
    [get_package_info]: when the page is absent or falsy, the overview is
    returned with an empty description and no library, and with the
    [failed] flag read from the status record. *)
Theorem get_package_info_without_docs (E : externals) (package_name ver : string)
        (version : option string) (status failed doc : pyval) (w w1 w2 w3 : world) :
  resolve_version E package_name version w = (Returned (Some ver), w1) ->
  get_status E package_name ver w1 = (Returned status, w2) ->
  is_none status = false ->
  py_get status "failed" (PyBool true) = Returned failed ->
  get_doc_json E package_name ver "doc/index.html.json" w2 = (Returned doc, w3) ->
  truthy doc = false ->
  get_package_info E package_name version w
  = (Returned (PyDict [("package", PyStr package_name); ("version", PyStr ver);
                       ("failed", failed); ("description", PyStr EmptyString);
                       ("libraries", PyList [])]), w3).
Proof.
  intros Hver Hstatus Hsome Hfailed Hdoc Hfalsy.
  unfold get_package_info, try_except, mbind, M_bind.
  rewrite Hver, Hstatus, Hsome. unfold lift. rewrite Hfailed, Hdoc, Hfalsy. reflexivity.
Qed.

Lemma get_package_info_without_docs_witness :
  let w3 := snd (get_doc_json demo_env "demo" "2.0" "doc/index.html.json"
                   demo_world_status_2) in
  resolve_version demo_env "demo" (Some "2.0") initial_world
  = (Returned (Some "2.0"), initial_world)
  /\ get_status demo_env "demo" "2.0" initial_world = (Returned demo_status, demo_world_status_2)
  /\ is_none demo_status = false
  /\ py_get demo_status "failed" (PyBool true) = Returned (PyBool true)
  /\ get_doc_json demo_env "demo" "2.0" "doc/index.html.json" demo_world_status_2
     = (Returned PyNone, w3)
  /\ truthy PyNone = false
  /\ get_package_info demo_env "demo" (Some "2.0") initial_world
     = (Returned (PyDict [("package", PyStr "demo"); ("version", PyStr "2.0");
                          ("failed", PyBool true); ("description", PyStr EmptyString);
                          ("libraries", PyList [])]), w3).
Proof.
  intros w3.
  split; [reflexivity|]. split; [reflexivity|]. split; [reflexivity|].
  split; [reflexivity|]. split; [reflexivity|]. split; [reflexivity|].
  apply (get_package_info_without_docs demo_env "demo" "2.0" (Some "2.0") demo_status
           (PyBool true) PyNone initial_world initial_world demo_world_status_2 w3);
    reflexivity.
Defined.

(** X19: when the module's file is found and its page is fetched,
    [get_module_doc] returns package, version and module as given, the
    preamble text, and the items of the first 100 spec containers of the
    page's content, in order; the keys [truncated] and [note] are present
    exactly when the content holds more than 100 containers.  The page is
    the one stored beside the matched file, under its name followed by
    [.json]. *)
Theorem get_module_doc_found (E : externals) (package_name module_path ver matched_file : string)
        (version : option string) (status files doc pre content_html : pyval)
        (preamble : string) (soup : list node) (w w1 w2 w3 : world) :
  resolve_version E package_name version w = (Returned (Some ver), w1) ->
  get_status E package_name ver w1 = (Returned status, w2) ->
  is_none status = false ->
  py_get status "files" (PyList []) = Returned files ->
  find_module_file files module_path = Returned (Some matched_file) ->
  get_doc_json E package_name ver (matched_file +:+ ".json") w2 = (Returned doc, w3) ->
  is_none doc = false ->
  py_get doc "preamble" (PyStr EmptyString) = Returned pre ->
  extract_preamble_text E pre = Returned preamble ->
  py_get doc "content" (PyStr EmptyString) = Returned content_html ->
  document E content_html = Returned soup ->
  let containers := spec_containers soup in
  get_module_doc E package_name module_path version w
  = (Returned
       (PyDict ([("package", PyStr package_name); ("version", PyStr ver);
                 ("module", PyStr module_path); ("preamble", PyStr preamble);
                 ("items", PyList (map item_to_py (map spec_item_of (take 100 containers))))]
                ++ if (100 <? length containers)%nat
                   then [("truncated", PyBool true);
                         ("note",
                          PyStr "Output truncated at 100 items. The module has more entries.")]
                   else [])), w3)
  /\ (length (take 100 containers) <= 100)%nat.
Proof.
  intros Hver Hstatus Hsome Hfiles Hfound Hdoc Hpage Hpre Hpreamble Hcontent Hsoup containers.
  split; [|rewrite length_take; lia].
  unfold get_module_doc, try_except, mbind, M_bind.
  rewrite Hver, Hstatus, Hsome. unfold lift. rewrite Hfiles, Hfound, Hdoc, Hpage.
  rewrite Hpre, Hpreamble, Hcontent.
  rewrite (extract_specs_document E content_html 100 soup Hsoup).
  change (Z.to_nat 100) with 100%nat. fold containers.
  unfold truncation_note. now destruct (100 <? length containers)%nat.
Qed.

(** The module [Zeta] of [demo]: a page with 50 spec containers. *)
Lemma get_module_doc_found_witness :
  let w1 := snd (resolve_version site_env "demo" None initial_world) in
  let w2 := snd (get_status site_env "demo" "1.0" w1) in
  let w3 := snd (get_doc_json site_env "demo" "1.0" "doc/lib/Zeta/index.html.json" w2) in
  let containers := spec_containers (repeat (spec_div "val-x") 50) in
  resolve_version site_env "demo" None initial_world = (Returned (Some "1.0"), w1)
  /\ get_status site_env "demo" "1.0" w1 = (Returned demo_status, w2)
  /\ is_none demo_status = false
  /\ py_get demo_status "files" (PyList []) = Returned (py_strs demo_files)
  /\ find_module_file (py_strs demo_files) "Zeta" = Returned (Some "doc/lib/Zeta/index.html")
  /\ get_doc_json site_env "demo" "1.0" ("doc/lib/Zeta/index.html" +:+ ".json") w2
     = (Returned site_doc, w3)
  /\ is_none site_doc = false
  /\ py_get site_doc "preamble" (PyStr EmptyString) = Returned (PyStr "preamble")
  /\ extract_preamble_text site_env (PyStr "preamble") = Returned "A demo library."
  /\ py_get site_doc "content" (PyStr EmptyString) = Returned (PyStr "50 specs")
  /\ document site_env (PyStr "50 specs") = Returned (repeat (spec_div "val-x") 50)
  /\ get_module_doc site_env "demo" "Zeta" None initial_world
     = (Returned
          (PyDict ([("package", PyStr "demo"); ("version", PyStr "1.0");
                    ("module", PyStr "Zeta"); ("preamble", PyStr "A demo library.");
                    ("items",
                     PyList (map item_to_py (map spec_item_of (take 100 containers))))]
                   ++ if (100 <? length containers)%nat
                      then [("truncated", PyBool true);
                            ("note",
                             PyStr "Output truncated at 100 items. The module has more entries.")]
                      else [])), w3)
  /\ (length (take 100 containers) <= 100)%nat.
Proof.
  intros w1 w2 w3 containers.
  split; [reflexivity|]. split; [reflexivity|]. split; [reflexivity|].
  split; [reflexivity|]. split; [reflexivity|]. split; [reflexivity|].
  split; [reflexivity|]. split; [reflexivity|]. split; [reflexivity|].
  split; [reflexivity|]. split; [reflexivity|].
  apply (get_module_doc_found site_env "demo" "Zeta" "1.0" "doc/lib/Zeta/index.html" None
           demo_status (py_strs demo_files) site_doc (PyStr "preamble") (PyStr "50 specs")
           "A demo library." (repeat (spec_div "val-x") 50) initial_world w1 w2 w3);
    reflexivity.
Defined.

(** ** Local documentation *)















(** What the file read in the example above is reported as. *)
Example absolute_module_path_answer :
  fst (get_local_module_doc host_env "/opt/notes" initial_world)
  = Returned (PyDict [("library", PyStr "base"); ("module", PyStr "/opt/notes");
                      ("preamble", PyStr EmptyString); ("items", PyList [])]).
Proof. vm_compute. reflexivity. Qed.

(** ** The listing of local modules *)

(** X22: a listing scanned after a miss is cached for 300 seconds, and the
    cache is consulted before the file system: every later call that
    finds the entry and reads the clock before its expiry returns the
    listing without looking at the docs directory, whatever has become of
    it. *)
Theorem list_local_modules_round_trip (E : externals) (root : string) (modules : list pyval)
        (w : world) :
  let w0 := snd (cache_get E "local_modules" w) in
  let expiry := (clock E (time_reads w0) + 300)%float in
  let result := PyDict [("modules", PyList modules);
                        ("total", PyInt (Z.of_nat (length modules)))] in
  local_docs_root E = Some root ->
  fst (cache_get E "local_modules" w) = Returned PyNone ->
  fs_is_dir E root = true ->
  _scan_local_modules E root = Returned modules ->
  list_local_modules E w
  = (Returned result,
     World (<["local_modules" := (result, expiry)]> (cache w)) (S (time_reads w0)) (requests w))
  /\ forall E' root' w',
       local_docs_root E' = Some root' ->
       cache w' !! "local_modules" = Some (result, expiry) ->
       PrimFloat.ltb (clock E' (time_reads w')) expiry = true ->
       list_local_modules E' w'
       = (Returned result, World (cache w') (S (time_reads w')) (requests w')).
Proof.
  intros w0 expiry result Hroot Hmiss Hdir Hscan. split.
  - subst w0 expiry. destruct (cache_get_world E "local_modules" w) as [Hc Hr].
    unfold list_local_modules. rewrite Hroot. unfold mbind, M_bind.
    destruct (cache_get E "local_modules" w) as [[cached|e] w0]; cbn [fst snd] in *;
      [|discriminate].
    injection Hmiss as ->. cbn [is_none negb]. rewrite Hdir. cbn [negb].
    unfold lift. rewrite Hscan.
    unfold cache_set, time_time, cache_store, mbind, M_bind, mret, M_ret.
    cbn [cache time_reads requests]. now rewrite Hc, Hr.
  - intros E' root' w' Hroot' Hkey Hfresh.
    unfold list_local_modules. rewrite Hroot'. unfold mbind, M_bind.
    rewrite cache_get_eq, Hkey. cbn [fst snd]. rewrite Hfresh. reflexivity.
Qed.

Lemma list_local_modules_round_trip_witness :
  let modules := [PyDict [("library", PyStr "base"); ("module_path", PyStr "Map.Make")];
                  PyDict [("library", PyStr "base"); ("module_path", PyStr "Map")];
                  PyDict [("library", PyStr "core"); ("module_path", PyStr "Map")]] in
  let expiry := (clock host_env 0 + 300)%float in
  let result := PyDict [("modules", PyList modules);
                        ("total", PyInt (Z.of_nat (length modules)))] in
  local_docs_root host_env = Some "/srv/docs"
  /\ fst (cache_get host_env "local_modules" initial_world) = Returned PyNone
  /\ fs_is_dir host_env "/srv/docs" = true
  /\ _scan_local_modules host_env "/srv/docs" = Returned modules
  /\ list_local_modules host_env initial_world
     = (Returned result, World (<["local_modules" := (result, expiry)]> ∅) 1 [])
  /\ forall E' root' w',
       local_docs_root E' = Some root' ->
       cache w' !! "local_modules" = Some (result, expiry) ->
       PrimFloat.ltb (clock E' (time_reads w')) expiry = true ->
       list_local_modules E' w'
       = (Returned result, World (cache w') (S (time_reads w')) (requests w')).
Proof.
  intros modules expiry result.
  split; [reflexivity|]. split; [reflexivity|]. split; [reflexivity|]. split; [reflexivity|].
  apply (list_local_modules_round_trip host_env "/srv/docs" modules initial_world);
    reflexivity.
Defined.

Lemma library_modules_elem (nm : string) (found : list (list string)) (entry : pyval) :
  entry ∈ library_modules nm found ->
  exists rel,
    rel ∈ found
    /\ (2 <= length rel)%nat
    /\ entry = PyDict [("library", PyStr nm);
                       ("module_path", PyStr (Str.join "." (removelast rel)))].
Proof.
  unfold library_modules. rewrite list_elem_of_In, in_flat_map.
  intros (rel & Hrel & Hentry). exists rel.
  rewrite <- list_elem_of_In in Hrel. apply elem_of_sorted_by in Hrel.
  split; [exact Hrel|].
  destruct rel as [|a [|b rel]]; try (now destruct Hentry).
  split; [simpl; lia|].
  destruct (removelast (a :: b :: rel)) as [|p parts] eqn:Hparts; [now destruct Hentry|].
  destruct Hentry as [<-|[]]. reflexivity.
Qed.

Lemma scan_libraries_elem (E : externals) (root : string) (names : list string)
      (modules : list pyval) (entry : pyval) :
  scan_libraries E root names = Returned modules ->
  entry ∈ modules ->
  exists nm found rel,
    nm ∈ names
    /\ is_library_dir E root nm = true
    /\ fs_rglob E (child root nm) "index.html.json" = Returned found
    /\ rel ∈ found
    /\ (2 <= length rel)%nat
    /\ entry = PyDict [("library", PyStr nm);
                       ("module_path", PyStr (Str.join "." (removelast rel)))].
Proof.
  revert modules. induction names as [|nm names IH]; intros modules Hscan Hentry.
  - injection Hscan as <-. now apply elem_of_nil in Hentry.
  - assert (Hrest : forall more, scan_libraries E root names = Returned more -> entry ∈ more ->
                      exists nm' found rel,
                        nm' ∈ nm :: names
                        /\ is_library_dir E root nm' = true
                        /\ fs_rglob E (child root nm') "index.html.json" = Returned found
                        /\ rel ∈ found
                        /\ (2 <= length rel)%nat
                        /\ entry = PyDict [("library", PyStr nm');
                                           ("module_path",
                                            PyStr (Str.join "." (removelast rel)))]).
    { intros more Hmore Hin. destruct (IH more Hmore Hin) as (nm' & found & rel & Hnm & H).
      exists nm', found, rel. split; [apply elem_of_cons; now right | exact H]. }
    simpl scan_libraries in Hscan.
    destruct (is_library_dir E root nm) eqn:Hdir; [|now apply (Hrest modules)].
    unfold mbind, outcome_bind in Hscan.
    destruct (fs_rglob E (child root nm) "index.html.json") as [found|e] eqn:Hfound;
      [|discriminate]. cbn [obind] in Hscan.
    destruct (scan_libraries E root names) as [more|e]; [|discriminate].
    cbn [obind] in Hscan. injection Hscan as <-.
    apply elem_of_app in Hentry as [Hentry|Hentry]; [|now apply (Hrest more)].
    apply library_modules_elem in Hentry as (rel & Hrel & Hlen & ->).
    exists nm, found, rel. split; [apply elem_of_cons; now left|]. auto.
Qed.

(** X23: every entry [_scan_local_modules] returns names a library that is
    an entry of the docs root, a directory, and not [odoc.support], and a
    module path obtained from an [index.html.json] found below that
    library: the components of its relative path without the file name,
    joined by dots.  The page of the library itself (a relative path of
    one component) is never listed. *)
Theorem scan_local_modules_entries (E : externals) (root : string) (modules : list pyval)
        (entry : pyval) :
  _scan_local_modules E root = Returned modules ->
  entry ∈ modules ->
  exists names nm found rel,
    fs_iterdir E root = Returned names
    /\ nm ∈ names
    /\ fs_is_dir E (child root nm) = true
    /\ nm <> "odoc.support"
    /\ fs_rglob E (child root nm) "index.html.json" = Returned found
    /\ rel ∈ found
    /\ (2 <= length rel)%nat
    /\ entry = PyDict [("library", PyStr nm);
                       ("module_path", PyStr (Str.join "." (removelast rel)))].
Proof.
  unfold _scan_local_modules, sorted_entries, mbind, outcome_bind.
  destruct (fs_iterdir E root) as [names|e]; [|discriminate]. cbn [obind mret outcome_ret].
  intros Hscan Hentry.
  destruct (scan_libraries_elem E root _ modules entry Hscan Hentry)
    as (nm & found & rel & Hnm & Hdir & Hfound & Hrel & Hlen & ->).
  exists names, nm, found, rel. split; [reflexivity|].
  apply elem_of_sorted_by in Hnm. unfold is_library_dir in Hdir.
  apply andb_prop in Hdir as [Hdir Hskip].
  split; [exact Hnm|]. split; [exact Hdir|]. split; [|auto].
  intros ->. discriminate.
Qed.

Lemma scan_local_modules_entries_witness :
  let modules := [PyDict [("library", PyStr "base"); ("module_path", PyStr "Map.Make")];
                  PyDict [("library", PyStr "base"); ("module_path", PyStr "Map")];
                  PyDict [("library", PyStr "core"); ("module_path", PyStr "Map")]] in
  let entry := PyDict [("library", PyStr "base"); ("module_path", PyStr "Map.Make")] in
  _scan_local_modules host_env "/srv/docs" = Returned modules
  /\ entry ∈ modules
  /\ exists names nm found rel,
       fs_iterdir host_env "/srv/docs" = Returned names
       /\ nm ∈ names
       /\ fs_is_dir host_env (child "/srv/docs" nm) = true
       /\ nm <> "odoc.support"
       /\ fs_rglob host_env (child "/srv/docs" nm) "index.html.json" = Returned found
       /\ rel ∈ found
       /\ (2 <= length rel)%nat
       /\ entry = PyDict [("library", PyStr nm);
                          ("module_path", PyStr (Str.join "." (removelast rel)))].
Proof.
  intros modules entry.
  assert (Hin : entry ∈ modules) by (unfold modules, entry; set_solver).
  split; [reflexivity|]. split; [exact Hin|].
  apply (scan_local_modules_entries host_env "/srv/docs" modules entry); [reflexivity | exact Hin].
Defined.

(** ** Command line *)

Lemma index_of_absent (x : string) (args : list string) :
  x ∉ args -> index_of x args = None.
Proof.
  induction args as [|a args IH]; [reflexivity|]. intros Hx.
  apply not_elem_of_cons in Hx as [Hne Hx]. simpl.
  destruct (String.eqb a x) eqn:Heq; [apply String.eqb_eq in Heq; congruence|].
  now rewrite IH.
Qed.

Lemma index_of_first (x : string) (pre post : list string) :
  x ∉ pre -> index_of x (pre ++ x :: post) = Some (length pre).
Proof.
  induction pre as [|a pre IH]; intros Hx.
  - simpl. now rewrite String.eqb_refl.
  - apply not_elem_of_cons in Hx as [Hne Hx]. simpl.
    destruct (String.eqb a x) eqn:Heq; [apply String.eqb_eq in Heq; congruence|].
    now rewrite IH.
Qed.

(** X24: [main] takes out the first [--local-docs] and the argument after
    it, wherever they stand, and keeps the other arguments in order; the
    value is taken as it is, also when it looks like a flag, and a later
    occurrence of the flag stays among the arguments.  Without the flag
    the arguments are left alone and no docs root is set; a flag in last
    position ends the program with status 1. *)
Theorem parse_local_docs_spec (pre post : list string) (value : string) :
  "--local-docs" ∉ pre ->
  parse_local_docs pre = Started None pre
  /\ parse_local_docs (pre ++ "--local-docs" :: value :: post)
     = Started (Some value) (pre ++ post)
  /\ parse_local_docs (pre ++ ["--local-docs"])
     = Exit 1 "Error: --local-docs requires a path argument".
Proof.
  intros Hpre. unfold parse_local_docs. split; [|split].
  - now rewrite index_of_absent.
  - rewrite index_of_first by assumption.
    assert ((length pre + 1 <? length (pre ++ "--local-docs" :: value :: post))%nat = true)
      as -> by (apply Nat.ltb_lt; rewrite length_app; simpl; lia).
    f_equal.
    + f_equal. rewrite app_nth2 by lia.
      now replace (length pre + 1 - length pre)%nat with 1%nat by lia.
    + rewrite take_app_length. f_equal.
      rewrite drop_app_ge by lia.
      now replace (length pre + 2 - length pre)%nat with 2%nat by lia.
  - rewrite index_of_first by assumption.
    assert ((length pre + 1 <? length (pre ++ ["--local-docs"]))%nat = false)
      as -> by (apply Nat.ltb_ge; rewrite length_app; simpl; lia).
    reflexivity.
Qed.

Lemma parse_local_docs_spec_witness :
  ("--local-docs" ∉ ["--test"; "module-doc"])
  /\ parse_local_docs ["--test"; "module-doc"] = Started None ["--test"; "module-doc"]
  /\ parse_local_docs (["--test"; "module-doc"] ++ "--local-docs" :: "--test" :: ["lwt"])
     = Started (Some "--test") (["--test"; "module-doc"] ++ ["lwt"])
  /\ parse_local_docs (["--test"; "module-doc"] ++ ["--local-docs"])
     = Exit 1 "Error: --local-docs requires a path argument".
Proof.
  assert (H : "--local-docs" ∉ ["--test"; "module-doc"]).
  { intros H. repeat (apply elem_of_cons in H as [H|H]; [discriminate|]).
    now apply elem_of_nil in H. }
  split; [exact H|].
  exact (parse_local_docs_spec ["--test"; "module-doc"] ["lwt"] "--test" H).
Defined.

(** The flag may follow the test command, but [--test] must come first
    among the arguments that are left: here the server starts. *)
Example local_docs_value_hides_test :
  match parse_local_docs ["--local-docs"; "--test"; "list-local"] with
  | Started local_docs args => local_docs = Some "--test" /\ select_mode args = ServeMode
  | Exit _ _ => False
  end.
Proof. vm_compute. split; reflexivity. Qed.

(** ** Documentation of a spec item *)

(** X25: the [doc] of an item is the text of the first later sibling of
    its container that is a [div] of class [spec-doc], also when other
    elements stand in between (an undocumented container followed by a
    documented sibling gets the sibling's text); without such a sibling
    it is empty. *)
Theorem spec_doc_from_later_sibling (container : node) (before after : list node) :
  Forall (fun n => is_spec_doc n = false) before ->
  (forall doc_div,
      is_spec_doc doc_div = true ->
      doc (spec_item_of (Loc container (before ++ doc_div :: after)))
      = paragraphs_text (tag_find_all "p" doc_div))
  /\ doc (spec_item_of (Loc container before)) = EmptyString.
Proof.
  intros Hbefore.
  assert (Hdoc : forall siblings,
             doc (spec_item_of (Loc container siblings))
             = match find_next_sibling "div" "spec-doc" (Loc container siblings) with
               | Some doc_div => paragraphs_text (tag_find_all "p" doc_div)
               | None => EmptyString
               end).
  { intros siblings. unfold spec_item_of. now destruct (categorize _). }
  assert (Hskip : forall rest,
             find_next_sibling "div" "spec-doc" (Loc container (before ++ rest))
             = find_next_sibling "div" "spec-doc" (Loc container rest)).
  { intros rest. unfold find_next_sibling. cbn [next_siblings]. f_equal.
    induction Hbefore as [|n before Hn Hbefore IH]; [reflexivity|].
    cbn [app]. rewrite filter_cons_False; [exact IH|].
    unfold is_spec_doc in Hn. now rewrite Hn. }
  split.
  - intros doc_div Hdiv. rewrite Hdoc, Hskip. unfold find_next_sibling. cbn [next_siblings].
    rewrite filter_cons_True; [reflexivity|].
    unfold is_spec_doc in Hdiv. now rewrite Hdiv.
  - rewrite Hdoc. rewrite <- (app_nil_r before), Hskip. reflexivity.
Qed.

Lemma spec_doc_from_later_sibling_witness :
  let documented := Tag "div" ["spec"; "value"] [("id", "val-g")] [] in
  let doc_div := Tag "div" ["spec-doc"] [] [Tag "p" [] [] [NavigableString "About g."]] in
  Forall (fun n => is_spec_doc n = false) [documented]
  /\ (forall doc_div,
         is_spec_doc doc_div = true ->
         doc (spec_item_of (Loc (spec_div "val-f") ([documented] ++ doc_div :: [])))
         = paragraphs_text (tag_find_all "p" doc_div))
  /\ doc (spec_item_of (Loc (spec_div "val-f") [documented])) = EmptyString.
Proof.
  intros documented doc_div.
  assert (H : Forall (fun n => is_spec_doc n = false) [documented])
    by (repeat constructor).
  split; [exact H|].
  exact (spec_doc_from_later_sibling (spec_div "val-f") [documented] [] H).
Defined.

(** The undocumented value [f] is given the text written for [g]. *)
Example doc_of_the_next_item :
  extract_specs
    {| clock := clock demo_env; http := http demo_env; json_loads := json_loads demo_env;
       BeautifulSoup := fun _ =>
         Returned [spec_div "val-f";
                   Tag "div" ["spec"; "value"] [("id", "val-g")] [];
                   Tag "div" ["spec-doc"] [] [Tag "p" [] [] [NavigableString "About g."]]];
       find_latest_version := find_latest_version demo_env; quote := quote demo_env;
       local_docs_root := None; fs_is_dir := fs_is_dir demo_env;
       fs_is_file := fs_is_file demo_env; fs_iterdir := fs_iterdir demo_env;
       fs_read_text := fs_read_text demo_env; fs_rglob := fs_rglob demo_env |}
    (PyStr "two values") 100
  = Returned ([SpecItem "val" "f" "val val-f" "About g."; SpecItem "val" "g" "" "About g."],
              false).
Proof. vm_compute. reflexivity. Qed.
